(** * PyTyle: window entity and master/slave layouts

    A shallow embedding of [PyTyle/Window.py], [PyTyle/Tilers/Vertical.py]
    and [PyTyle/Tilers/Horizontal.py].

    Python objects live in a store ([World]) and are named by references,
    so that a window shared between a screen's membership list, a tiler's
    master list and a caller is one object.  Methods are computations in a
    state monad with exceptions; a raised exception keeps the mutations
    made before it, as in Python.  Calls to the collaborators that are not
    part of these three files (the probe, [State], [Screen]) are recorded
    in the world's [trace].

    Numbers: pixel coordinates are Python ints ([Z]); [/] between two ints
    is the floor division of the Python 2 interpreter the program was
    written for ([Z.div]); the proportion factors are Python floats, that
    is IEEE 754 binary64 values ([spec_float] with precision 53 and
    maximal exponent 1024). *)

From Stdlib Require Import ZArith Bool List Lia Ascii String.
From Stdlib Require Import Floats.SpecFloat.
From stdpp Require Import gmap strings list.
Import ListNotations.

Local Open Scope Z_scope.

(** ** Python floats *)

Module PyFloat.

Definition prec : Z := 53.
Definition emax : Z := 1024.

Definition float := spec_float.

Definition add : float -> float -> float := SFadd prec emax.
Definition sub : float -> float -> float := SFsub prec emax.
Definition mul : float -> float -> float := SFmul prec emax.
Definition div : float -> float -> float := SFdiv prec emax.
Definition ltb : float -> float -> bool := SFltb.
Definition leb : float -> float -> bool := SFleb.

(** [float(n)] for a Python int: the nearest binary64 value.  An int
    beyond the range of doubles gives an infinity here, where Python
    raises [OverflowError] at the conversion; the [int] that follows raises
    in its place, before anything is written. *)
Definition of_int (n : Z) : float := binary_normalize prec emax n 0 false.

(** [int(f)]: truncation towards zero; [None] stands for the
    [OverflowError] (infinities) and [ValueError] (NaN) of Python. *)
Definition to_int (f : float) : option Z :=
  match f with
  | S754_zero _ => Some 0
  | S754_finite s m e =>
      let a := match e with
               | Zneg p => Z.shiftr (Zpos m) (Zpos p)
               | _ => Z.shiftl (Zpos m) e
               end in
      Some (if s then - a else a)
  | S754_infinity _ => None
  | S754_nan => None
  end.

(** The literal [n / 10^k] written in decimal in Python source, for
    instance [0.6] is [decimal 6 1] and [0.05] is [decimal 5 2]: the
    binary64 value nearest to the quotient. *)
Definition decimal (n : Z) (k : Z) : float := div (of_int n) (of_int (10 ^ k)).

End PyFloat.

Abbreviation float := PyFloat.float.

(** ** Python strings: [lower] and [find] *)

Definition lower_ascii (c : ascii) : ascii :=
  let n := N_of_ascii c in
  if ((65 <=? n) && (n <=? 90))%N then ascii_of_N (n + 32) else c.

Fixpoint lower (s : string) : string :=
  match s with
  | EmptyString => EmptyString
  | String c s' => String (lower_ascii c) (lower s')
  end.

Fixpoint startswith (s sub : string) : bool :=
  match sub, s with
  | EmptyString, _ => true
  | String _ _, EmptyString => false
  | String a sub', String b s' => if ascii_dec a b then startswith s' sub' else false
  end.

Fixpoint find_from (s sub : string) (i : Z) : Z :=
  if startswith s sub then i
  else match s with
       | EmptyString => -1
       | String _ s' => find_from s' sub (i + 1)
       end.

(** [s.find(sub)]: the lowest index at which [sub] occurs in [s], or -1. *)
Definition find (s sub : string) : Z := find_from s sub 0.

(** ** Data model *)

Abbreviation wref := nat (only parsing).   (* reference to a Window object *)
Abbreviation sref := nat (only parsing).   (* reference to a Screen object *)
Abbreviation tref := nat (only parsing).   (* reference to a tiler object *)
Abbreviation handle := Z (only parsing).   (* the probe's opaque window handle *)

(** The attribute snapshot (a dict) returned by the probe.  [xobj] is
    [None] when the key is missing from the dict. *)
Module Attrs.
Record t := mk {
  id : Z; x : Z; y : Z; width : Z; height : Z;
  d_left : Z; d_right : Z; d_top : Z; d_bottom : Z;
  desktop : Z; title : string;
  class : option (string * string);
  static : bool; hidden : bool; popup : bool;
  xobj : option handle }.

(** [update['width'] = w; update['height'] = h] *)
Definition set_size (a : t) (w h : Z) : t :=
  mk (id a) (x a) (y a) w h (d_left a) (d_right a) (d_top a) (d_bottom a)
     (desktop a) (title a) (class a) (static a) (hidden a) (popup a) (xobj a).
End Attrs.

Module Win.
Record t := mk {
  id : Z; x : Z; y : Z; width : Z; height : Z;
  d_left : Z; d_right : Z; d_top : Z; d_bottom : Z;
  desktop : Z; title : string;
  winclass : option (string * string);
  static : bool; hidden : bool;
  xobj : option handle;
  origx : Z; origy : Z; origwidth : Z; origheight : Z;
  screen : sref }.

Definition geometry (w : t) : Z * Z * Z * Z := (x w, y w, width w, height w).

(** [self.x = x; self.y = y; self.width = width; self.height = height] *)
Definition set_geometry (w : t) (x' y' width' height' : Z) : t :=
  mk (id w) x' y' width' height' (d_left w) (d_right w) (d_top w) (d_bottom w)
     (desktop w) (title w) (winclass w) (static w) (hidden w) (xobj w)
     (origx w) (origy w) (origwidth w) (origheight w) (screen w).

(** [self.screen = screen] *)
Definition set_screen (w : t) (s : sref) : t :=
  mk (id w) (x w) (y w) (width w) (height w) (d_left w) (d_right w) (d_top w)
     (d_bottom w) (desktop w) (title w) (winclass w) (static w) (hidden w)
     (xobj w) (origx w) (origy w) (origwidth w) (origheight w) s.
End Win.

(** A viewport is immutable here.  Its [desktop] back-reference is kept as
    the desktop's id, the only attribute read through it. *)
Module Viewport.
Record t := mk {
  id : Z; x : Z; y : Z; width : Z; height : Z;
  screens : list sref;      (* [self.screens.values()], in iteration order *)
  desktop : Z }.
End Viewport.

Module Desktop.
Record t := mk {
  id : Z;
  viewports : list Viewport.t  (* [self.viewports.values()] *) }.
End Desktop.

Module Screen.
Record t := mk {
  id : Z; x : Z; y : Z; width : Z; height : Z;
  workarea : Z * Z * Z * Z;
  windows : list wref;
  dirty : bool;
  viewport : Viewport.t }.

Definition set_windows (s : t) (l : list wref) : t :=
  mk (id s) (x s) (y s) (width s) (height s) (workarea s) l (dirty s) (viewport s).
Definition set_dirty (s : t) (b : bool) : t :=
  mk (id s) (x s) (y s) (width s) (height s) (workarea s) (windows s) b (viewport s).
End Screen.

(** A tiler ([TileDefault] subclass instance): its screen, its storage
    ([get_masters()], [get_slaves()]) and its state dict, whose entries
    ['width_factor'], ['height_factor'] and ['margin'] are fields. *)
Module Tiler.
Record t := mk {
  screen : sref;
  masters : list wref;
  slaves : list wref;
  width_factor : float;
  height_factor : float;
  margin : Z }.

Definition set_width_factor (t0 : t) (f : float) : t :=
  mk (screen t0) (masters t0) (slaves t0) f (height_factor t0) (margin t0).
Definition set_height_factor (t0 : t) (f : float) : t :=
  mk (screen t0) (masters t0) (slaves t0) (width_factor t0) f (margin t0).
End Tiler.

(** Calls made to the collaborators, in program order. *)
Inductive Event :=
| PROBE_window_listen (xobj : handle)
| PROBE_window_activate (xobj : option handle)
| PROBE_window_resize (xobj : option handle) (x y width height : Z)
| State_reload_active (w : option wref)
| Screen_add_window (s : sref) (w : wref)
| Screen_delete_window (s : sref) (w : wref)
| Screen_needs_tiling (s : sref).

Record World := mkWorld {
  windows : gmap nat Win.t;          (* every Window object ever constructed *)
  screens : gmap nat Screen.t;
  tilers : gmap nat Tiler.t;
  desktops : gmap Z Desktop.t;       (* [State.get_desktops()] *)
  trace : list Event }.

Definition set_windows (w : World) (m : gmap nat Win.t) : World :=
  mkWorld m (screens w) (tilers w) (desktops w) (trace w).
Definition set_screens (w : World) (m : gmap nat Screen.t) : World :=
  mkWorld (windows w) m (tilers w) (desktops w) (trace w).
Definition set_tilers (w : World) (m : gmap nat Tiler.t) : World :=
  mkWorld (windows w) (screens w) m (desktops w) (trace w).
Definition set_trace (w : World) (l : list Event) : World :=
  mkWorld (windows w) (screens w) (tilers w) (desktops w) l.

(** ** The monad of methods *)

Inductive exn :=
| KeyError          (* a dict has no such key *)
| OverflowError     (* [int] of an infinite float *)
| ValueError        (* [int] of a NaN *)
| Dangling.         (* a reference to no object: excluded by well-formedness *)

Inductive res (A : Type) :=
| Ok (a : A)
| Raise (e : exn).
Arguments Ok {A} a.
Arguments Raise {A} e.

Definition M (A : Type) : Type := World -> World * res A.

Definition ret {A} (a : A) : M A := fun w => (w, Ok a).
Definition raise {A} (e : exn) : M A := fun w => (w, Raise e).
Definition bind {A B} (c : M A) (k : A -> M B) : M B :=
  fun w => match c w with
           | (w', Ok a) => k a w'
           | (w', Raise e) => (w', Raise e)
           end.

Declare Scope py_scope.
Delimit Scope py_scope with py.
Notation "x <- c ;; k" := (bind c (fun x => k))
  (at level 100, c at level 99, right associativity, only parsing) : py_scope.
Notation "c ;; k" := (bind c (fun _ => k))
  (at level 100, right associativity, only parsing) : py_scope.
Local Open Scope py_scope.

(** [for b in l: f(b)] *)
Fixpoint for_each {B} (l : list B) (f : B -> M unit) : M unit :=
  match l with
  | [] => ret tt
  | b :: l' => f b ;; for_each l' f
  end.

Definition emit (e : Event) : M unit :=
  fun w => (set_trace w (trace w ++ [e]), Ok tt).

Definition of_option {A} (o : option A) (e : exn) : M A :=
  match o with Some a => ret a | None => raise e end.

Definition get_win (r : wref) : M Win.t := fun w => of_option (windows w !! r) Dangling w.
Definition put_win (r : wref) (v : Win.t) : M unit :=
  fun w => (set_windows w (<[r:=v]> (windows w)), Ok tt).
Definition get_screen (r : sref) : M Screen.t := fun w => of_option (screens w !! r) Dangling w.
Definition put_screen (r : sref) (v : Screen.t) : M unit :=
  fun w => (set_screens w (<[r:=v]> (screens w)), Ok tt).
Definition get_tiler (r : tref) : M Tiler.t := fun w => of_option (tilers w !! r) Dangling w.
Definition put_tiler (r : tref) (v : Tiler.t) : M unit :=
  fun w => (set_tilers w (<[r:=v]> (tilers w)), Ok tt).

(** ** Collaborators outside the three files *)

(** The probe's queries ([PROBE.get_window_by_id], [PROBE.get_window],
    [PROBE.get_active_window_id]): what the windowing system answers. *)
Record Probe := mkProbe {
  get_window_by_id : Z -> Attrs.t;
  get_window : option handle -> Attrs.t;
  get_active_window_id : Z }.

(** Modelled from the spec: [Screen.is_in_screen], whose code is not in
    these files, is the rectangle-fits-in-screen test: the rectangle is
    fully contained by the screen's bounds. *)
Definition is_in_screen (s : Screen.t) (x y width height : Z) : bool :=
  (Screen.x s <=? x) && (Screen.y s <=? y)
  && (x + width <=? Screen.x s + Screen.width s)
  && (y + height <=? Screen.y s + Screen.height s).

(** Modelled from the spec: [Screen.is_on_screen] is the point-in-screen
    test (position only). *)
Definition is_on_screen (s : Screen.t) (x y : Z) : bool :=
  (Screen.x s <=? x) && (x <? Screen.x s + Screen.width s)
  && (Screen.y s <=? y) && (y <? Screen.y s + Screen.height s).

(** Modelled from the spec: [Viewport.is_on_viewport] is the
    point-in-viewport test (position only). *)
Definition is_on_viewport (v : Viewport.t) (x y : Z) : bool :=
  (Viewport.x v <=? x) && (x <? Viewport.x v + Viewport.width v)
  && (Viewport.y v <=? y) && (y <? Viewport.y v + Viewport.height v).

(** Modelled from the spec: [Screen.get_workarea] exposes the usable work
    area [(x, y, width, height)], separate from the full bounds. *)
Definition get_workarea (s : sref) : M (Z * Z * Z * Z) :=
  scr <- get_screen s ;; ret (Screen.workarea scr).

(** Modelled from the spec: [Screen.add_window] adds the window to the
    screen's ordered membership. *)
Definition add_window (s : sref) (win : wref) : M unit :=
  scr <- get_screen s ;;
  put_screen s (Screen.set_windows scr (Screen.windows scr ++ [win])) ;;
  emit (Screen_add_window s win).

(** Modelled from the spec: [Screen.delete_window] removes the window from
    the screen's membership. *)
Definition delete_window (s : sref) (win : wref) : M unit :=
  scr <- get_screen s ;;
  put_screen s (Screen.set_windows scr
                  (List.filter (fun r => negb (Nat.eqb r win)) (Screen.windows scr))) ;;
  emit (Screen_delete_window s win).

(** Modelled from the spec: [Screen.needs_tiling] sets the screen's
    "needs retiling" flag. *)
Definition needs_tiling (s : sref) : M unit :=
  scr <- get_screen s ;;
  put_screen s (Screen.set_dirty scr true) ;;
  emit (Screen_needs_tiling s).

(** Modelled from the spec: [State.get_desktops()], whose code is not in
    these files, is the session-wide registry of the known desktops, a
    dict from desktop id to Desktop. *)
Definition get_desktops : M (gmap Z Desktop.t) := fun w => (w, Ok (desktops w)).

(** Modelled from the spec: [State.reload_active(win)], whose code is not
    in these files, refreshes the hierarchy-level active pointer; the call
    is only recorded. *)
Definition reload_active (win : option wref) : M unit := emit (State_reload_active win).

(** ** Window.py *)

Section Window.

Variable PROBE : Probe.
(** [Config.filter()]: the configured filter strings. *)
Variable Config_filter : list string.

(** [update_attributes] as a change of the object's record: every field
    but [x], [y], the saved original geometry and [screen] is assigned. *)
Definition updated (self : Win.t) (attrs : Attrs.t) : Win.t :=
  Win.mk (Attrs.id attrs) (Win.x self) (Win.y self)
    (Attrs.width attrs) (Attrs.height attrs)
    (Attrs.d_left attrs) (Attrs.d_right attrs) (Attrs.d_top attrs) (Attrs.d_bottom attrs)
    (Attrs.desktop attrs) (Attrs.title attrs) (Attrs.class attrs)
    (Attrs.static attrs) (Attrs.hidden attrs) (Attrs.xobj attrs)
    (Win.origx self) (Win.origy self) (Win.origwidth self) (Win.origheight self)
    (Win.screen self).

Definition update_attributes (self : wref) (attrs : Attrs.t) : M unit :=
  win <- get_win self ;;
  put_win self (updated win attrs).

(** An object on which no attribute has been assigned yet.  [__init__]
    assigns every field, so none of these values is ever read. *)
Definition blank : Win.t :=
  Win.mk 0 0 0 0 0 0 0 0 0 0 EmptyString None false false None 0 0 0 0 0%nat.

(** [Window(screen, attrs)]: allocation of a new object, then [__init__]. *)
Definition Window (screen : sref) (attrs : Attrs.t) : M wref :=
  fun w =>
    let self : wref := fresh (dom (windows w)) in
    (put_win self blank ;;
     update_attributes self attrs ;;
     win <- get_win self ;;
     put_win self
       (Win.mk (Win.id win) 0 0 (Win.width win) (Win.height win)
          (Win.d_left win) (Win.d_right win) (Win.d_top win) (Win.d_bottom win)
          (Win.desktop win) (Win.title win) (Win.winclass win)
          (Win.static win) (Win.hidden win) (Win.xobj win)
          (Attrs.x attrs) (Attrs.y attrs) (Win.width win) (Win.height win)
          screen) ;;
     match Win.xobj win with
     | Some xobj => emit (PROBE_window_listen xobj)
     | None => ret tt
     end ;;
     ret self) w.

(** The owning screen is always a Screen object here, so the guard
    [if self.screen] of [activate] holds. *)
Definition activate (self : wref) : M unit :=
  win <- get_win self ;;
  emit (PROBE_window_activate (Win.xobj win)) ;;
  reload_active (Some self).

(** The two loops of [filtered]: over the configured filters, then over
    the two components of the class tag. *)
Fixpoint filtered_loop (winclass : string * string) (filters : list string) : bool :=
  match filters with
  | [] => false
  | winfilter :: rest =>
      if negb (find (lower (fst winclass)) (lower winfilter) =? -1) then true
      else if negb (find (lower (snd winclass)) (lower winfilter) =? -1) then true
      else filtered_loop winclass rest
  end.

Definition filtered (self : wref) : M bool :=
  win <- get_win self ;;
  match Win.winclass win with
  | Some winclass => ret (filtered_loop winclass Config_filter)
  | None => ret false
  end.

Definition resize (self : wref) (x y width height : Z) : M unit :=
  win <- get_win self ;;
  scr <- get_screen (Win.screen win) ;;
  if (width <? 1) || (height <? 1) || negb (is_in_screen scr x y width height)
  then ret tt
  else
    emit (PROBE_window_resize (Win.xobj win) x y width height) ;;
    put_win self (Win.set_geometry win x y width height).

(** The relocation loop of [refresh] and the admission loop of
    [load_window] share their shape: every screen of every viewport of
    a desktop that contains the point runs [body]. *)
Definition scan (desk : Desktop.t) (x y : Z) (body : sref -> M unit) : M unit :=
  for_each (Desktop.viewports desk) (fun viewport =>
    if is_on_viewport viewport x y then
      for_each (Viewport.screens viewport) (fun screen =>
        scr <- get_screen screen ;;
        if is_on_screen scr x y then body screen else ret tt)
    else ret tt).

Definition refresh (self : wref) : M unit :=
  win <- get_win self ;;
  let oldscreen := Win.screen win in
  oldscr <- get_screen oldscreen ;;
  let oldviewport := Screen.viewport oldscr in
  let olddesk := Viewport.desktop oldviewport in
  let oldstate := Win.hidden win in
  let update := get_window PROBE (Win.xobj win) in
  let update := Attrs.set_size update (Win.width win) (Win.height win) in
  update_attributes self update ;;
  win <- get_win self ;;
  (if negb (olddesk =? Win.desktop win)
      || negb (is_on_viewport oldviewport (Attrs.x update) (Attrs.y update))
      || negb (is_on_screen oldscr (Attrs.x update) (Attrs.y update))
   then
     ds <- get_desktops ;;
     desk <- of_option (ds !! Win.desktop win) KeyError ;;
     scan desk (Attrs.x update) (Attrs.y update) (fun screen =>
       delete_window oldscreen self ;;
       add_window screen self ;;
       needs_tiling screen ;;
       needs_tiling oldscreen ;;
       win <- get_win self ;;
       put_win self (Win.set_screen win screen))
   else if negb (eqb oldstate (Win.hidden win)) then
     win <- get_win self ;;
     needs_tiling (Win.screen win)
   else ret tt) ;;
  win <- get_win self ;;
  if Win.id win =? get_active_window_id PROBE then reload_active None else ret tt.

Definition load_window (window_id : Z) : M unit :=
  let attrs := get_window_by_id PROBE window_id in
  ds <- get_desktops ;;
  if negb (Attrs.popup attrs) && bool_decide (is_Some (ds !! Attrs.desktop attrs)) then
    desk <- of_option (ds !! Attrs.desktop attrs) KeyError ;;
    scan desk (Attrs.x attrs) (Attrs.y attrs) (fun screen =>
      win <- Window screen attrs ;;
      f <- filtered win ;;
      if negb f then
        add_window screen win ;;
        needs_tiling screen ;;
        w <- get_win win ;;
        if Win.id w =? get_active_window_id PROBE then activate win else ret tt
      else ret tt)
  else ret tt.

(** [delete]: the window leaves its screen, which is queued for tiling. *)
Definition delete (self : wref) : M unit :=
  win <- get_win self ;;
  delete_window (Win.screen win) self ;;
  win <- get_win self ;;
  needs_tiling (Win.screen win) ;;
  reload_active None.

(** [load_new_windows], for the identifiers [wins] that
    [State.scan_new_windows()] returns. *)
Definition load_new_windows (wins : list Z) : M unit :=
  for_each wins (fun win => load_window win).

End Window.

(** ** Tilers *)

(** [int(f)] *)
Definition int (f : float) : M Z :=
  match PyFloat.to_int f with
  | Some n => ret n
  | None => raise (match f with S754_nan => ValueError | _ => OverflowError end)
  end.

(** [not l] for a list *)
Definition empty {A} (l : list A) : bool :=
  match l with [] => true | _ => false end.

(** [len(l)] *)
Definition len {A} (l : list A) : Z := Z.of_nat (length l).

(** Modelled from the spec: [TileDefault.help_resize], whose code is not
    in these files, shrinks the requested rectangle by [margin] on every
    side before delegating to the window's [resize]. *)
Definition help_resize (win : wref) (x y width height margin : Z) : M unit :=
  resize win (x + margin) (y + margin) (width - 2 * margin) (height - 2 * margin).

Module Vertical.

(** [for win in wins: self.help_resize(win, X, Y, W, H, margin); Y += H] *)
Fixpoint tile_loop (wins : list wref) (X Y W H margin : Z) : M unit :=
  match wins with
  | [] => ret tt
  | win :: rest =>
      help_resize win X Y W H margin ;;
      tile_loop rest X (Y + H) W H margin
  end.

Definition _tile (self : tref) : M unit :=
  t <- get_tiler self ;;
  wa <- get_workarea (Tiler.screen t) ;;
  let '(x, y, width, height) := wa in
  let masters := Tiler.masters t in
  let slaves := Tiler.slaves t in
  masterWidth <- (if empty slaves then ret width
                  else int (PyFloat.mul (PyFloat.of_int width) (Tiler.width_factor t))) ;;
  let masterHeight := if empty masters then height else height / len masters in
  let masterY := y in
  let masterX := x in
  let slaveWidth := if empty masters then width else width - masterWidth in
  let slaveHeight := if empty slaves then height else height / len slaves in
  let slaveY := y in
  let slaveX := if empty masters then x else x + masterWidth in
  tile_loop masters masterX masterY masterWidth masterHeight (Tiler.margin t) ;;
  tile_loop slaves slaveX slaveY slaveWidth slaveHeight (Tiler.margin t).

Definition _master_increase (self : tref) (factor : float) : M unit :=
  t <- get_tiler self ;;
  wa <- get_workarea (Tiler.screen t) ;;
  let '(x, y, width, height) := wa in
  let slaves := Tiler.slaves t in
  let masters := Tiler.masters t in
  if empty slaves || empty masters then ret tt
  else
    pixels <- int (PyFloat.sub
                     (PyFloat.mul (PyFloat.add (Tiler.width_factor t) factor)
                                  (PyFloat.of_int width))
                     (PyFloat.mul (Tiler.width_factor t) (PyFloat.of_int width))) ;;
    put_tiler self (Tiler.set_width_factor t (PyFloat.add (Tiler.width_factor t) factor)) ;;
    for_each slaves (fun slave =>
      s <- get_win slave ;;
      resize slave (Win.x s + pixels) (Win.y s) (Win.width s - pixels) (Win.height s)) ;;
    for_each masters (fun master =>
      m <- get_win master ;;
      resize master (Win.x m) (Win.y m) (Win.width m + pixels) (Win.height m)).

Definition _master_decrease (self : tref) (factor : float) : M unit :=
  t <- get_tiler self ;;
  wa <- get_workarea (Tiler.screen t) ;;
  let '(x, y, width, height) := wa in
  let slaves := Tiler.slaves t in
  let masters := Tiler.masters t in
  if empty slaves || empty masters then ret tt
  else
    pixels <- int (PyFloat.sub
                     (PyFloat.mul (Tiler.width_factor t) (PyFloat.of_int width))
                     (PyFloat.mul (PyFloat.sub (Tiler.width_factor t) factor)
                                  (PyFloat.of_int width))) ;;
    put_tiler self (Tiler.set_width_factor t (PyFloat.sub (Tiler.width_factor t) factor)) ;;
    for_each slaves (fun slave =>
      s <- get_win slave ;;
      resize slave (Win.x s - pixels) (Win.y s) (Win.width s + pixels) (Win.height s)) ;;
    for_each masters (fun master =>
      m <- get_win master ;;
      resize master (Win.x m) (Win.y m) (Win.width m - pixels) (Win.height m)).

End Vertical.

Module Horizontal.

(** [for win in wins: self.help_resize(win, X, Y, W, H, margin); X += W] *)
Fixpoint tile_loop (wins : list wref) (X Y W H margin : Z) : M unit :=
  match wins with
  | [] => ret tt
  | win :: rest =>
      help_resize win X Y W H margin ;;
      tile_loop rest (X + W) Y W H margin
  end.

Definition _tile (self : tref) : M unit :=
  t <- get_tiler self ;;
  wa <- get_workarea (Tiler.screen t) ;;
  let '(x, y, width, height) := wa in
  let masters := Tiler.masters t in
  let slaves := Tiler.slaves t in
  let masterWidth := if empty masters then width else width / len masters in
  masterHeight <- (if empty slaves then ret height
                   else int (PyFloat.mul (PyFloat.of_int height) (Tiler.height_factor t))) ;;
  let masterY := y in
  let masterX := x in
  let slaveWidth := if empty slaves then width else width / len slaves in
  let slaveHeight := if empty masters then height else height - masterHeight in
  let slaveY := if empty masters then y else y + masterHeight in
  let slaveX := x in
  tile_loop masters masterX masterY masterWidth masterHeight (Tiler.margin t) ;;
  tile_loop slaves slaveX slaveY slaveWidth slaveHeight (Tiler.margin t).

Definition _master_increase (self : tref) (factor : float) : M unit :=
  t <- get_tiler self ;;
  wa <- get_workarea (Tiler.screen t) ;;
  let '(x, y, width, height) := wa in
  let slaves := Tiler.slaves t in
  let masters := Tiler.masters t in
  if empty slaves || empty masters then ret tt
  else
    pixels <- int (PyFloat.sub
                     (PyFloat.mul (PyFloat.add (Tiler.height_factor t) factor)
                                  (PyFloat.of_int height))
                     (PyFloat.mul (Tiler.height_factor t) (PyFloat.of_int height))) ;;
    put_tiler self (Tiler.set_height_factor t (PyFloat.add (Tiler.height_factor t) factor)) ;;
    for_each slaves (fun slave =>
      s <- get_win slave ;;
      resize slave (Win.x s) (Win.y s + pixels) (Win.width s) (Win.height s - pixels)) ;;
    for_each masters (fun master =>
      m <- get_win master ;;
      resize master (Win.x m) (Win.y m) (Win.width m) (Win.height m + pixels)).

Definition _master_decrease (self : tref) (factor : float) : M unit :=
  t <- get_tiler self ;;
  wa <- get_workarea (Tiler.screen t) ;;
  let '(x, y, width, height) := wa in
  let slaves := Tiler.slaves t in
  let masters := Tiler.masters t in
  if empty slaves || empty masters then ret tt
  else
    pixels <- int (PyFloat.sub
                     (PyFloat.mul (Tiler.height_factor t) (PyFloat.of_int height))
                     (PyFloat.mul (PyFloat.sub (Tiler.height_factor t) factor)
                                  (PyFloat.of_int height))) ;;
    put_tiler self (Tiler.set_height_factor t (PyFloat.sub (Tiler.height_factor t) factor)) ;;
    for_each slaves (fun slave =>
      s <- get_win slave ;;
      resize slave (Win.x s) (Win.y s - pixels) (Win.width s) (Win.height s + pixels)) ;;
    for_each masters (fun master =>
      m <- get_win master ;;
      resize master (Win.x m) (Win.y m) (Win.width m) (Win.height m - pixels)).

End Horizontal.

(** ** Specification-side notions *)

(** The rectangle, as a set of pixels, lies within the screen's bounds. *)
Definition rect_contained (s : Screen.t) (x y width height : Z) : Prop :=
  forall px py, x <= px < x + width -> y <= py < y + height ->
    Screen.x s <= px < Screen.x s + Screen.width s
    /\ Screen.y s <= py < Screen.y s + Screen.height s.

(** What [resize] does to the object itself. *)
Definition resized (scr : Screen.t) (win : Win.t) (x y width height : Z) : Win.t :=
  if (width <? 1) || (height <? 1) || negb (is_in_screen scr x y width height)
  then win else Win.set_geometry win x y width height.


(** [f] occurs in [c] as a substring, case-insensitively. *)
Definition ci_substring (c f : string) : Prop :=
  exists pre post, lower c = String.append pre (String.append (lower f) post).

(** A computation keeps a property of the world, whatever its outcome. *)
Definition preserves {A} (P : World -> Prop) (c : M A) : Prop :=
  forall w w' r, c w = (w', r) -> P w -> P w'.

(** ** Example worlds *)

Module Ex.

Definition viewport : Viewport.t := Viewport.mk 0 0 0 1280 800 [0%nat] 0.

(** One 1280x800 screen whose work area is the whole screen. *)
Definition screen (members : list wref) : Screen.t :=
  Screen.mk 0 0 0 1280 800 (0, 0, 1280, 800) members false viewport.

Definition desktop : Desktop.t := Desktop.mk 0 [viewport].

(** A window of screen 0 with the given stored geometry. *)
Definition win (id x y width height : Z) : Win.t :=
  Win.mk id x y width height 0 0 0 0 0 EmptyString None false false (Some id)
    0 0 width height 0%nat.

(** Screen 0 with the given windows and one tiler for it. *)
Definition world (wins : list Win.t) (masters slaves : list wref)
    (width_factor : float) : World :=
  mkWorld (list_to_map (zip (seq 0 (length wins)) wins))
    {[ 0%nat := screen (seq 0 (length wins)) ]}
    {[ 0%nat := Tiler.mk 0%nat masters slaves width_factor width_factor 0 ]}
    {[ 0 := desktop ]}
    [].

End Ex.

(** The object [self] holds the record [u], up to its owning screen. *)
Definition holds (self : wref) (u : Win.t) (w : World) : Prop :=
  exists s, windows w !! self = Some (Win.set_screen u s).

(** ** The screens found by the scan of a desktop *)

Definition bounds (s : Screen.t) : Z * Z * Z * Z :=
  (Screen.x s, Screen.y s, Screen.width s, Screen.height s).

(** The store [S'] has the screens of [S], with the same bounds. *)
Definition same_bounds (S S' : gmap nat Screen.t) : Prop :=
  forall k, bounds <$> (S' !! k) = bounds <$> (S !! k).

Definition on_screen (S : gmap nat Screen.t) (x y : Z) (s : sref) : bool :=
  match S !! s with
  | Some scr => is_on_screen scr x y
  | None => false
  end.

(** The screens of [desk] that spatially contain the point, in the order
    of the scan: their viewport contains it and they contain it. *)
Definition matching (S : gmap nat Screen.t) (desk : Desktop.t) (x y : Z) : list sref :=
  flat_map (fun v => if is_on_viewport v x y
                     then List.filter (on_screen S x y) (Viewport.screens v)
                     else [])
    (Desktop.viewports desk).

(** Every screen listed under the desktop is an object of the store. *)
Definition screens_exist (S : gmap nat Screen.t) (desk : Desktop.t) : Prop :=
  forall v s, In v (Desktop.viewports desk) -> In s (Viewport.screens v) ->
    is_Some (S !! s).

(** How many times the events [l] mark screen [s] as needing tiling. *)
Definition marks (s : sref) (l : list Event) : nat :=
  length (List.filter (fun e => match e with
                                | Screen_needs_tiling s' => Nat.eqb s s'
                                | _ => false
                                end) l).

(** The object that [Window(screen, attrs)] leaves in the store. *)
Definition constructed (screen : sref) (attrs : Attrs.t) : Win.t :=
  Win.mk (Attrs.id attrs) 0 0 (Attrs.width attrs) (Attrs.height attrs)
    (Attrs.d_left attrs) (Attrs.d_right attrs) (Attrs.d_top attrs) (Attrs.d_bottom attrs)
    (Attrs.desktop attrs) (Attrs.title attrs) (Attrs.class attrs)
    (Attrs.static attrs) (Attrs.hidden attrs) (Attrs.xobj attrs)
    (Attrs.x attrs) (Attrs.y attrs) (Attrs.width attrs) (Attrs.height attrs) screen.

(** The registrations [PROBE.window_listen] made by one construction. *)
Definition listens (attrs : Attrs.t) : list Event :=
  match Attrs.xobj attrs with
  | Some xobj => [PROBE_window_listen xobj]
  | None => []
  end.

Definition is_listen (e : Event) : Prop := exists xobj, e = PROBE_window_listen xobj.

(** The snapshot's class tag matches a configured filter. *)
Definition matches_filter (filters : list string) (attrs : Attrs.t) : Prop :=
  exists c0 c1 f, Attrs.class attrs = Some (c0, c1) /\ In f filters
                  /\ (ci_substring c0 f \/ ci_substring c1 f).

(** ** Loops of resizes *)

Definition rect : Type := Z * Z * Z * Z.

(** [resize] applied to a rectangle. *)
Definition resized_to (scr : Screen.t) (win : Win.t) (r : rect) : Win.t :=
  let '(x, y, width, height) := r in resized scr win x y width height.

(** The calls to the probe made by one [resize]. *)
Definition resize_events (scr : Screen.t) (win : Win.t) (r : rect) : list Event :=
  let '(x, y, width, height) := r in
  if (width <? 1) || (height <? 1) || negb (is_in_screen scr x y width height)
  then [] else [PROBE_window_resize (Win.xobj win) x y width height].

(** The shape shared by the loops of the tilers: the window [key b] is
    resized to a rectangle computed from [b] and from the window's stored
    attributes at that moment. *)
Definition resize_by {B} (key : B -> wref) (g : B -> Win.t -> rect) (b : B) : M unit :=
  bind (get_win (key b)) (fun win =>
    let '(x, y, width, height) := g b win in resize (key b) x y width height).

(** Every window of the list is an object of the store, and so is its
    owning screen. *)
Definition owned (w : World) (l : list wref) : Prop :=
  forall k, In k l -> exists win scr,
    windows w !! k = Some win /\ screens w !! Win.screen win = Some scr.

(** The rectangle shrunk by [margin] on every side. *)
Definition shrink (margin : Z) (r : rect) : rect :=
  let '(x, y, width, height) := r in
  (x + margin, y + margin, width - 2 * margin, height - 2 * margin).

(** A column of equal cells, top to bottom from [(X, Y)]: the [i]-th
    window gets the cell [(X, Y + i * H, W, H)]. *)
Definition column (wins : list wref) (X Y W H : Z) : list (wref * rect) :=
  imap (fun i win => (win, (X, Y + Z.of_nat i * H, W, H))) wins.

(** [self.help_resize(win, x, y, width, height, margin)] for a planned cell. *)
Definition request (margin : Z) (p : wref * rect) : M unit :=
  let '(win, (x, y, width, height)) := p in help_resize win x y width height margin.

(** The cells of the Vertical layout when both roles are occupied: the
    masters in a column of width [mw] at the work area's top-left, the
    slaves in a column of the remaining width to its right. *)
Definition vertical_plan (masters slaves : list wref) (x y width height mw : Z)
  : list (wref * rect) :=
  column masters x y mw (height / len masters)
  ++ column slaves (x + mw) y (width - mw) (height / len slaves).

Module Ex1.
(** The spec's example: work area (0,0,1280,800), width factor 0.6,
    margin 0, two masters and one slave, not yet tiled. *)
Definition wins : list Win.t :=
  [Ex.win 1 0 0 300 200; Ex.win 2 0 0 300 200; Ex.win 3 0 0 300 200].
Definition w : World := Ex.world wins [0; 1]%nat [2%nat] (PyFloat.decimal 6 1).
Definition tiler : Tiler.t :=
  Tiler.mk 0%nat [0; 1]%nat [2%nat] (PyFloat.decimal 6 1) (PyFloat.decimal 6 1) 0.

(** The same screen with no master and one slave. *)
Definition w_slave_only : World :=
  Ex.world [Ex.win 1 0 0 300 200] [] [0%nat] (PyFloat.decimal 6 1).
End Ex1.

(** ** Proportion changes *)

(** The float whose truncation is the pixel delta of an increase, for the
    proportion factor [f], the step [factor] and the work area's extent. *)
Definition delta_increase (f factor : float) (extent : Z) : float :=
  PyFloat.sub (PyFloat.mul (PyFloat.add f factor) (PyFloat.of_int extent))
              (PyFloat.mul f (PyFloat.of_int extent)).

(** The same for a decrease. *)
Definition delta_decrease (f factor : float) (extent : Z) : float :=
  PyFloat.sub (PyFloat.mul f (PyFloat.of_int extent))
              (PyFloat.mul (PyFloat.sub f factor) (PyFloat.of_int extent)).

Module Ex9.
(** Screen 0 tiled by Vertical with width factor 0.1: one master, one
    slave. *)
Definition w : World :=
  Ex.world [Ex.win 1 0 0 128 800; Ex.win 2 128 0 1152 800] [0%nat] [1%nat]
    (PyFloat.decimal 1 1).
Definition tiler : Tiler.t :=
  Tiler.mk 0%nat [0%nat] [1%nat] (PyFloat.decimal 1 1) (PyFloat.decimal 1 1) 0.
End Ex9.

(** The rectangles requested by [_master_increase] and [_master_decrease]
    of Vertical for a pixel delta [p], from a window's stored attributes. *)
Definition slave_wider (p : Z) (s : Win.t) : rect :=
  (Win.x s - p, Win.y s, Win.width s + p, Win.height s).
Definition slave_narrower (p : Z) (s : Win.t) : rect :=
  (Win.x s + p, Win.y s, Win.width s - p, Win.height s).
Definition master_wider (p : Z) (m : Win.t) : rect :=
  (Win.x m, Win.y m, Win.width m + p, Win.height m).
Definition master_narrower (p : Z) (m : Win.t) : rect :=
  (Win.x m, Win.y m, Win.width m - p, Win.height m).

(** [resize] accepts the rectangle. *)
Definition accepts (scr : Screen.t) (r : rect) : bool :=
  let '(x, y, width, height) := r in
  negb ((width <? 1) || (height <? 1) || negb (is_in_screen scr x y width height)).

(** The windows of both roles, slaves first, tagged by role. *)
Definition roles (slaves masters : list wref) : list (bool * wref) :=
  map (pair true) slaves ++ map (pair false) masters.

Module Ex5.
(** Screen 0 with one master and one slave, width factor 0.965. *)
Definition untiled : World :=
  Ex.world [Ex.win 1 0 0 300 200; Ex.win 2 0 0 300 200] [0%nat] [1%nat]
    (PyFloat.decimal 965 3).

(** The same with width factor 0.5, as [_tile] leaves it. *)
Definition w : World :=
  Ex.world [Ex.win 1 0 0 640 800; Ex.win 2 640 0 640 800] [0%nat] [1%nat]
    (PyFloat.decimal 5 1).
Definition tiler : Tiler.t :=
  Tiler.mk 0%nat [0%nat] [1%nat] (PyFloat.decimal 5 1) (PyFloat.decimal 5 1) 0.
End Ex5.

Module Ex4.
(** Two 1280x800 screens side by side in one viewport of desktop 0. *)
Definition viewport : Viewport.t := Viewport.mk 0 0 0 2560 800 [0; 1]%nat 0.
Definition left : Screen.t :=
  Screen.mk 0 0 0 1280 800 (0, 0, 1280, 800) [0%nat] false viewport.
Definition right : Screen.t :=
  Screen.mk 1 1280 0 1280 800 (1280, 0, 1280, 800) [] false viewport.
Definition desktop : Desktop.t := Desktop.mk 0 [viewport].

(** A window of the left screen, tiled at (0,0,640,480). *)
Definition win : Win.t :=
  Win.mk 7 0 0 640 480 2 2 20 2 0 "shell" (Some ("xterm", "XTerm")) false false
    (Some 7) 30 40 600 400 0%nat.

Definition w : World :=
  mkWorld {[ 0%nat := win ]} {[ 0%nat := left; 1%nat := right ]} ∅ {[ 0 := desktop ]} [].

(** The probe now reports the window at (1500,100), with another size. *)
Definition moved : Attrs.t :=
  Attrs.mk 7 1500 100 644 476 2 2 20 2 0 "shell" (Some ("xterm", "XTerm"))
    false false false (Some 7).
Definition PROBE : Probe := mkProbe (fun _ => moved) (fun _ => moved) 0.

(** A popup. *)
Definition popup : Attrs.t :=
  Attrs.mk 8 100 100 200 100 0 0 0 0 0 "menu" None false false true (Some 8).
Definition PROBE_popup : Probe := mkProbe (fun _ => popup) (fun _ => popup) 0.

(** A world that tracks no window yet. *)
Definition empty : World :=
  mkWorld ∅ {[ 0%nat := Screen.set_windows left []; 1%nat := right ]} ∅
    {[ 0 := desktop ]} [].
End Ex4.

(** ** Cells of the layouts *)

(** The extent of the master pane along the split: the whole extent when
    there is no slave, else [int(extent * factor)], if defined. *)
Definition master_extent (slaves : list wref) (extent : Z) (factor : float) : option Z :=
  if empty slaves then Some extent
  else PyFloat.to_int (PyFloat.mul (PyFloat.of_int extent) factor).

(** The cells of the Vertical layout in every case, for the master width
    [mw]. *)
Definition vertical_cells (masters slaves : list wref) (x y width height mw : Z)
  : list (wref * rect) :=
  column masters x y mw (if empty masters then height else height / len masters)
  ++ column slaves (if empty masters then x else x + mw) y
       (if empty masters then width else width - mw)
       (if empty slaves then height else height / len slaves).

(** The cell mirrored in the diagonal: [x] and [y], width and height are
    exchanged. *)
Definition transpose (p : wref * rect) : wref * rect :=
  let '(win, (x, y, width, height)) := p in (win, (y, x, height, width)).

(** The rectangle [c] lies within the rectangle [outer]. *)
Definition inside (outer c : rect) : Prop :=
  let '(X, Y, W, H) := outer in
  let '(x, y, width, height) := c in
  X <= x /\ Y <= y /\ x + width <= X + W /\ y + height <= Y + H.

(** The pixel [(px, py)] belongs to the rectangle. *)
Definition pixel (c : rect) (px py : Z) : Prop :=
  let '(x, y, width, height) := c in
  x <= px < x + width /\ y <= py < y + height.

(** The two rectangles share no pixel. *)
Definition disjoint (c1 c2 : rect) : Prop :=
  forall px py, ~ (pixel c1 px py /\ pixel c2 px py).

(** The cells are within [outer] and pairwise disjoint. *)
Definition tiling (outer : rect) (cells : list (wref * rect)) : Prop :=
  (forall r c, In (r, c) cells -> inside outer c)
  /\ (forall i j ri ci rj cj, i <> j ->
        cells !! i = Some (ri, ci) -> cells !! j = Some (rj, cj) -> disjoint ci cj).

Module Ex6.
(** Three masters and two slaves on the 1280x800 screen, width and height
    factors 0.6, margin 4. *)
Definition wins : list Win.t :=
  [Ex.win 1 0 0 300 200; Ex.win 2 0 0 300 200; Ex.win 3 0 0 300 200;
   Ex.win 4 0 0 300 200; Ex.win 5 0 0 300 200].
Definition tiler : Tiler.t :=
  Tiler.mk 0%nat [0; 1; 2]%nat [3; 4]%nat (PyFloat.decimal 6 1) (PyFloat.decimal 6 1) 4.
Definition w : World :=
  mkWorld (list_to_map (zip (seq 0 5) wins))
    {[ 0%nat := Ex.screen [0; 1; 2; 3; 4]%nat ]}
    {[ 0%nat := tiler ]} {[ 0 := Ex.desktop ]} [].

(** Masters only. *)
Definition tiler_masters : Tiler.t :=
  Tiler.mk 0%nat [0; 1; 2]%nat [] (PyFloat.decimal 6 1) (PyFloat.decimal 6 1) 4.
Definition w_masters : World :=
  mkWorld (list_to_map (zip (seq 0 5) wins))
    {[ 0%nat := Ex.screen [0; 1; 2; 3; 4]%nat ]}
    {[ 0%nat := tiler_masters ]} {[ 0 := Ex.desktop ]} [].
End Ex6.

Module Ex7.
(** The screen of [Ex6] turned by a quarter: 800 pixels wide, 1280 high. *)
Definition screen : Screen.t :=
  Screen.mk 0 0 0 800 1280 (0, 0, 800, 1280) [0; 1; 2; 3; 4]%nat false Ex.viewport.
Definition w : World :=
  mkWorld (list_to_map (zip (seq 0 5) Ex6.wins)) {[ 0%nat := screen ]}
    {[ 0%nat := Ex6.tiler ]} {[ 0 := Ex.desktop ]} [].
End Ex7.

(** ** What the tilers do to the store *)

(** The window's stored geometry lies within the screen and is at least
    one pixel wide and high. *)
Definition fits (scr : Screen.t) (win : Win.t) : Prop :=
  1 <= Win.width win /\ 1 <= Win.height win
  /\ is_in_screen scr (Win.x win) (Win.y win) (Win.width win) (Win.height win) = true.

(** The two records differ at most by their geometry. *)
Definition same_but_geometry (win win' : Win.t) : Prop :=
  Win.set_geometry win' 0 0 0 0 = Win.set_geometry win 0 0 0 0.

Definition is_resize (e : Event) : Prop :=
  exists xobj x y width height, e = PROBE_window_resize xobj x y width height.

(** The stores [W], [S], [D] and the trace [T] come from the world [w0] by
    resizes only: same screens and desktops, the same window objects, each
    one with its old geometry or with a geometry that fits its screen, and
    nothing but [window_resize] calls added to the trace. *)
Definition resized_from (w0 : World) (W : gmap nat Win.t) (S : gmap nat Screen.t)
    (D : gmap Z Desktop.t) (T : list Event) : Prop :=
  S = screens w0 /\ D = desktops w0
  /\ (forall k, match windows w0 !! k, W !! k with
                | Some win, Some win' =>
                    same_but_geometry win win'
                    /\ (Win.geometry win' = Win.geometry win
                        \/ forall scr, screens w0 !! Win.screen win = Some scr ->
                                       fits scr win')
                | None, None => True
                | _, _ => False
                end)
  /\ exists events, T = trace w0 ++ events /\ Forall is_resize events.

Definition only_resized (w0 w : World) : Prop :=
  resized_from w0 (windows w) (screens w) (desktops w) (trace w).

(** The window with the rectangle as its geometry. *)
Definition moved_to (win : Win.t) (c : rect) : Win.t :=
  let '(x, y, width, height) := c in Win.set_geometry win x y width height.

Module ExInf.
(** The step is [float('inf')]. *)
Definition inf : float := S754_infinity false.
End ExInf.

(** The rectangles requested by [_master_increase] and [_master_decrease]
    of Horizontal for a pixel delta [p]. *)
Definition slave_shorter (p : Z) (s : Win.t) : rect :=
  (Win.x s, Win.y s + p, Win.width s, Win.height s - p).
Definition slave_taller (p : Z) (s : Win.t) : rect :=
  (Win.x s, Win.y s - p, Win.width s, Win.height s + p).
Definition master_taller (p : Z) (m : Win.t) : rect :=
  (Win.x m, Win.y m, Win.width m, Win.height m + p).
Definition master_shorter (p : Z) (m : Win.t) : rect :=
  (Win.x m, Win.y m, Win.width m, Win.height m - p).

(** ** Loading windows *)

(** What [filtered] answers for an object. *)
Definition filtered_value (filters : list string) (win : Win.t) : bool :=
  match Win.winclass win with
  | Some winclass => filtered_loop winclass filters
  | None => false
  end.

(** The calls made when the loaded window is the active one. *)
Definition activation (PROBE : Probe) (attrs : Attrs.t) (new : wref) : list Event :=
  if Attrs.id attrs =? get_active_window_id PROBE
  then [PROBE_window_activate (Attrs.xobj attrs); State_reload_active (Some new)]
  else [].

(** The world [w] comes from [w0] by additions only: the window objects
    of [w0] are unchanged, and every screen of [w0] keeps its bounds, its
    viewport and its work area, has its membership extended at the end and
    its flag set or left as it was. *)
Definition grown_from (w0 : World) (W : gmap nat Win.t) (S : gmap nat Screen.t) : Prop :=
  (forall k win, windows w0 !! k = Some win -> W !! k = Some win)
  /\ (forall s scr, screens w0 !! s = Some scr ->
        exists added dirty,
          S !! s = Some (Screen.set_dirty
                           (Screen.set_windows scr (Screen.windows scr ++ added)) dirty)
          /\ (Screen.dirty scr = true -> dirty = true)).

Module Ex8.
(** A window reported at (5000,100), on no screen. *)
Definition far : Attrs.t :=
  Attrs.mk 9 5000 100 200 100 0 0 0 0 0 "lost" None false false false (Some 9).
Definition PROBE_far : Probe := mkProbe (fun _ => far) (fun _ => far) 0.

(** The probe's answers by identifier: 7 is the xterm at (1500,100), 8 the
    popup, anything else the lost window. *)
Definition PROBE : Probe :=
  mkProbe (fun id => if id =? 7 then Ex4.moved else if id =? 8 then Ex4.popup else far)
    (fun _ => far) 7.
End Ex8.

(** ** Refreshing a window *)

(** The snapshot that [refresh] hands to [update_attributes]: the probe's,
    with the stored width and height. *)
Definition refreshed (PROBE : Probe) (win : Win.t) : Win.t :=
  updated win (Attrs.set_size (get_window PROBE (Win.xobj win))
                 (Win.width win) (Win.height win)).

(** [refresh] finds the window moved: the desktop changed, or the reported
    position is off the old viewport or off the old screen. *)
Definition moved_away (PROBE : Probe) (win : Win.t) (oldscr : Screen.t) : Prop :=
  let update := get_window PROBE (Win.xobj win) in
  Viewport.desktop (Screen.viewport oldscr) <> Attrs.desktop update
  \/ is_on_viewport (Screen.viewport oldscr) (Attrs.x update) (Attrs.y update) = false
  \/ is_on_screen oldscr (Attrs.x update) (Attrs.y update) = false.

(** The call made at the end of [refresh] for the active window. *)
Definition reload_if_active (PROBE : Probe) (win : Win.t) : list Event :=
  if Attrs.id (get_window PROBE (Win.xobj win)) =? get_active_window_id PROBE
  then [State_reload_active None] else [].

Module Ex10.
(** The window of [Ex4] is reported where it is, but hidden. *)
Definition hidden : Attrs.t :=
  Attrs.mk 7 100 100 644 476 2 2 20 2 0 "shell" (Some ("xterm", "XTerm"))
    false true false (Some 7).
Definition PROBE_hidden : Probe := mkProbe (fun _ => hidden) (fun _ => hidden) 7.

(** It is reported on desktop 3, which is not tracked. *)
Definition elsewhere : Attrs.t :=
  Attrs.mk 7 100 100 644 476 2 2 20 2 3 "shell" (Some ("xterm", "XTerm"))
    false true false (Some 7).
Definition PROBE_elsewhere : Probe := mkProbe (fun _ => elsewhere) (fun _ => elsewhere) 7.

(** It is reported at (5000,100), on no screen. *)
Definition far : Attrs.t :=
  Attrs.mk 7 5000 100 644 476 2 2 20 2 0 "shell" (Some ("xterm", "XTerm"))
    false true false (Some 7).
Definition PROBE_far : Probe := mkProbe (fun _ => far) (fun _ => far) 7.
End Ex10.

Module Ex11.
(** The left screen of [Ex4] and two screens with the same bounds to its
    right (a mirrored output), in one viewport of desktop 0. *)
Definition viewport : Viewport.t := Viewport.mk 0 0 0 2560 800 [0; 1; 2]%nat 0.
Definition left : Screen.t :=
  Screen.mk 0 0 0 1280 800 (0, 0, 1280, 800) [0%nat] false viewport.
Definition right : Screen.t :=
  Screen.mk 1 1280 0 1280 800 (1280, 0, 1280, 800) [] false viewport.
Definition mirror : Screen.t :=
  Screen.mk 2 1280 0 1280 800 (1280, 0, 1280, 800) [] false viewport.
Definition desktop : Desktop.t := Desktop.mk 0 [viewport].
Definition w : World :=
  mkWorld {[ 0%nat := Ex4.win ]} {[ 0%nat := left; 1%nat := right; 2%nat := mirror ]} ∅
    {[ 0 := desktop ]} [].
End Ex11.
(** * Properties *)

(** ** Reasoning about methods *)

Lemma bind_Ok {A B} (c : M A) (k : A -> M B) w w' a :
  c w = (w', Ok a) -> bind c k w = k a w'.
Proof. intros H. unfold bind. now rewrite H. Qed.

Lemma bind_Raise {A B} (c : M A) (k : A -> M B) w w' e :
  c w = (w', Raise e) -> bind c k w = (w', Raise e).
Proof. intros H. unfold bind. now rewrite H. Qed.

Lemma get_win_Some w r win : windows w !! r = Some win -> get_win r w = (w, Ok win).
Proof. intros H. unfold get_win. now rewrite H. Qed.

Lemma get_screen_Some w r scr : screens w !! r = Some scr -> get_screen r w = (w, Ok scr).
Proof. intros H. unfold get_screen. now rewrite H. Qed.

Lemma get_tiler_Some w r t : tilers w !! r = Some t -> get_tiler r w = (w, Ok t).
Proof. intros H. unfold get_tiler. now rewrite H. Qed.

(** ** Window.resize *)

Lemma is_in_screen_contained s x y width height :
  1 <= width -> 1 <= height ->
  is_in_screen s x y width height = true <-> rect_contained s x y width height.
Proof.
  intros Hw Hh. unfold is_in_screen, rect_contained. split.
  - intros H px py Hx Hy.
    apply andb_true_iff in H as [H H4]. apply andb_true_iff in H as [H H3].
    apply andb_true_iff in H as [H1 H2].
    apply Z.leb_le in H1, H2, H3, H4. lia.
  - intros H.
    destruct (H x y) as [Hx Hy]; [lia | lia |].
    destruct (H (x + width - 1) (y + height - 1)) as [Hx' Hy']; [lia | lia |].
    repeat (apply andb_true_iff; split); apply Z.leb_le; lia.
Qed.

Lemma resize_rejected w self win scr x y width height :
  windows w !! self = Some win ->
  screens w !! Win.screen win = Some scr ->
  (width <? 1) || (height <? 1) || negb (is_in_screen scr x y width height) = true ->
  resize self x y width height w = (w, Ok tt).
Proof.
  intros Hwin Hscr Hrej. unfold resize.
  rewrite (bind_Ok _ _ _ _ _ (get_win_Some _ _ _ Hwin)).
  rewrite (bind_Ok _ _ _ _ _ (get_screen_Some _ _ _ Hscr)).
  now rewrite Hrej.
Qed.

Lemma resize_accepted w self win scr x y width height :
  windows w !! self = Some win ->
  screens w !! Win.screen win = Some scr ->
  (width <? 1) || (height <? 1) || negb (is_in_screen scr x y width height) = false ->
  resize self x y width height w =
    (mkWorld (<[self := Win.set_geometry win x y width height]> (windows w))
       (screens w) (tilers w) (desktops w)
       (trace w ++ [PROBE_window_resize (Win.xobj win) x y width height]), Ok tt).
Proof.
  intros Hwin Hscr Hacc. unfold resize.
  rewrite (bind_Ok _ _ _ _ _ (get_win_Some _ _ _ Hwin)).
  rewrite (bind_Ok _ _ _ _ _ (get_screen_Some _ _ _ Hscr)).
  now rewrite Hacc.
Qed.

(** C3. [w.resize(x, y, width, height)] is a silent no-op (the world,
    hence the stored geometry and the trace of probe calls, is unchanged)
    when [width < 1], or [height < 1], or the rectangle is not fully
    contained in the owning screen's bounds; otherwise exactly one
    [window_resize] is issued to the probe and the stored geometry becomes
    the requested [(x, y, width, height)]. *)
Theorem resize_contract (w : World) (self : wref) (win : Win.t) (scr : Screen.t)
    (x y width height : Z) :
  windows w !! self = Some win ->
  screens w !! Win.screen win = Some scr ->
  (width < 1 \/ height < 1 \/ ~ rect_contained scr x y width height ->
     resize self x y width height w = (w, Ok tt))
  /\ (~ (width < 1 \/ height < 1 \/ ~ rect_contained scr x y width height) ->
      exists w' win',
        resize self x y width height w = (w', Ok tt)
        /\ trace w' = trace w ++ [PROBE_window_resize (Win.xobj win) x y width height]
        /\ windows w' !! self = Some win'
        /\ Win.geometry win' = (x, y, width, height)).
Proof.
  intros Hwin Hscr. split.
  - intros Hrej. apply (resize_rejected _ _ _ _ _ _ _ _ Hwin Hscr).
    destruct (Z.ltb_spec width 1) as [|Hw]; [reflexivity|].
    destruct (Z.ltb_spec height 1) as [|Hh]; [reflexivity|]. simpl.
    destruct (is_in_screen scr x y width height) eqn:E; [|reflexivity].
    apply is_in_screen_contained in E; [|lia|lia].
    destruct Hrej as [?|[?|Hn]]; [lia | lia | now destruct Hn].
  - intros Hacc.
    assert (Hw : 1 <= width) by lia. assert (Hh : 1 <= height) by lia.
    assert (E : is_in_screen scr x y width height = true).
    { destruct (is_in_screen scr x y width height) eqn:E; [reflexivity|].
      exfalso. apply Hacc. right. right. intros Hc.
      apply is_in_screen_contained in Hc; [congruence | lia | lia]. }
    eexists _, _. split; [|split; [|split]].
    + apply (resize_accepted _ _ _ _ _ _ _ _ Hwin Hscr).
      rewrite E. destruct (Z.ltb_spec width 1); [lia|].
      destruct (Z.ltb_spec height 1); [lia|]. reflexivity.
    + reflexivity.
    + simpl. apply lookup_insert_eq.
    + reflexivity.
Qed.

(** ** Frames *)

Lemma preserves_ret {A} P (a : A) : preserves P (ret a).
Proof. intros w w' r E HP. now inversion E; subst. Qed.

Lemma preserves_raise {A} P e : preserves P (@raise A e).
Proof. intros w w' r E HP. now inversion E; subst. Qed.

Lemma preserves_bind {A B} P (c : M A) (k : A -> M B) :
  preserves P c -> (forall a, preserves P (k a)) -> preserves P (bind c k).
Proof.
  intros Hc Hk w w' r E HP. unfold bind in E.
  destruct (c w) as [w1 [a|e]] eqn:Ec.
  - eapply Hk; [exact E|]. eapply Hc; eauto.
  - inversion E; subst. eapply Hc; eauto.
Qed.

Lemma preserves_for_each {B} P (l : list B) (f : B -> M unit) :
  (forall b, preserves P (f b)) -> preserves P (for_each l f).
Proof.
  intros Hf. induction l as [|b l IH]; simpl.
  - apply preserves_ret.
  - apply preserves_bind; [apply Hf | intros _; exact IH].
Qed.

Lemma preserves_of_option {A} P (o : option A) e : preserves P (of_option o e).
Proof. destruct o; [apply preserves_ret | apply preserves_raise]. Qed.

Lemma preserves_get_win P r : preserves P (get_win r).
Proof. intros w w' x E HP. unfold get_win in E. eapply preserves_of_option; eauto. Qed.

Lemma preserves_get_screen P r : preserves P (get_screen r).
Proof. intros w w' x E HP. unfold get_screen in E. eapply preserves_of_option; eauto. Qed.

Lemma preserves_get_tiler P r : preserves P (get_tiler r).
Proof. intros w w' x E HP. unfold get_tiler in E. eapply preserves_of_option; eauto. Qed.

Lemma preserves_get_desktops P : preserves P get_desktops.
Proof. intros w w' x E HP. now inversion E; subst. Qed.

(** A property that reads one component of the world is kept by the
    writes to the other components. *)
Ltac frame_write :=
  let w := fresh "w" in let w' := fresh "w'" in let r := fresh "r" in
  let E := fresh "E" in let HP := fresh "HP" in
  intros w w' r E HP; cbv beta in E; inversion E; subst; cbn in *;
  first [exact HP | assumption | congruence].

Ltac frame_step :=
  first
    [ apply preserves_ret | apply preserves_raise
    | apply preserves_get_win | apply preserves_get_screen
    | apply preserves_get_tiler | apply preserves_get_desktops
    | apply preserves_of_option
    | apply preserves_for_each; intros ?
    | apply preserves_bind; [| intros ?]
    | match goal with
      | |- preserves _ (if ?b then _ else _) => destruct b
      | |- preserves _ (match ?o with Some _ => _ | None => _ end) => destruct o
      | |- preserves _ (let '(_, _) := ?p in _) => destruct p
      end
    | frame_write ].

Ltac frame := repeat frame_step.

Lemma resize_keeps_tilers (T : gmap nat Tiler.t) self x y width height :
  preserves (fun w => tilers w = T) (resize self x y width height).
Proof. unfold resize, emit, put_win. frame. Qed.

Lemma resize_keeps_screens (S : gmap nat Screen.t) self x y width height :
  preserves (fun w => screens w = S) (resize self x y width height).
Proof. unfold resize, emit, put_win. frame. Qed.

(** ** Window.filtered *)

Lemma startswith_spec s sub :
  startswith s sub = true <-> exists post, s = String.append sub post.
Proof.
  revert s. induction sub as [|a sub IH]; intros s; simpl.
  - split; [intros _; now exists s | intros _; now destruct s].
  - destruct s as [|b s]; simpl.
    + split; [discriminate | intros [post H]; discriminate].
    + destruct (ascii_dec a b) as [->|Hne].
      * rewrite IH. split; intros [post H]; exists post; [now subst | now inversion H].
      * split; [discriminate | intros [post H]; inversion H; congruence].
Qed.

Lemma find_from_eq s sub i :
  find_from s sub i =
  if startswith s sub then i
  else match s with
       | EmptyString => -1
       | String _ s' => find_from s' sub (i + 1)
       end.
Proof. now destruct s. Qed.

Lemma find_from_spec s sub i :
  0 <= i ->
  find_from s sub i <> -1 <->
  exists pre post, s = String.append pre (String.append sub post).
Proof.
  revert i. induction s as [|c s IH]; intros i Hi; rewrite find_from_eq.
  - destruct (startswith EmptyString sub) eqn:E.
    + split; [intros _ | intros _; lia].
      apply startswith_spec in E as [post E]. now exists EmptyString, post.
    + split; [congruence|]. intros [pre [post H]].
      destruct pre; [|discriminate]. simpl in H.
      assert (startswith EmptyString sub = true) by (apply startswith_spec; eauto).
      congruence.
  - destruct (startswith (String c s) sub) eqn:E.
    + split; [intros _ | intros _; lia].
      apply startswith_spec in E as [post E]. now exists EmptyString, post.
    + rewrite IH by lia. split; intros [pre [post H]].
      * exists (String c pre), post. simpl. now rewrite H.
      * destruct pre as [|c' pre]; simpl in H.
        -- assert (startswith (String c s) sub = true) by (apply startswith_spec; eauto).
           congruence.
        -- inversion H; subst. eauto.
Qed.

Lemma find_ci_substring c f :
  negb (find (lower c) (lower f) =? -1) = true <-> ci_substring c f.
Proof.
  unfold ci_substring, find. rewrite <- (find_from_spec _ _ 0) by lia.
  rewrite negb_true_iff, Z.eqb_neq. reflexivity.
Qed.

Lemma filtered_loop_spec winclass filters :
  filtered_loop winclass filters = true <->
  exists f, In f filters /\ (ci_substring (fst winclass) f \/ ci_substring (snd winclass) f).
Proof.
  induction filters as [|g filters IH]; simpl.
  - split; [discriminate | intros [f [[] _]]].
  - destruct (negb (find (lower (fst winclass)) (lower g) =? -1)) eqn:E0.
    { split; [intros _ | reflexivity]. exists g. split; [now left|].
      left. now apply find_ci_substring. }
    destruct (negb (find (lower (snd winclass)) (lower g) =? -1)) eqn:E1.
    { split; [intros _ | reflexivity]. exists g. split; [now left|].
      right. now apply find_ci_substring. }
    rewrite IH. split.
    + intros [f [Hin H]]. exists f. split; [now right | exact H].
    + intros [f [[->|Hin] H]]; [|now exists f].
      destruct H as [H|H]; apply find_ci_substring in H; congruence.
Qed.

(** C7. [filtered()] returns true if and only if the window has a class
    tag and one of its two components contains some configured filter
    string as a case-insensitive substring; without a class tag it returns
    false.  It changes nothing. *)
Theorem filtered_iff (Config_filter : list string) (w : World) (self : wref) (win : Win.t) :
  windows w !! self = Some win ->
  exists b, filtered Config_filter self w = (w, Ok b)
    /\ (b = true <->
        exists c0 c1 f, Win.winclass win = Some (c0, c1) /\ In f Config_filter
                        /\ (ci_substring c0 f \/ ci_substring c1 f))
    /\ (Win.winclass win = None -> b = false).
Proof.
  intros Hwin. unfold filtered.
  rewrite (bind_Ok _ _ _ _ _ (get_win_Some _ _ _ Hwin)).
  destruct (Win.winclass win) as [[c0 c1]|].
  - eexists. split; [reflexivity|]. split; [|discriminate].
    rewrite filtered_loop_spec. simpl. split.
    + intros [f [Hin H]]. now exists c0, c1, f.
    + intros [d0 [d1 [f [E [Hin H]]]]]. inversion E; subst. now exists f.
  - exists false. split; [reflexivity|]. split; [|reflexivity].
    split; [discriminate|]. intros [c0 [c1 [f [E _]]]]. discriminate.
Qed.

(** The window with class tag [["xterm", "XTerm"]] is filtered when
    ["xterm"] is a configured filter. *)
Lemma filtered_iff_witness :
  let w := Ex.world
             [Win.mk 7 0 0 640 480 0 0 0 0 0 "shell" (Some ("xterm", "XTerm"))
                false false (Some 7) 0 0 640 480 0%nat] [] [] (PyFloat.decimal 5 1) in
  filtered ["xterm"] 0%nat w = (w, Ok true).
Proof.
  intros w.
  destruct (filtered_iff ["xterm"] w 0%nat
              (Win.mk 7 0 0 640 480 0 0 0 0 0 "shell" (Some ("xterm", "XTerm"))
                 false false (Some 7) 0 0 640 480 0%nat) eq_refl)
    as [b [E [Hb _]]].
  rewrite E. f_equal. f_equal. apply Hb.
  exists "xterm", "XTerm", "xterm". split; [reflexivity|]. split; [now left|].
  left. exists EmptyString, EmptyString. reflexivity.
Defined.

(** ** Proportion changes on a degenerate screen *)

(** C6. When the master list or the slave list is empty, the Vertical and
    the Horizontal [_master_increase] and [_master_decrease] return without
    changing anything: the world after the call, with its proportion
    factors and every window's geometry, is the world before it. *)
Theorem master_resize_noop (w : World) (self : tref) (t : Tiler.t) (scr : Screen.t)
    (factor : float) :
  tilers w !! self = Some t ->
  screens w !! Tiler.screen t = Some scr ->
  Tiler.masters t = [] \/ Tiler.slaves t = [] ->
  Vertical._master_increase self factor w = (w, Ok tt)
  /\ Vertical._master_decrease self factor w = (w, Ok tt)
  /\ Horizontal._master_increase self factor w = (w, Ok tt)
  /\ Horizontal._master_decrease self factor w = (w, Ok tt).
Proof.
  intros Ht Hscr Hempty.
  assert (E : empty (Tiler.slaves t) || empty (Tiler.masters t) = true).
  { destruct Hempty as [-> | ->]; simpl; [apply orb_true_r | reflexivity]. }
  assert (Hwa : get_workarea (Tiler.screen t) w = (w, Ok (Screen.workarea scr))).
  { unfold get_workarea. now rewrite (bind_Ok _ _ _ _ _ (get_screen_Some _ _ _ Hscr)). }
  unfold Vertical._master_increase, Vertical._master_decrease,
    Horizontal._master_increase, Horizontal._master_decrease.
  rewrite !(bind_Ok _ _ _ _ _ (get_tiler_Some _ _ _ Ht)).
  rewrite !(bind_Ok _ _ _ _ _ Hwa).
  destruct (Screen.workarea scr) as [[[x y] width] height].
  now rewrite E.
Qed.

(** An all-master screen and an all-slave screen. *)
Lemma master_resize_noop_witness :
  let w1 := Ex.world [Ex.win 1 0 0 1280 400; Ex.win 2 0 400 1280 400] [0; 1]%nat []
              (PyFloat.decimal 5 1) in
  let w2 := Ex.world [Ex.win 1 0 0 1280 800] [] [0%nat] (PyFloat.decimal 5 1) in
  Vertical._master_increase 0%nat (PyFloat.decimal 5 2) w1 = (w1, Ok tt)
  /\ Horizontal._master_decrease 0%nat (PyFloat.decimal 5 2) w2 = (w2, Ok tt).
Proof.
  intros w1 w2. split.
  - apply (master_resize_noop w1 0%nat
             (Tiler.mk 0%nat [0; 1]%nat [] (PyFloat.decimal 5 1) (PyFloat.decimal 5 1) 0)
             (Ex.screen [0; 1]%nat) (PyFloat.decimal 5 2)
             eq_refl eq_refl (or_intror eq_refl)).
  - apply (master_resize_noop w2 0%nat
             (Tiler.mk 0%nat [] [0%nat] (PyFloat.decimal 5 1) (PyFloat.decimal 5 1) 0)
             (Ex.screen [0%nat]) (PyFloat.decimal 5 2)
             eq_refl eq_refl (or_introl eq_refl)).
Defined.

(** ** Window.refresh: what happens to the object *)

Lemma update_attributes_Some w self win attrs :
  windows w !! self = Some win ->
  update_attributes self attrs w =
    (set_windows w (<[self := updated win attrs]> (windows w)), Ok tt).
Proof.
  intros H. unfold update_attributes.
  now rewrite (bind_Ok _ _ _ _ _ (get_win_Some _ _ _ H)).
Qed.

Lemma set_screen_keeps_holds self u screen :
  preserves (holds self u)
    (bind (get_win self) (fun win => put_win self (Win.set_screen win screen))).
Proof.
  intros w w' r E [s H]. unfold bind, get_win in E. rewrite H in E.
  cbn in E. inversion E; subst. exists screen. cbn.
  now rewrite lookup_insert_eq.
Qed.

Ltac frame_holds :=
  repeat first [ apply set_screen_keeps_holds | frame_step ].

Lemma relocation_keeps_holds self u desk x y oldscreen :
  preserves (holds self u)
    (scan desk x y (fun screen =>
       bind (delete_window oldscreen self) (fun _ =>
       bind (add_window screen self) (fun _ =>
       bind (needs_tiling screen) (fun _ =>
       bind (needs_tiling oldscreen) (fun _ =>
       bind (get_win self) (fun win =>
         put_win self (Win.set_screen win screen)))))))).
Proof.
  unfold scan, delete_window, add_window, needs_tiling, put_screen, emit.
  frame_holds.
Qed.

(** After [refresh], whatever its outcome, the object is the old one with
    the fields of [update_attributes] taken from the probe's snapshot, in
    which width and height were first overwritten by the stored ones; only
    the owning screen may differ. *)
Lemma refresh_object PROBE w self win oldscr w' r :
  windows w !! self = Some win ->
  screens w !! Win.screen win = Some oldscr ->
  refresh PROBE self w = (w', r) ->
  holds self
    (updated win (Attrs.set_size (get_window PROBE (Win.xobj win))
                    (Win.width win) (Win.height win))) w'.
Proof.
  intros Hwin Hscr E. unfold refresh in E.
  rewrite (bind_Ok _ _ _ _ _ (get_win_Some _ _ _ Hwin)) in E.
  rewrite (bind_Ok _ _ _ _ _ (get_screen_Some _ _ _ Hscr)) in E.
  cbv zeta in E.
  rewrite (bind_Ok _ _ _ _ _ (update_attributes_Some _ _ _ _ Hwin)) in E.
  match type of E with
  | ?c ?w1 = _ =>
      assert (Hc : preserves
                     (holds self
                        (updated win (Attrs.set_size (get_window PROBE (Win.xobj win))
                                        (Win.width win) (Win.height win)))) c)
  end.
  { apply preserves_bind; [|intros ?].
    - apply preserves_get_win.
    - apply preserves_bind; [|intros ?].
      + destruct (_ || _).
        * apply preserves_bind; [apply preserves_get_desktops | intros ?].
          apply preserves_bind; [apply preserves_of_option | intros ?].
          apply relocation_keeps_holds.
        * unfold needs_tiling, put_screen, emit. frame_holds.
      + unfold reload_active, emit. frame_holds. }
  eapply Hc; [exact E|].
  exists (Win.screen win). cbn. now rewrite lookup_insert_eq.
Qed.

(** C8. [refresh()] leaves the stored width and height as they were,
    whatever the probe reports and whatever the outcome of the call; the
    desktop, title, class, visibility, static flag and decoration insets
    are those of the probe's snapshot (which also carries the window's id
    and handle). *)
Theorem refresh_keeps_size (PROBE : Probe) (w w' : World) (self : wref)
    (win : Win.t) (oldscr : Screen.t) (r : res unit) :
  windows w !! self = Some win ->
  screens w !! Win.screen win = Some oldscr ->
  refresh PROBE self w = (w', r) ->
  exists win', windows w' !! self = Some win'
    /\ Win.width win' = Win.width win
    /\ Win.height win' = Win.height win
    /\ let update := get_window PROBE (Win.xobj win) in
       Win.desktop win' = Attrs.desktop update
       /\ Win.title win' = Attrs.title update
       /\ Win.winclass win' = Attrs.class update
       /\ Win.hidden win' = Attrs.hidden update
       /\ Win.static win' = Attrs.static update
       /\ (Win.d_left win', Win.d_right win', Win.d_top win', Win.d_bottom win')
          = (Attrs.d_left update, Attrs.d_right update,
             Attrs.d_top update, Attrs.d_bottom update)
       /\ Win.id win' = Attrs.id update
       /\ Win.xobj win' = Attrs.xobj update.
Proof.
  intros Hwin Hscr E.
  destruct (refresh_object _ _ _ _ _ _ _ Hwin Hscr E) as [s H].
  eexists. split; [exact H|]. cbn. repeat split; reflexivity.
Qed.

(** C10. [refresh()] never changes the stored working position: [x] and
    [y] after the call, whatever its outcome, are those before it.  They
    are set to zero by the constructor. *)
Theorem refresh_keeps_position (PROBE : Probe) (w w' : World) (self : wref)
    (win : Win.t) (oldscr : Screen.t) (r : res unit) :
  windows w !! self = Some win ->
  screens w !! Win.screen win = Some oldscr ->
  refresh PROBE self w = (w', r) ->
  (exists win', windows w' !! self = Some win'
     /\ Win.x win' = Win.x win /\ Win.y win' = Win.y win)
  /\ (forall screen attrs, exists w1 new win1,
        Window screen attrs w = (w1, Ok new)
        /\ windows w1 !! new = Some win1 /\ Win.x win1 = 0 /\ Win.y win1 = 0).
Proof.
  intros Hwin Hscr E. split.
  - destruct (refresh_object _ _ _ _ _ _ _ Hwin Hscr E) as [s H].
    eexists. split; [exact H|]. cbn. split; reflexivity.
  - intros screen attrs. unfold Window.
    unfold bind at 1. cbn.
    unfold bind at 1. unfold update_attributes at 1.
    unfold bind at 1. unfold get_win at 1. cbn. rewrite lookup_insert_eq. cbn.
    unfold bind at 1. unfold get_win at 1. cbn. rewrite lookup_insert_eq. cbn.
    unfold bind at 1. cbn.
    destruct (Attrs.xobj attrs); cbn;
      eexists _, _, _; (split; [reflexivity|]); cbn;
      rewrite lookup_insert_eq; repeat split; reflexivity.
Qed.

(** ** The scan visits exactly the matching screens *)

Lemma for_each_app {B} (l1 l2 : list B) (f : B -> M unit) w :
  for_each (l1 ++ l2) f w = bind (for_each l1 f) (fun _ => for_each l2 f) w.
Proof.
  revert w. induction l1 as [|b l1 IH]; intros w; simpl.
  - reflexivity.
  - unfold bind. destruct (f b w) as [w1 [[]|e]]; [|reflexivity].
    rewrite IH. reflexivity.
Qed.

Lemma same_bounds_refl S : same_bounds S S.
Proof. intros k. reflexivity. Qed.

Lemma same_bounds_trans S1 S2 S3 :
  same_bounds S1 S2 -> same_bounds S2 S3 -> same_bounds S1 S3.
Proof. intros H12 H23 k. now rewrite H23, H12. Qed.

Lemma same_bounds_on_screen S S' x y s :
  same_bounds S S' -> on_screen S' x y s = on_screen S x y s.
Proof.
  intros H. unfold on_screen. specialize (H s). revert H.
  destruct (S' !! s) as [a|], (S !! s) as [b|]; cbn; intros H; try discriminate;
    [|reflexivity].
  unfold bounds in H. inversion H as [[Hx Hy Hw Hh]].
  unfold is_on_screen. now rewrite Hx, Hy, Hw, Hh.
Qed.

Lemma same_bounds_is_Some S S' s :
  same_bounds S S' -> is_Some (S !! s) -> is_Some (S' !! s).
Proof.
  intros H [a Ha]. specialize (H s). rewrite Ha in H. revert H.
  destruct (S' !! s); [eauto | discriminate].
Qed.

Lemma same_bounds_insert S s scr scr' :
  S !! s = Some scr -> bounds scr' = bounds scr -> same_bounds S (<[s := scr']> S).
Proof.
  intros Hs Hb k. destruct (decide (s = k)) as [<-|Hne].
  - rewrite lookup_insert_eq, Hs. cbn. now rewrite Hb.
  - now rewrite lookup_insert_ne.
Qed.

Section Scan.

Variables (x y : Z) (body : sref -> M unit).

(** The body changes no screen's bounds and drops no screen. *)
Hypothesis body_stable :
  forall s w w' r, body s w = (w', r) -> same_bounds (screens w) (screens w').

Lemma for_each_body_stable l w w' r :
  for_each l body w = (w', r) -> same_bounds (screens w) (screens w').
Proof.
  revert w. induction l as [|s l IH]; intros w E; simpl in E.
  - inversion E; subst. apply same_bounds_refl.
  - unfold bind in E. destruct (body s w) as [w1 [[]|e]] eqn:Eb.
    + eapply same_bounds_trans; [eapply body_stable; eauto | eauto].
    + inversion E; subst. eapply body_stable; eauto.
Qed.

Lemma scan_viewport l w :
  (forall s, In s l -> is_Some (screens w !! s)) ->
  for_each l (fun screen =>
    bind (get_screen screen) (fun scr =>
      if is_on_screen scr x y then body screen else ret tt)) w
  = for_each (List.filter (on_screen (screens w) x y) l) body w.
Proof.
  revert w. induction l as [|s l IH]; intros w Hex; [reflexivity|].
  destruct (Hex s (or_introl eq_refl)) as [scr Hscr].
  cbn [for_each List.filter]. unfold on_screen at 1. rewrite Hscr.
  unfold bind at 1.
  rewrite (bind_Ok _ _ _ _ _ (get_screen_Some _ _ _ Hscr)).
  destruct (is_on_screen scr x y).
  - cbn [for_each]. unfold bind at 2.
    destruct (body s w) as [w1 [[]|e]] eqn:Eb; [|reflexivity].
    pose proof (body_stable _ _ _ _ Eb) as Hst.
    rewrite IH.
    + f_equal. apply filter_ext. intros k. now apply same_bounds_on_screen.
    + intros k Hk. eapply same_bounds_is_Some; [exact Hst|]. apply Hex. now right.
  - cbn. apply IH. intros k Hk. apply Hex. now right.
Qed.

Lemma scan_viewports vs w :
  (forall v s, In v vs -> In s (Viewport.screens v) -> is_Some (screens w !! s)) ->
  for_each vs (fun viewport =>
    if is_on_viewport viewport x y then
      for_each (Viewport.screens viewport) (fun screen =>
        bind (get_screen screen) (fun scr =>
          if is_on_screen scr x y then body screen else ret tt))
    else ret tt) w
  = for_each
      (flat_map (fun v => if is_on_viewport v x y
                          then List.filter (on_screen (screens w) x y) (Viewport.screens v)
                          else []) vs) body w.
Proof.
  revert w. induction vs as [|v vs IH]; intros w Hex; [reflexivity|].
  cbn [for_each flat_map]. rewrite for_each_app.
  assert (Hrest : forall w1, same_bounds (screens w) (screens w1) ->
            for_each vs (fun viewport =>
              if is_on_viewport viewport x y then
                for_each (Viewport.screens viewport) (fun screen =>
                  bind (get_screen screen) (fun scr =>
                    if is_on_screen scr x y then body screen else ret tt))
              else ret tt) w1
            = for_each
                (flat_map (fun v => if is_on_viewport v x y
                            then List.filter (on_screen (screens w) x y) (Viewport.screens v)
                            else []) vs) body w1).
  { intros w1 Hst. rewrite IH.
    - f_equal. apply flat_map_ext. intros v'.
      destruct (is_on_viewport v' x y); [|reflexivity].
      apply filter_ext. intros k. now apply same_bounds_on_screen.
    - intros v' s Hv Hs. eapply same_bounds_is_Some; [exact Hst|].
      apply (Hex v' s); [now right | exact Hs]. }
  destruct (is_on_viewport v x y).
  - unfold bind.
    rewrite scan_viewport
      by (intros s Hs; apply (Hex v s); [now left | exact Hs]).
    destruct (for_each (List.filter (on_screen (screens w) x y) (Viewport.screens v)) body w)
      as [w1 [[]|e]] eqn:E1; [|reflexivity].
    apply Hrest. eapply for_each_body_stable; eauto.
  - cbn. apply Hrest, same_bounds_refl.
Qed.

Lemma scan_matching desk w :
  screens_exist (screens w) desk ->
  scan desk x y body w = for_each (matching (screens w) desk x y) body w.
Proof. intros Hex. unfold scan, matching. now apply scan_viewports. Qed.

End Scan.

(** ** Window.refresh: relocation *)

Lemma delete_window_bounds S0 s win :
  preserves (fun w => same_bounds S0 (screens w)) (delete_window s win).
Proof.
  intros w w' r E HP. unfold delete_window, bind, get_screen in E.
  destruct (screens w !! s) as [scr|] eqn:Hs; cbn in E; inversion E; subst; cbn;
    [|exact HP].
  eapply same_bounds_trans; [exact HP|]. now apply same_bounds_insert with scr.
Qed.

Lemma add_window_bounds S0 s win :
  preserves (fun w => same_bounds S0 (screens w)) (add_window s win).
Proof.
  intros w w' r E HP. unfold add_window, bind, get_screen in E.
  destruct (screens w !! s) as [scr|] eqn:Hs; cbn in E; inversion E; subst; cbn;
    [|exact HP].
  eapply same_bounds_trans; [exact HP|]. now apply same_bounds_insert with scr.
Qed.

Lemma needs_tiling_bounds S0 s :
  preserves (fun w => same_bounds S0 (screens w)) (needs_tiling s).
Proof.
  intros w w' r E HP. unfold needs_tiling, bind, get_screen in E.
  destruct (screens w !! s) as [scr|] eqn:Hs; cbn in E; inversion E; subst; cbn;
    [|exact HP].
  eapply same_bounds_trans; [exact HP|]. now apply same_bounds_insert with scr.
Qed.

Lemma relocation_stable oldscreen self s w w' r :
  bind (delete_window oldscreen self) (fun _ =>
  bind (add_window s self) (fun _ =>
  bind (needs_tiling s) (fun _ =>
  bind (needs_tiling oldscreen) (fun _ =>
  bind (get_win self) (fun win =>
    put_win self (Win.set_screen win s)))))) w = (w', r) ->
  same_bounds (screens w) (screens w').
Proof.
  intros E.
  refine (_ : (fun w0 => same_bounds (screens w) (screens w0)) w').
  match type of E with
  | ?c _ = _ => assert (Hc : preserves (fun w0 => same_bounds (screens w) (screens w0)) c)
  end.
  { repeat first [ apply delete_window_bounds | apply add_window_bounds
                 | apply needs_tiling_bounds | frame_step ]. }
  eapply Hc; [exact E | apply same_bounds_refl].
Qed.

(** C4, as amended.  When [refresh()] finds the desktop changed, or the
    reported position outside the current viewport or outside the current
    screen, and the scan of the new desktop finds exactly one screen
    containing that position, [new], a screen other than the old one, then
    the window is removed from the old screen's membership and appended to
    the new screen's, each of the two screens is marked as needing tiling
    exactly once, and the window's owning screen becomes [new]. *)
Theorem refresh_relocates (PROBE : Probe) (w : World) (self : wref) (win : Win.t)
    (oldscr newscr : Screen.t) (desk : Desktop.t) (new : sref) :
  let old := Win.screen win in
  let update := get_window PROBE (Win.xobj win) in
  let px := Attrs.x update in
  let py := Attrs.y update in
  windows w !! self = Some win ->
  screens w !! old = Some oldscr ->
  (Viewport.desktop (Screen.viewport oldscr) <> Attrs.desktop update
   \/ is_on_viewport (Screen.viewport oldscr) px py = false
   \/ is_on_screen oldscr px py = false) ->
  desktops w !! Attrs.desktop update = Some desk ->
  screens_exist (screens w) desk ->
  matching (screens w) desk px py = [new] ->
  new <> old ->
  screens w !! new = Some newscr ->
  exists w' oldscr' newscr' win' events,
    refresh PROBE self w = (w', Ok tt)
    /\ screens w' !! old = Some oldscr'
    /\ ~ In self (Screen.windows oldscr')
    /\ screens w' !! new = Some newscr'
    /\ Screen.windows newscr' = Screen.windows newscr ++ [self]
    /\ Screen.dirty oldscr' = true
    /\ Screen.dirty newscr' = true
    /\ trace w' = trace w ++ events
    /\ marks old events = 1%nat
    /\ marks new events = 1%nat
    /\ windows w' !! self = Some win'
    /\ Win.screen win' = new.
Proof.
  intros old update px py Hwin Hold Htrig Hdesk Hex Hmatch Hne Hnew.
  assert (Hne' : old <> new) by congruence.
  unfold refresh.
  rewrite (bind_Ok _ _ _ _ _ (get_win_Some _ _ _ Hwin)).
  fold old. rewrite (bind_Ok _ _ _ _ _ (get_screen_Some _ _ _ Hold)).
  cbv zeta. fold update.
  rewrite (bind_Ok _ _ _ _ _ (update_attributes_Some _ _ _ _ Hwin)).
  set (U := updated win (Attrs.set_size update (Win.width win) (Win.height win))).
  set (w1 := set_windows w (<[self := U]> (windows w))).
  assert (HU : windows w1 !! self = Some U) by (cbn; apply lookup_insert_eq).
  rewrite (bind_Ok _ _ _ _ _ (get_win_Some _ _ _ HU)).
  change (Attrs.x (Attrs.set_size update (Win.width win) (Win.height win))) with px.
  change (Attrs.y (Attrs.set_size update (Win.width win) (Win.height win))) with py.
  change (Win.desktop U) with (Attrs.desktop update).
  assert (Hcond : negb (Viewport.desktop (Screen.viewport oldscr) =? Attrs.desktop update)
                  || negb (is_on_viewport (Screen.viewport oldscr) px py)
                  || negb (is_on_screen oldscr px py) = true).
  { destruct Htrig as [H|[H|H]].
    - apply Z.eqb_neq in H. now rewrite H.
    - rewrite H. cbn. now rewrite orb_true_r.
    - rewrite H. cbn. now rewrite orb_true_r. }
  rewrite Hcond.
  unfold bind at 1.
  unfold bind at 1. unfold get_desktops at 1.
  unfold bind at 1. change (desktops w1) with (desktops w). rewrite Hdesk.
  cbn [of_option ret].
  rewrite scan_matching;
    [ | intros; eapply relocation_stable; eassumption | exact Hex ].
  change (screens w1) with (screens w). rewrite Hmatch.
  cbn [for_each].
  unfold delete_window, add_window, needs_tiling, put_screen, emit, get_screen, get_win,
    put_win, reload_active, bind, ret.
  cbn. rewrite Hold. cbn.
  rewrite (lookup_insert_ne _ old new) by exact Hne'. rewrite Hnew. cbn.
  rewrite lookup_insert_eq. cbn.
  rewrite (lookup_insert_ne _ new old) by exact Hne.
  rewrite (lookup_insert_ne _ new old) by exact Hne.
  rewrite lookup_insert_eq. cbn.
  rewrite lookup_insert_eq. cbn.
  rewrite lookup_insert_eq. cbn.
  destruct (Attrs.id update =? get_active_window_id PROBE).
  - eexists _, _, _, _, _. split; [reflexivity|]. cbn.
    split; [apply lookup_insert_eq|].
    split; [cbn; intros Hin; apply filter_In in Hin as [_ Hin];
            now rewrite Nat.eqb_refl in Hin|].
    split; [rewrite lookup_insert_ne by exact Hne'; apply lookup_insert_eq|].
    split; [reflexivity|]. split; [reflexivity|]. split; [reflexivity|].
    split; [rewrite <- !app_assoc; reflexivity|].
    cbn. rewrite !Nat.eqb_refl.
    destruct (Nat.eqb_spec old new); [contradiction|].
    destruct (Nat.eqb_spec new old); [contradiction|].
    split; [reflexivity|]. split; [reflexivity|].
    split; [apply lookup_insert_eq | reflexivity].
  - eexists _, _, _, _, _. split; [reflexivity|]. cbn.
    split; [apply lookup_insert_eq|].
    split; [cbn; intros Hin; apply filter_In in Hin as [_ Hin];
            now rewrite Nat.eqb_refl in Hin|].
    split; [rewrite lookup_insert_ne by exact Hne'; apply lookup_insert_eq|].
    split; [reflexivity|]. split; [reflexivity|]. split; [reflexivity|].
    split; [rewrite <- !app_assoc; reflexivity|].
    cbn. rewrite !Nat.eqb_refl.
    destruct (Nat.eqb_spec old new); [contradiction|].
    destruct (Nat.eqb_spec new old); [contradiction|].
    split; [reflexivity|]. split; [reflexivity|].
    split; [apply lookup_insert_eq | reflexivity].
Qed.

(** ** Window.load_window *)

Lemma Window_run screen attrs w :
  Window screen attrs w =
    (mkWorld (<[fresh (dom (windows w)) := constructed screen attrs]> (windows w))
       (screens w) (tilers w) (desktops w) (trace w ++ listens attrs),
     Ok (fresh (dom (windows w)))).
Proof.
  unfold Window, listens, constructed.
  unfold bind at 1. cbn.
  unfold bind at 1. unfold update_attributes at 1.
  unfold bind at 1. unfold get_win at 1. cbn. rewrite lookup_insert_eq. cbn.
  unfold bind at 1. unfold get_win at 1. cbn. rewrite lookup_insert_eq. cbn.
  unfold bind at 1. cbn.
  rewrite !insert_insert_eq.
  destruct (Attrs.xobj attrs); cbn; [reflexivity|].
  now rewrite app_nil_r.
Qed.

Lemma fresh_window w : windows w !! fresh (dom (windows w)) = None.
Proof. apply not_elem_of_dom, is_fresh. Qed.

(** The body of the admission loop on a window that matches a filter: the
    object is constructed and registered, then dropped. *)
Lemma load_body_filtered PROBE filters attrs screen w :
  matches_filter filters attrs ->
  bind (Window screen attrs) (fun win =>
    bind (filtered filters win) (fun f =>
      if negb f then
        bind (add_window screen win) (fun _ =>
        bind (needs_tiling screen) (fun _ =>
        bind (get_win win) (fun w0 =>
          if Win.id w0 =? get_active_window_id PROBE then activate win else ret tt)))
      else ret tt)) w
  = (mkWorld (<[fresh (dom (windows w)) := constructed screen attrs]> (windows w))
       (screens w) (tilers w) (desktops w) (trace w ++ listens attrs), Ok tt).
Proof.
  intros [c0 [c1 [f [Hc [Hin Hsub]]]]].
  rewrite (bind_Ok _ _ _ _ _ (Window_run screen attrs w)).
  unfold bind at 1. unfold filtered, bind at 1, get_win at 1. cbn.
  rewrite lookup_insert_eq. cbn. rewrite Hc.
  assert (E : filtered_loop (c0, c1) filters = true)
    by (apply filtered_loop_spec; now exists f).
  cbn. now rewrite E.
Qed.

Lemma Forall_is_listen attrs : Forall is_listen (listens attrs).
Proof.
  unfold listens. destruct (Attrs.xobj attrs); constructor; [|constructor].
  now eexists.
Qed.

Section Admission.

Variables (PROBE : Probe) (filters : list string) (attrs : Attrs.t).
Hypothesis Hmatch : matches_filter filters attrs.

Let body : sref -> M unit := fun screen =>
  bind (Window screen attrs) (fun win =>
    bind (filtered filters win) (fun f =>
      if negb f then
        bind (add_window screen win) (fun _ =>
        bind (needs_tiling screen) (fun _ =>
        bind (get_win win) (fun w0 =>
          if Win.id w0 =? get_active_window_id PROBE then activate win else ret tt)))
      else ret tt)).

(** Screens are untouched and only registrations are issued. *)
Lemma filtered_body_quiet w0 screen :
  preserves (fun w => screens w = screens w0
                      /\ exists events, trace w = trace w0 ++ events
                                        /\ Forall is_listen events)
    (body screen).
Proof.
  intros w w' r E [HS [events [Ht Hl]]]. unfold body in E.
  rewrite (load_body_filtered _ _ _ _ _ Hmatch) in E. inversion E; subst. cbn.
  split; [exact HS|]. exists (events ++ listens attrs).
  split; [now rewrite Ht, app_assoc|].
  apply Forall_app. split; [exact Hl | apply Forall_is_listen].
Qed.

(** An object of the store stays in the store. *)
Lemma filtered_body_keeps k screen :
  preserves (fun w => is_Some (windows w !! k)
                      /\ forall e, In e (listens attrs) -> In e (trace w))
    (body screen).
Proof.
  intros w w' r E [[v Hv] Hl]. unfold body in E.
  rewrite (load_body_filtered _ _ _ _ _ Hmatch) in E. inversion E; subst. cbn.
  split.
  - destruct (decide (fresh (dom (windows w)) = k)) as [<-|Hne].
    + rewrite lookup_insert_eq. eauto.
    + rewrite lookup_insert_ne by exact Hne. eauto.
  - intros e He. apply in_or_app. right. exact He.
Qed.

Lemma filtered_body_stable s w w' r :
  body s w = (w', r) -> same_bounds (screens w) (screens w').
Proof.
  intros E. unfold body in E.
  rewrite (load_body_filtered _ _ _ _ _ Hmatch) in E. inversion E; subst. cbn.
  apply same_bounds_refl.
Qed.

Lemma filtered_body_Ok l w : exists w', for_each l body w = (w', Ok tt).
Proof.
  revert w. induction l as [|s l IH]; intros w; cbn [for_each].
  - now eexists.
  - unfold bind. unfold body at 1.
    rewrite (load_body_filtered _ _ _ _ _ Hmatch). apply IH.
Qed.

Lemma load_window_filtered_scan desk w w' r :
  scan desk (Attrs.x attrs) (Attrs.y attrs) body w = (w', r) ->
  screens w' = screens w
  /\ exists events, trace w' = trace w ++ events /\ Forall is_listen events.
Proof.
  intros E.
  assert (Hc : preserves (fun w1 => screens w1 = screens w
                            /\ exists events, trace w1 = trace w ++ events
                                              /\ Forall is_listen events)
                 (scan desk (Attrs.x attrs) (Attrs.y attrs) body)).
  { unfold scan. repeat first [ apply filtered_body_quiet | frame_step ]. }
  eapply Hc; [exact E|]. split; [reflexivity|].
  exists []. split; [now rewrite app_nil_r | constructor].
Qed.

Lemma load_window_filtered_object desk w w' r :
  screens_exist (screens w) desk ->
  matching (screens w) desk (Attrs.x attrs) (Attrs.y attrs) <> [] ->
  scan desk (Attrs.x attrs) (Attrs.y attrs) body w = (w', r) ->
  r = Ok tt
  /\ (exists new, windows w !! new = None /\ is_Some (windows w' !! new))
  /\ forall e, In e (listens attrs) -> In e (trace w').
Proof.
  intros Hex Hne E.
  rewrite scan_matching in E; [| exact filtered_body_stable | exact Hex].
  destruct (matching (screens w) desk (Attrs.x attrs) (Attrs.y attrs)) as [|s l];
    [congruence|].
  split.
  { destruct (filtered_body_Ok (s :: l) w) as [w2 E2]. congruence. }
  cbn [for_each] in E. unfold bind in E. unfold body at 1 in E.
  rewrite (load_body_filtered _ _ _ _ _ Hmatch) in E.
  assert (Hc : preserves
                 (fun w1 => is_Some (windows w1 !! fresh (dom (windows w)))
                            /\ forall e, In e (listens attrs) -> In e (trace w1))
                 (for_each l body)).
  { apply preserves_for_each. intros b. apply filtered_body_keeps. }
  destruct (Hc _ _ _ E) as [E1 E2].
  - cbn. split; [rewrite lookup_insert_eq; eauto|].
    intros e He. apply in_or_app. now right.
  - split; [|exact E2].
    exists (fresh (dom (windows w))). split; [apply fresh_window | exact E1].
Qed.

End Admission.

(** C2, as amended.  [load_window] creates no Window object and makes no
    probe registration, indeed changes nothing, when the snapshot marks a
    popup or its desktop is not tracked.  When the window matches a
    configured filter, no screen is changed (it joins no membership and no
    screen is marked) and the only calls issued are [window_listen]
    registrations; but for a tracked desktop, not a popup, with a screen
    containing the position, the Window object is constructed and
    registered with the probe before the filter is consulted. *)
Theorem load_window_admission (PROBE : Probe) (filters : list string) (w : World)
    (window_id : Z) :
  let attrs := get_window_by_id PROBE window_id in
  (Attrs.popup attrs = true \/ desktops w !! Attrs.desktop attrs = None ->
     load_window PROBE filters window_id w = (w, Ok tt))
  /\ (matches_filter filters attrs ->
      forall w' r, load_window PROBE filters window_id w = (w', r) ->
        (screens w' = screens w
         /\ exists events, trace w' = trace w ++ events /\ Forall is_listen events)
        /\ forall desk,
             Attrs.popup attrs = false ->
             desktops w !! Attrs.desktop attrs = Some desk ->
             screens_exist (screens w) desk ->
             matching (screens w) desk (Attrs.x attrs) (Attrs.y attrs) <> [] ->
             r = Ok tt
             /\ (exists new, windows w !! new = None /\ is_Some (windows w' !! new))
             /\ forall e, In e (listens attrs) -> In e (trace w')).
Proof.
  intros attrs. split.
  - intros Hrej. unfold load_window. fold attrs.
    unfold bind at 1. unfold get_desktops at 1.
    destruct Hrej as [Hp | Hd].
    + now rewrite Hp.
    + rewrite Hd. rewrite bool_decide_eq_false_2 by (intros [? ?]; discriminate).
      now rewrite andb_false_r.
  - intros Hm w' r E. unfold load_window in E. fold attrs in E.
    unfold bind at 1 in E. unfold get_desktops at 1 in E.
    destruct (Attrs.popup attrs) eqn:Hp; cbn [negb andb] in E.
    { inversion E; subst. split.
      - split; [reflexivity|]. exists []. split; [now rewrite app_nil_r | constructor].
      - intros desk Hp'. discriminate. }
    destruct (desktops w !! Attrs.desktop attrs) as [desk|] eqn:Hd.
    + rewrite bool_decide_eq_true_2 in E by eauto.
      unfold bind at 1 in E. cbn [of_option ret] in E.
      split.
      * eapply load_window_filtered_scan; [exact Hm | exact E].
      * intros desk' _ Hd' Hex Hne. inversion Hd'; subst desk'.
        eapply load_window_filtered_object; eauto.
    + rewrite bool_decide_eq_false_2 in E by (intros [? ?]; discriminate).
      inversion E; subst. split.
      * split; [reflexivity|]. exists []. split; [now rewrite app_nil_r | constructor].
      * intros desk _ Hd'. discriminate.
Qed.

(** ** Loops of resizes *)

Lemma resized_screen scr win x y width height :
  Win.screen (resized scr win x y width height) = Win.screen win.
Proof. unfold resized. now destruct (_ || _). Qed.

Lemma resize_run w self win scr x y width height :
  windows w !! self = Some win ->
  screens w !! Win.screen win = Some scr ->
  resize self x y width height w =
    (mkWorld (<[self := resized scr win x y width height]> (windows w))
       (screens w) (tilers w) (desktops w)
       (trace w ++ resize_events scr win (x, y, width, height)), Ok tt).
Proof.
  intros Hwin Hscr. unfold resized, resize_events.
  destruct (_ || _) eqn:E.
  - rewrite (resize_rejected _ _ _ _ _ _ _ _ Hwin Hscr E).
    rewrite insert_id by exact Hwin. rewrite app_nil_r. now destruct w.
  - apply (resize_accepted _ _ _ _ _ _ _ _ Hwin Hscr E).
Qed.

Lemma resize_by_run {B} (key : B -> wref) g (b : B) w win scr :
  windows w !! key b = Some win ->
  screens w !! Win.screen win = Some scr ->
  resize_by key g b w =
    (mkWorld (<[key b := resized_to scr win (g b win)]> (windows w))
       (screens w) (tilers w) (desktops w)
       (trace w ++ resize_events scr win (g b win)), Ok tt).
Proof.
  intros Hwin Hscr. unfold resize_by.
  rewrite (bind_Ok _ _ _ _ _ (get_win_Some _ _ _ Hwin)).
  destruct (g b win) as [[[x y] width] height].
  apply (resize_run _ _ _ _ _ _ _ _ Hwin Hscr).
Qed.

Lemma resized_to_screen scr win r : Win.screen (resized_to scr win r) = Win.screen win.
Proof. destruct r as [[[x y] width] height]. apply resized_screen. Qed.

(** A loop of resizes over distinct windows of the store ends normally;
    each window of the list is resized once, as computed from its initial
    attributes; nothing else changes but the trace. *)
Lemma for_each_resize_by {B} (key : B -> wref) g (l : list B) w :
  List.NoDup (map key l) ->
  owned w (map key l) ->
  exists w',
    for_each l (resize_by key g) w = (w', Ok tt)
    /\ screens w' = screens w /\ tilers w' = tilers w /\ desktops w' = desktops w
    /\ (forall b win scr, In b l -> windows w !! key b = Some win ->
          screens w !! Win.screen win = Some scr ->
          windows w' !! key b = Some (resized_to scr win (g b win)))
    /\ (forall k, ~ In k (map key l) -> windows w' !! k = windows w !! k)
    /\ (forall k win', windows w' !! k = Some win' ->
          exists win, windows w !! k = Some win /\ Win.screen win' = Win.screen win).
Proof.
  revert w. induction l as [|b l IH]; intros w Hnd Hown.
  - exists w. cbn. repeat split; try reflexivity; [intros ? ? ? []|]. eauto.
  - cbn [map] in Hnd, Hown. apply NoDup_cons_iff in Hnd as [Hnotin Hnd].
    destruct (Hown (key b) (or_introl eq_refl)) as [win [scr [Hwin Hscr]]].
    cbn [for_each]. unfold bind.
    rewrite (resize_by_run key g b w win scr Hwin Hscr).
    set (w1 := mkWorld _ _ _ _ _).
    assert (Hother : forall k, k <> key b -> windows w1 !! k = windows w !! k).
    { intros k Hk. cbn. now rewrite lookup_insert_ne by congruence. }
    destruct (IH w1 Hnd) as [w' [E [HS [HT [HD [Hin [Hout Hscreen]]]]]]].
    { intros k Hk. destruct (Hown k (or_intror Hk)) as [win' [scr' [Hw' Hs']]].
      exists win', scr'. split; [|exact Hs'].
      rewrite Hother; [exact Hw' | intros ->; contradiction]. }
    exists w'. split; [exact E|]. split; [exact HS|]. split; [exact HT|].
    split; [exact HD|]. split; [|split].
    + intros b' win' scr' [<-|Hb'] Hw' Hs'.
      * rewrite Hout by exact Hnotin. cbn. rewrite lookup_insert_eq.
        rewrite Hwin in Hw'. inversion Hw'; subst win'.
        rewrite Hscr in Hs'. now inversion Hs'; subst scr'.
      * apply Hin; [exact Hb' | | exact Hs'].
        rewrite Hother; [exact Hw'|].
        intros Heq. apply Hnotin. rewrite <- Heq. now apply in_map.
    + intros k Hk. cbn [map] in Hk.
      rewrite Hout by (intros ?; apply Hk; now right).
      apply Hother. intros ->. apply Hk. now left.
    + intros k win' Hk. destruct (Hscreen k win' Hk) as [win1 [Hw1 Hs1]].
      destruct (decide (k = key b)) as [->|Hkne].
      * cbn in Hw1. rewrite lookup_insert_eq in Hw1. inversion Hw1; subst win1.
        exists win. split; [exact Hwin|]. now rewrite Hs1, resized_to_screen.
      * rewrite Hother in Hw1 by exact Hkne. eauto.
Qed.

(** ** Vertical._tile *)

Lemma for_each_ext {B} (f g : B -> M unit) (l : list B) :
  (forall b w, f b w = g b w) -> forall w, for_each l f w = for_each l g w.
Proof.
  intros H. induction l as [|b l IH]; intros w; [reflexivity|].
  cbn [for_each]. unfold bind. rewrite H.
  destruct (g b w) as [w1 [[]|e]]; [apply IH | reflexivity].
Qed.

Lemma column_cons win wins X Y W H :
  column (win :: wins) X Y W H = (win, (X, Y, W, H)) :: column wins X (Y + H) W H.
Proof.
  unfold column. rewrite imap_cons. f_equal.
  - cbn [Z.of_nat]. now rewrite Z.mul_0_l, Z.add_0_r.
  - apply imap_ext. intros i r _. unfold compose.
    rewrite Nat2Z.inj_succ. do 4 f_equal. ring.
Qed.

Lemma column_keys wins X Y W H : map fst (column wins X Y W H) = wins.
Proof.
  revert Y. induction wins as [|win wins IH]; intros Y; [reflexivity|].
  rewrite column_cons. cbn. now rewrite IH.
Qed.

Lemma tile_loop_column wins X Y W H margin w :
  Vertical.tile_loop wins X Y W H margin w
  = for_each (column wins X Y W H) (request margin) w.
Proof.
  revert Y w. induction wins as [|win wins IH]; intros Y w; [reflexivity|].
  rewrite column_cons. cbn [Vertical.tile_loop for_each request]. unfold bind.
  destruct (help_resize win X Y W H margin w) as [w1 [[]|e]]; [apply IH | reflexivity].
Qed.

Lemma request_resize_by margin p w :
  request margin p w = resize_by fst (fun p _ => shrink margin (snd p)) p w.
Proof.
  destruct p as [win [[[x y] width] height]].
  unfold request, help_resize, resize_by, shrink. cbn [fst snd].
  unfold resize, bind, get_win.
  destruct (windows w !! win) eqn:E; cbn; [rewrite E|]; reflexivity.
Qed.

Lemma empty_false {A} (l : list A) : l <> [] -> empty l = false.
Proof. now destruct l. Qed.

(** C1, as amended.  On a work area [(x, y, width, height)] with at least
    one master and at least one slave, [_tile] asks [help_resize], with
    the configured margin, for each master in turn the cell of width
    [int(width * width_factor)] and height [height / master_count] of a
    column stacked from the work area's top-left, then for each slave the
    cell of the remaining width, at [x + master_width], and of height
    [height / slave_count] of a second column; when the windows are
    distinct objects of the store, the call ends normally and every
    window is what [resize] to its cell, shrunk by the margin, makes of
    it. *)
Theorem Vertical_tile_layout (w : World) (self : tref) (t : Tiler.t) (scr : Screen.t)
    (x y width height mw : Z) :
  tilers w !! self = Some t ->
  screens w !! Tiler.screen t = Some scr ->
  Screen.workarea scr = (x, y, width, height) ->
  Tiler.masters t <> [] ->
  Tiler.slaves t <> [] ->
  PyFloat.to_int (PyFloat.mul (PyFloat.of_int width) (Tiler.width_factor t)) = Some mw ->
  let plan := vertical_plan (Tiler.masters t) (Tiler.slaves t) x y width height mw in
  Vertical._tile self w = for_each plan (request (Tiler.margin t)) w
  /\ (List.NoDup (Tiler.masters t ++ Tiler.slaves t) ->
      owned w (Tiler.masters t ++ Tiler.slaves t) ->
      exists w',
        Vertical._tile self w = (w', Ok tt)
        /\ forall r cell win scr',
             In (r, cell) plan ->
             windows w !! r = Some win ->
             screens w !! Win.screen win = Some scr' ->
             windows w' !! r = Some (resized_to scr' win (shrink (Tiler.margin t) cell))).
Proof.
  intros Ht Hscr Hwa Hm Hs Hmw plan.
  assert (E : Vertical._tile self w = for_each plan (request (Tiler.margin t)) w).
  { unfold Vertical._tile.
    rewrite (bind_Ok _ _ _ _ _ (get_tiler_Some _ _ _ Ht)).
    unfold get_workarea at 1.
    rewrite (bind_Ok _ _ _ _ _
               (bind_Ok _ _ _ _ _ (get_screen_Some _ _ _ Hscr))).
    unfold ret at 1. rewrite Hwa.
    rewrite (empty_false _ Hm), (empty_false _ Hs).
    unfold bind at 1. unfold int. rewrite Hmw. unfold ret at 1.
    unfold plan, vertical_plan. rewrite for_each_app. unfold bind.
    rewrite tile_loop_column.
    destruct (for_each _ _ w) as [w1 [[]|e]]; [|reflexivity].
    apply tile_loop_column. }
  split; [exact E|].
  intros Hnd Hown.
  assert (Hkeys : map fst plan = Tiler.masters t ++ Tiler.slaves t).
  { unfold plan, vertical_plan. now rewrite map_app, !column_keys. }
  destruct (for_each_resize_by fst (fun p _ => shrink (Tiler.margin t) (snd p)) plan w)
    as [w' [E' [_ [_ [_ [Hin _]]]]]].
  { now rewrite Hkeys. }
  { now rewrite Hkeys. }
  exists w'. split.
  - rewrite E, <- E'. apply for_each_ext. intros b w0. apply request_resize_by.
  - intros r cell win scr' Hp Hwin Hscr'.
    apply (Hin (r, cell) win scr' Hp Hwin Hscr').
Qed.

(** The spec's example: on the work area (0,0,1280,800) with width factor
    0.6 and margin 0, the two masters get (0,0,768,400) and (0,400,768,400)
    and the slave gets (768,0,512,800). *)
Lemma Vertical_tile_layout_witness :
  exists w',
    Vertical._tile 0%nat Ex1.w = (w', Ok tt)
    /\ Win.geometry <$> windows w' !! 0%nat = Some (0, 0, 768, 400)
    /\ Win.geometry <$> windows w' !! 1%nat = Some (0, 400, 768, 400)
    /\ Win.geometry <$> windows w' !! 2%nat = Some (768, 0, 512, 800).
Proof.
  destruct (Vertical_tile_layout Ex1.w 0%nat Ex1.tiler (Ex.screen [0; 1; 2]%nat)
              0 0 1280 800 768 eq_refl eq_refl eq_refl
              ltac:(discriminate) ltac:(discriminate) eq_refl) as [_ H].
  destruct H as [w' [E H]].
  - vm_compute. repeat constructor; intros Hin; repeat (destruct Hin as [Hin|Hin]; try discriminate); contradiction.
  - intros k Hk. cbn in Hk.
    destruct Hk as [<-|[<-|[<-|[]]]]; eexists _, _; split; reflexivity.
  - exists w'. split; [exact E|].
    split; [|split].
    + rewrite (H 0%nat (0, 0, 768, 400) (Ex.win 1 0 0 300 200) (Ex.screen [0; 1; 2]%nat));
        [reflexivity | now left | reflexivity | reflexivity].
    + rewrite (H 1%nat (0, 400, 768, 400) (Ex.win 2 0 0 300 200) (Ex.screen [0; 1; 2]%nat));
        [reflexivity | right; now left | reflexivity | reflexivity].
    + rewrite (H 2%nat (768, 0, 512, 800) (Ex.win 3 0 0 300 200) (Ex.screen [0; 1; 2]%nat));
        [reflexivity | right; right; now left | reflexivity | reflexivity].
Defined.

(** With no master and one slave the slave is not placed at
    [x + master_width] with the remaining width, as the sentence would
    have it for [int(1280 * 0.6) = 768], namely (768,0,512,800): it gets
    the whole work area. *)
Lemma Vertical_tile_slave_only :
  PyFloat.to_int (PyFloat.mul (PyFloat.of_int 1280) (PyFloat.decimal 6 1)) = Some 768
  /\ exists w',
       Vertical._tile 0%nat Ex1.w_slave_only = (w', Ok tt)
       /\ Win.geometry <$> windows w' !! 0%nat = Some (0, 0, 1280, 800)
       /\ trace w' = [PROBE_window_resize (Some 1) 0 0 1280 800]
       /\ Win.geometry <$> windows w' !! 0%nat <> Some (0 + 768, 0, 1280 - 768, 800 / 1).
Proof.
  split; [reflexivity|].
  eexists. split; [vm_compute; reflexivity|].
  split; [reflexivity|]. split; [reflexivity|]. discriminate.
Qed.

(** ** The proportion factor is not clamped *)

Lemma get_workarea_Some w s scr :
  screens w !! s = Some scr -> get_workarea s w = (w, Ok (Screen.workarea scr)).
Proof.
  intros H. unfold get_workarea.
  now rewrite (bind_Ok _ _ _ _ _ (get_screen_Some _ _ _ H)).
Qed.

Lemma int_Some f n w : PyFloat.to_int f = Some n -> int f w = (w, Ok n).
Proof. intros H. unfold int. now rewrite H. Qed.

(** Once the pixel delta is computed, the factor is stored before any
    window is resized, and nothing that follows touches it. *)
Ltac factor_stored Ht Hscr Hwa Hm Hs Hp E :=
  rewrite (bind_Ok _ _ _ _ _ (get_tiler_Some _ _ _ Ht)) in E;
  rewrite (bind_Ok _ _ _ _ _ (get_workarea_Some _ _ _ Hscr)) in E;
  rewrite Hwa in E;
  rewrite (empty_false _ Hm), (empty_false _ Hs) in E; cbn [orb] in E;
  rewrite (bind_Ok _ _ _ _ _ (int_Some _ _ _ Hp)) in E;
  unfold bind at 1 in E; unfold put_tiler at 1 in E;
  match type of E with
  | ?c ?w1 = _ =>
      let Hc := fresh "Hc" in
      assert (Hc : preserves (fun w0 => tilers w0 = tilers w1) c)
        by (repeat first [apply resize_keeps_tilers | frame_step]);
      let E' := fresh "E'" in
      pose proof (Hc _ _ _ E eq_refl) as E'; cbv beta in E'; rewrite E'
  end;
  cbn; apply lookup_insert_eq.

(** C9. With both masters and slaves non-empty, once the pixel delta is
    computed, [_master_increase(factor)] stores the old proportion factor
    plus [factor] and [_master_decrease(factor)] the old one minus
    [factor], whatever happens to the resizes; nothing clamps it.  From
    0.1, two decreases by 0.05 make it zero and a third makes it negative,
    and in that third call every resize is rejected by the bounds check:
    no probe call is issued and no stored geometry changes. *)
Theorem factor_never_clamped :
  (forall (w w' : World) (self : tref) (t : Tiler.t) (scr : Screen.t)
          (x y width height p : Z) (factor : float) (r : res unit),
     tilers w !! self = Some t ->
     screens w !! Tiler.screen t = Some scr ->
     Screen.workarea scr = (x, y, width, height) ->
     Tiler.masters t <> [] ->
     Tiler.slaves t <> [] ->
     (PyFloat.to_int (delta_increase (Tiler.width_factor t) factor width) = Some p ->
      Vertical._master_increase self factor w = (w', r) ->
      tilers w' !! self
      = Some (Tiler.set_width_factor t (PyFloat.add (Tiler.width_factor t) factor)))
     /\ (PyFloat.to_int (delta_decrease (Tiler.width_factor t) factor width) = Some p ->
         Vertical._master_decrease self factor w = (w', r) ->
         tilers w' !! self
         = Some (Tiler.set_width_factor t (PyFloat.sub (Tiler.width_factor t) factor)))
     /\ (PyFloat.to_int (delta_increase (Tiler.height_factor t) factor height) = Some p ->
         Horizontal._master_increase self factor w = (w', r) ->
         tilers w' !! self
         = Some (Tiler.set_height_factor t (PyFloat.add (Tiler.height_factor t) factor)))
     /\ (PyFloat.to_int (delta_decrease (Tiler.height_factor t) factor height) = Some p ->
         Horizontal._master_decrease self factor w = (w', r) ->
         tilers w' !! self
         = Some (Tiler.set_height_factor t (PyFloat.sub (Tiler.height_factor t) factor))))
  /\ (exists w1 w2 w3 f3,
        Vertical._master_decrease 0%nat (PyFloat.decimal 5 2) Ex9.w = (w1, Ok tt)
        /\ Vertical._master_decrease 0%nat (PyFloat.decimal 5 2) w1 = (w2, Ok tt)
        /\ Vertical._master_decrease 0%nat (PyFloat.decimal 5 2) w2 = (w3, Ok tt)
        /\ Tiler.width_factor <$> tilers w2 !! 0%nat = Some (S754_zero false)
        /\ Tiler.width_factor <$> tilers w3 !! 0%nat = Some f3
        /\ PyFloat.ltb f3 (PyFloat.of_int 0) = true
        /\ windows w3 = windows w2
        /\ trace w3 = trace w2).
Proof.
  split.
  - intros w w' self t scr x y width height p factor r Ht Hscr Hwa Hm Hs.
    split; [|split; [|split]]; intros Hp E.
    + unfold Vertical._master_increase in E. factor_stored Ht Hscr Hwa Hm Hs Hp E.
    + unfold Vertical._master_decrease in E. factor_stored Ht Hscr Hwa Hm Hs Hp E.
    + unfold Horizontal._master_increase in E. factor_stored Ht Hscr Hwa Hm Hs Hp E.
    + unfold Horizontal._master_decrease in E. factor_stored Ht Hscr Hwa Hm Hs Hp E.
  - eexists _, _, _, _.
    split; [vm_compute; reflexivity|].
    split; [vm_compute; reflexivity|].
    split; [vm_compute; reflexivity|].
    split; [vm_compute; reflexivity|].
    split; [vm_compute; reflexivity|].
    split; [vm_compute; reflexivity|].
    split; vm_compute; reflexivity.
Qed.

(** One decrease from 0.1 by 0.05 on the 1280 pixels wide work area: the
    delta is 64 pixels and the factor becomes 0.1 - 0.05. *)
Lemma factor_never_clamped_witness :
  tilers (fst (Vertical._master_decrease 0%nat (PyFloat.decimal 5 2) Ex9.w)) !! 0%nat
  = Some (Tiler.set_width_factor Ex9.tiler
            (PyFloat.sub (PyFloat.decimal 1 1) (PyFloat.decimal 5 2))).
Proof.
  apply (proj1 (proj2 (proj1 factor_never_clamped Ex9.w
                         (fst (Vertical._master_decrease 0%nat (PyFloat.decimal 5 2) Ex9.w))
                         0%nat Ex9.tiler
                         (Ex.screen [0; 1]%nat) 0 0 1280 800 64 (PyFloat.decimal 5 2)
                         (snd (Vertical._master_decrease 0%nat (PyFloat.decimal 5 2) Ex9.w))
                         eq_refl eq_refl eq_refl ltac:(discriminate) ltac:(discriminate)))).
  - reflexivity.
  - now destruct (Vertical._master_decrease 0%nat (PyFloat.decimal 5 2) Ex9.w).
Defined.

(** ** Increase then decrease *)

Lemma for_each_map {A B} (h : A -> B) (f : B -> M unit) (l : list A) w :
  for_each (map h l) f w = for_each l (fun a => f (h a)) w.
Proof.
  revert w. induction l as [|a l IH]; intros w; [reflexivity|].
  cbn [map for_each]. unfold bind.
  destruct (f (h a) w) as [w1 [[]|e]]; [apply IH | reflexivity].
Qed.

Lemma bind_cong {A B} (c c' : M A) (k k' : A -> M B) w :
  c w = c' w -> (forall a w1, k a w1 = k' a w1) -> bind c k w = bind c' k' w.
Proof.
  intros H1 H2. unfold bind. rewrite H1.
  destruct (c' w) as [w1 [a|e]]; [apply H2 | reflexivity].
Qed.

(** The slave loop followed by the master loop is one loop over the
    windows tagged by role. *)
Lemma loops_roles (gs gm : Win.t -> rect) slaves masters w :
  bind (for_each slaves (resize_by (fun r : wref => r) (fun _ => gs)))
       (fun _ => for_each masters (resize_by (fun r : wref => r) (fun _ => gm))) w
  = for_each (roles slaves masters)
      (resize_by snd (fun b : bool * wref => if fst b then gs else gm)) w.
Proof.
  unfold roles. rewrite for_each_app. apply bind_cong.
  - rewrite for_each_map. apply for_each_ext. reflexivity.
  - intros _ w1. rewrite for_each_map. apply for_each_ext. reflexivity.
Qed.

Lemma roles_keys slaves masters : map snd (roles slaves masters) = slaves ++ masters.
Proof.
  unfold roles. rewrite map_app, !map_map. cbn. now rewrite !map_id.
Qed.

Lemma accepts_resized scr win r :
  accepts scr r = true ->
  resized_to scr win r
  = let '(x, y, width, height) := r in Win.set_geometry win x y width height.
Proof.
  destruct r as [[[x y] width] height]. unfold accepts, resized_to, resized.
  now destruct (_ || _).
Qed.

(** One proportion change: both loops end normally, leave screens and
    tilers alone, and resize each slave by [gs] and each master by [gm]. *)
Lemma loops_run (gs gm : Win.t -> rect) slaves masters w :
  List.NoDup (slaves ++ masters) ->
  owned w (slaves ++ masters) ->
  exists w',
    bind (for_each slaves (resize_by (fun r : wref => r) (fun _ => gs)))
         (fun _ => for_each masters (resize_by (fun r : wref => r) (fun _ => gm))) w
    = (w', Ok tt)
    /\ screens w' = screens w /\ tilers w' = tilers w
    /\ owned w' (slaves ++ masters)
    /\ forall k win scr,
         windows w !! k = Some win -> screens w !! Win.screen win = Some scr ->
         (In k slaves -> windows w' !! k = Some (resized_to scr win (gs win)))
         /\ (In k masters -> windows w' !! k = Some (resized_to scr win (gm win))).
Proof.
  intros Hnd Hown. rewrite loops_roles.
  destruct (for_each_resize_by snd (fun b : bool * wref => if fst b then gs else gm)
              (roles slaves masters) w)
    as [w' [E [HS [HT [_ [Hin [_ _]]]]]]].
  { now rewrite roles_keys. }
  { now rewrite roles_keys. }
  exists w'. split; [exact E|]. split; [exact HS|]. split; [exact HT|].
  assert (Hall : forall k win scr,
             windows w !! k = Some win -> screens w !! Win.screen win = Some scr ->
             (In k slaves -> windows w' !! k = Some (resized_to scr win (gs win)))
             /\ (In k masters -> windows w' !! k = Some (resized_to scr win (gm win)))).
  { intros k win scr Hk Hs. split; intros Hink.
    - apply (Hin (true, k) win scr); [|exact Hk|exact Hs].
      unfold roles. apply in_or_app. left. now apply in_map.
    - apply (Hin (false, k) win scr); [|exact Hk|exact Hs].
      unfold roles. apply in_or_app. right. now apply in_map. }
  split; [|exact Hall].
  intros k Hk. destruct (Hown k Hk) as [win [scr [Hwin Hscr]]].
  destruct (Hall k win scr Hwin Hscr) as [H1 H2].
  apply in_app_or in Hk as [Hk|Hk].
  - eexists _, scr. split; [exact (H1 Hk)|].
    now rewrite resized_to_screen, HS.
  - eexists _, scr. split; [exact (H2 Hk)|].
    now rewrite resized_to_screen, HS.
Qed.

Lemma Vertical_increase_run w self t scr x y width height p factor :
  tilers w !! self = Some t ->
  screens w !! Tiler.screen t = Some scr ->
  Screen.workarea scr = (x, y, width, height) ->
  Tiler.masters t <> [] ->
  Tiler.slaves t <> [] ->
  PyFloat.to_int (delta_increase (Tiler.width_factor t) factor width) = Some p ->
  Vertical._master_increase self factor w
  = bind (for_each (Tiler.slaves t) (resize_by (fun r : wref => r) (fun _ => slave_narrower p)))
      (fun _ => for_each (Tiler.masters t)
                  (resize_by (fun r : wref => r) (fun _ => master_wider p)))
      (set_tilers w
         (<[self := Tiler.set_width_factor t (PyFloat.add (Tiler.width_factor t) factor)]>
            (tilers w))).
Proof.
  intros Ht Hscr Hwa Hm Hs Hp. unfold Vertical._master_increase.
  rewrite (bind_Ok _ _ _ _ _ (get_tiler_Some _ _ _ Ht)).
  rewrite (bind_Ok _ _ _ _ _ (get_workarea_Some _ _ _ Hscr)).
  rewrite Hwa, (empty_false _ Hm), (empty_false _ Hs). cbn [orb].
  rewrite (bind_Ok _ _ _ _ _ (int_Some _ _ _ Hp)).
  unfold bind at 1. unfold put_tiler at 1.
  reflexivity.
Qed.

Lemma Vertical_decrease_run w self t scr x y width height p factor :
  tilers w !! self = Some t ->
  screens w !! Tiler.screen t = Some scr ->
  Screen.workarea scr = (x, y, width, height) ->
  Tiler.masters t <> [] ->
  Tiler.slaves t <> [] ->
  PyFloat.to_int (delta_decrease (Tiler.width_factor t) factor width) = Some p ->
  Vertical._master_decrease self factor w
  = bind (for_each (Tiler.slaves t) (resize_by (fun r : wref => r) (fun _ => slave_wider p)))
      (fun _ => for_each (Tiler.masters t)
                  (resize_by (fun r : wref => r) (fun _ => master_narrower p)))
      (set_tilers w
         (<[self := Tiler.set_width_factor t (PyFloat.sub (Tiler.width_factor t) factor)]>
            (tilers w))).
Proof.
  intros Ht Hscr Hwa Hm Hs Hp. unfold Vertical._master_decrease.
  rewrite (bind_Ok _ _ _ _ _ (get_tiler_Some _ _ _ Ht)).
  rewrite (bind_Ok _ _ _ _ _ (get_workarea_Some _ _ _ Hscr)).
  rewrite Hwa, (empty_false _ Hm), (empty_false _ Hs). cbn [orb].
  rewrite (bind_Ok _ _ _ _ _ (int_Some _ _ _ Hp)).
  unfold bind at 1. unfold put_tiler at 1.
  reflexivity.
Qed.

(** C5, as amended.  For the Vertical layout with both roles non-empty
    and distinct windows, [_master_increase(factor)] followed by
    [_master_decrease(factor)] leaves the width factor at
    [(width_factor + factor) - factor] as computed on floats, and a window
    whose two resizes both pass the bounds check keeps its [y] and
    [height] and has its [x] and [width] off by exactly [p1 - p2], the
    difference of the two truncated pixel deltas. *)
Theorem increase_then_decrease (w : World) (self : tref) (t : Tiler.t) (scr : Screen.t)
    (x y width height p1 p2 : Z) (factor : float) :
  tilers w !! self = Some t ->
  screens w !! Tiler.screen t = Some scr ->
  Screen.workarea scr = (x, y, width, height) ->
  Tiler.masters t <> [] ->
  Tiler.slaves t <> [] ->
  List.NoDup (Tiler.slaves t ++ Tiler.masters t) ->
  owned w (Tiler.slaves t ++ Tiler.masters t) ->
  PyFloat.to_int (delta_increase (Tiler.width_factor t) factor width) = Some p1 ->
  PyFloat.to_int
    (delta_decrease (PyFloat.add (Tiler.width_factor t) factor) factor width) = Some p2 ->
  exists w1 w2,
    Vertical._master_increase self factor w = (w1, Ok tt)
    /\ Vertical._master_decrease self factor w1 = (w2, Ok tt)
    /\ tilers w2 !! self
       = Some (Tiler.set_width_factor t
                 (PyFloat.sub (PyFloat.add (Tiler.width_factor t) factor) factor))
    /\ forall k win scr',
         windows w !! k = Some win ->
         screens w !! Win.screen win = Some scr' ->
         (In k (Tiler.slaves t) ->
          accepts scr' (slave_narrower p1 win) = true ->
          accepts scr' (Win.x win + p1 - p2, Win.y win,
                        Win.width win - p1 + p2, Win.height win) = true ->
          exists win2, windows w2 !! k = Some win2
            /\ Win.geometry win2
               = (Win.x win + p1 - p2, Win.y win, Win.width win - p1 + p2, Win.height win))
         /\ (In k (Tiler.masters t) ->
             accepts scr' (master_wider p1 win) = true ->
             accepts scr' (Win.x win, Win.y win,
                           Win.width win + p1 - p2, Win.height win) = true ->
             exists win2, windows w2 !! k = Some win2
               /\ Win.geometry win2
                  = (Win.x win, Win.y win, Win.width win + p1 - p2, Win.height win)).
Proof.
  intros Ht Hscr Hwa Hm Hs Hnd Hown Hp1 Hp2.
  rewrite (Vertical_increase_run _ _ _ _ _ _ _ _ _ _ Ht Hscr Hwa Hm Hs Hp1).
  set (t1 := Tiler.set_width_factor t (PyFloat.add (Tiler.width_factor t) factor)).
  destruct (loops_run (slave_narrower p1) (master_wider p1)
              (Tiler.slaves t) (Tiler.masters t)
              (set_tilers w (<[self := t1]> (tilers w))) Hnd Hown)
    as [w1 [E1 [HS1 [HT1 [Hown1 Hall1]]]]].
  cbn in HS1, HT1.
  assert (Ht1 : tilers w1 !! self = Some t1) by (rewrite HT1; apply lookup_insert_eq).
  assert (Hscr1 : screens w1 !! Tiler.screen t1 = Some scr) by (rewrite HS1; exact Hscr).
  exists w1. rewrite E1.
  rewrite (Vertical_decrease_run w1 self t1 scr x y width height p2 factor
             Ht1 Hscr1 Hwa Hm Hs Hp2).
  set (t2 := Tiler.set_width_factor t1 (PyFloat.sub (Tiler.width_factor t1) factor)).
  destruct (loops_run (slave_wider p2) (master_narrower p2)
              (Tiler.slaves t) (Tiler.masters t)
              (set_tilers w1 (<[self := t2]> (tilers w1))) Hnd Hown1)
    as [w2 [E2 [HS2 [HT2 [_ Hall2]]]]].
  cbn in HS2, HT2.
  exists w2. split; [reflexivity|]. split; [exact E2|].
  split; [rewrite HT2; apply lookup_insert_eq|].
  intros k win scr' Hwin Hscr'.
  destruct (Hall1 k win scr' Hwin Hscr') as [Hs1 Hm1].
  split.
  - intros Hk Ha1 Ha2. specialize (Hs1 Hk).
    rewrite (accepts_resized _ _ _ Ha1) in Hs1.
    destruct (Hall2 k _ scr' Hs1) as [Hs2 _]; [cbn; rewrite HS1; exact Hscr'|].
    specialize (Hs2 Hk).
    rewrite (accepts_resized _ _ _ Ha2) in Hs2.
    eexists. split; [exact Hs2 | reflexivity].
  - intros Hk Ha1 Ha2. specialize (Hm1 Hk).
    rewrite (accepts_resized _ _ _ Ha1) in Hm1.
    destruct (Hall2 k _ scr' Hm1) as [_ Hm2]; [cbn; rewrite HS1; exact Hscr'|].
    specialize (Hm2 Hk).
    rewrite (accepts_resized _ _ _ Ha2) in Hm2.
    eexists. split; [exact Hm2 | reflexivity].
Qed.

(** From the tiled state with width factor 0.5 on 1280 pixels both deltas
    are 64 pixels: the factor and both geometries come back. *)
Lemma increase_then_decrease_witness :
  exists w1 w2,
    Vertical._master_increase 0%nat (PyFloat.decimal 5 2) Ex5.w = (w1, Ok tt)
    /\ Vertical._master_decrease 0%nat (PyFloat.decimal 5 2) w1 = (w2, Ok tt)
    /\ Tiler.width_factor <$> tilers w2 !! 0%nat = Some (PyFloat.decimal 5 1)
    /\ Win.geometry <$> windows w2 !! 0%nat = Some (0, 0, 640, 800)
    /\ Win.geometry <$> windows w2 !! 1%nat = Some (640, 0, 640, 800).
Proof.
  destruct (increase_then_decrease Ex5.w 0%nat Ex5.tiler (Ex.screen [0; 1]%nat)
              0 0 1280 800 64 64 (PyFloat.decimal 5 2)
              eq_refl eq_refl eq_refl ltac:(discriminate) ltac:(discriminate))
    as [w1 [w2 [E1 [E2 [Hf Hg]]]]].
  - vm_compute. repeat constructor; intros Hin;
      repeat (destruct Hin as [Hin|Hin]; try discriminate); contradiction.
  - intros k Hk. cbn in Hk.
    destruct Hk as [<-|[<-|[]]]; eexists _, _; split; reflexivity.
  - reflexivity.
  - reflexivity.
  - exists w1, w2. split; [exact E1|]. split; [exact E2|].
    split; [rewrite Hf; reflexivity|].
    destruct (Hg 0%nat (Ex.win 1 0 0 640 800) (Ex.screen [0; 1]%nat) eq_refl eq_refl)
      as [_ Hm].
    destruct (Hg 1%nat (Ex.win 2 640 0 640 800) (Ex.screen [0; 1]%nat) eq_refl eq_refl)
      as [Hs _].
    destruct Hm as [m2 [Hm2 Gm]]; [now left | reflexivity | reflexivity |].
    destruct Hs as [s2 [Hs2 Gs]]; [now left | reflexivity | reflexivity |].
    rewrite Hm2, Hs2. cbn. rewrite Gm, Gs. split; reflexivity.
Defined.

(** From the state tiled with width factor 0.965 on 1280 pixels (master
    1235 pixels wide, slave 45), the increase by 0.05 is rejected for both
    windows and the decrease accepted: the factor comes back as
    0.9649999999999999 and both windows end 64 pixels off. *)
Lemma increase_then_decrease_not_restored :
  exists w0 w1 w2,
    Vertical._tile 0%nat Ex5.untiled = (w0, Ok tt)
    /\ Vertical._master_increase 0%nat (PyFloat.decimal 5 2) w0 = (w1, Ok tt)
    /\ Vertical._master_decrease 0%nat (PyFloat.decimal 5 2) w1 = (w2, Ok tt)
    /\ Tiler.width_factor <$> tilers w0 !! 0%nat = Some (PyFloat.decimal 965 3)
    /\ Tiler.width_factor <$> tilers w2 !! 0%nat <> Some (PyFloat.decimal 965 3)
    /\ Win.geometry <$> windows w0 !! 0%nat = Some (0, 0, 1235, 800)
    /\ Win.geometry <$> windows w2 !! 0%nat = Some (0, 0, 1171, 800)
    /\ Win.geometry <$> windows w0 !! 1%nat = Some (1235, 0, 45, 800)
    /\ Win.geometry <$> windows w2 !! 1%nat = Some (1171, 0, 109, 800).
Proof.
  eexists _, _, _.
  split; [vm_compute; reflexivity|].
  split; [vm_compute; reflexivity|].
  split; [vm_compute; reflexivity|].
  split; [vm_compute; reflexivity|].
  split; [vm_compute; discriminate|].
  split; [vm_compute; reflexivity|].
  split; [vm_compute; reflexivity|].
  split; vm_compute; reflexivity.
Qed.

(** ** The properties at concrete windows *)

(** A zero width is rejected; a rectangle inside the screen is accepted. *)
Lemma resize_contract_witness :
  resize 0%nat 10 10 0 100 Ex4.w = (Ex4.w, Ok tt)
  /\ exists w' win',
       resize 0%nat 10 10 100 100 Ex4.w = (w', Ok tt)
       /\ trace w' = [PROBE_window_resize (Some 7) 10 10 100 100]
       /\ windows w' !! 0%nat = Some win'
       /\ Win.geometry win' = (10, 10, 100, 100).
Proof.
  split.
  - apply (proj1 (resize_contract Ex4.w 0%nat Ex4.win Ex4.left 10 10 0 100
                    eq_refl eq_refl)).
    left. lia.
  - apply (proj2 (resize_contract Ex4.w 0%nat Ex4.win Ex4.left 10 10 100 100
                    eq_refl eq_refl)).
    intros [H|[H|H]]; [lia | lia |]. apply H.
    apply is_in_screen_contained; [lia | lia | reflexivity].
Defined.

(** The window reported at (1500,100) moves from the left screen to the
    right one. *)
Lemma refresh_relocates_witness :
  exists w' oldscr' newscr' win' events,
    refresh Ex4.PROBE 0%nat Ex4.w = (w', Ok tt)
    /\ screens w' !! 0%nat = Some oldscr'
    /\ ~ In 0%nat (Screen.windows oldscr')
    /\ screens w' !! 1%nat = Some newscr'
    /\ Screen.windows newscr' = [] ++ [0%nat]
    /\ Screen.dirty oldscr' = true
    /\ Screen.dirty newscr' = true
    /\ trace w' = [] ++ events
    /\ marks 0%nat events = 1%nat
    /\ marks 1%nat events = 1%nat
    /\ windows w' !! 0%nat = Some win'
    /\ Win.screen win' = 1%nat.
Proof.
  apply (refresh_relocates Ex4.PROBE Ex4.w 0%nat Ex4.win Ex4.left Ex4.right
           Ex4.desktop 1%nat eq_refl eq_refl).
  - right. right. reflexivity.
  - reflexivity.
  - intros v s Hv Hs. cbn in Hv. destruct Hv as [<-|[]].
    cbn in Hs. destruct Hs as [<-|[<-|[]]]; eexists; reflexivity.
  - reflexivity.
  - discriminate.
  - reflexivity.
Defined.

(** The probe reports 644x476; the stored 640x480 stays. *)
Lemma refresh_keeps_size_witness :
  exists win', windows (fst (refresh Ex4.PROBE 0%nat Ex4.w)) !! 0%nat = Some win'
    /\ Win.width win' = 640
    /\ Win.height win' = 480
    /\ Win.desktop win' = 0
       /\ Win.title win' = "shell"
       /\ Win.winclass win' = Some ("xterm", "XTerm")
       /\ Win.hidden win' = false
       /\ Win.static win' = false
       /\ (Win.d_left win', Win.d_right win', Win.d_top win', Win.d_bottom win')
          = (2, 2, 20, 2)
       /\ Win.id win' = 7
       /\ Win.xobj win' = Some 7.
Proof.
  apply (refresh_keeps_size Ex4.PROBE Ex4.w (fst (refresh Ex4.PROBE 0%nat Ex4.w)) 0%nat
           Ex4.win Ex4.left (snd (refresh Ex4.PROBE 0%nat Ex4.w)) eq_refl eq_refl).
  now destruct (refresh Ex4.PROBE 0%nat Ex4.w).
Defined.

(** The probe reports (1500,100); the stored (0,0) stays. *)
Lemma refresh_keeps_position_witness :
  exists win', windows (fst (refresh Ex4.PROBE 0%nat Ex4.w)) !! 0%nat = Some win'
    /\ Win.x win' = 0 /\ Win.y win' = 0.
Proof.
  apply (proj1 (refresh_keeps_position Ex4.PROBE Ex4.w
                  (fst (refresh Ex4.PROBE 0%nat Ex4.w)) 0%nat
                  Ex4.win Ex4.left (snd (refresh Ex4.PROBE 0%nat Ex4.w))
                  eq_refl eq_refl
                  ltac:(now destruct (refresh Ex4.PROBE 0%nat Ex4.w)))).
Defined.

(** A popup is not loaded at all; a window matching the filter ["xterm"]
    changes no screen. *)
Lemma load_window_admission_witness :
  load_window Ex4.PROBE_popup ["xterm"] 8 Ex4.empty = (Ex4.empty, Ok tt)
  /\ screens (fst (load_window Ex4.PROBE ["xterm"] 7 Ex4.empty)) = screens Ex4.empty.
Proof.
  split.
  - apply (proj1 (load_window_admission Ex4.PROBE_popup ["xterm"] Ex4.empty 8)).
    left. reflexivity.
  - apply (proj2 (load_window_admission Ex4.PROBE ["xterm"] Ex4.empty 7))
      with (r := snd (load_window Ex4.PROBE ["xterm"] 7 Ex4.empty)).
    + exists "xterm", "XTerm", "xterm". split; [reflexivity|]. split; [now left|].
      left. exists EmptyString, EmptyString. reflexivity.
    + now destruct (load_window Ex4.PROBE ["xterm"] 7 Ex4.empty).
Defined.

(** The window with class tag [["xterm", "XTerm"]] matches the filter
    ["xterm"], is not a popup and is on a tracked desktop; yet loading it
    constructs a Window object, which the store did not hold, and
    registers it with the probe. *)
Lemma load_window_filtered_constructed :
  matches_filter ["xterm"] (get_window_by_id Ex4.PROBE 7)
  /\ exists w',
       load_window Ex4.PROBE ["xterm"] 7 Ex4.empty = (w', Ok tt)
       /\ windows Ex4.empty !! 0%nat = None
       /\ windows w' !! 0%nat = Some (constructed 1%nat Ex4.moved)
       /\ trace Ex4.empty = []
       /\ trace w' = [PROBE_window_listen 7].
Proof.
  split.
  - exists "xterm", "XTerm", "xterm". split; [reflexivity|]. split; [now left|].
    left. exists EmptyString, EmptyString. reflexivity.
  - eexists. split; [vm_compute; reflexivity|].
    split; [reflexivity|]. split; [reflexivity|]. split; reflexivity.
Qed.

(** The window of the left screen is reported at (1500,100), off its
    screen and on the right screen; a second screen with the same bounds
    contains that position too.  The scan has no [break]: it relocates the
    window once per screen found, so the old screen is marked twice, the
    window joins both memberships and its owning screen is the last one
    found. *)
Lemma refresh_relocates_overlap :
  is_on_screen Ex11.left 1500 100 = false
  /\ is_on_viewport Ex11.viewport 1500 100 = true
  /\ is_on_screen Ex11.right 1500 100 = true
  /\ matching (screens Ex11.w) Ex11.desktop 1500 100 = [1; 2]%nat
  /\ exists w' right' mirror' win',
       refresh Ex4.PROBE 0%nat Ex11.w = (w', Ok tt)
       /\ marks 0%nat (trace w') = 2%nat
       /\ marks 0%nat (trace w') <> 1%nat
       /\ screens w' !! 1%nat = Some right'
       /\ In 0%nat (Screen.windows right')
       /\ screens w' !! 2%nat = Some mirror'
       /\ In 0%nat (Screen.windows mirror')
       /\ windows w' !! 0%nat = Some win'
       /\ Win.screen win' = 2%nat.
Proof.
  split; [reflexivity|]. split; [reflexivity|]. split; [reflexivity|].
  split; [reflexivity|].
  eexists _, _, _, _.
  split; [vm_compute; reflexivity|].
  split; [reflexivity|]. split; [discriminate|].
  split; [reflexivity|]. split; [now left|].
  split; [reflexivity|]. split; [now left|].
  split; reflexivity.
Qed.

(** * Further properties *)

(** ** The cells of Vertical._tile *)

Lemma int_None f w : PyFloat.to_int f = None -> exists e, int f w = (w, Raise e).
Proof. intros H. unfold int. rewrite H. now eexists. Qed.

Lemma column_nil X Y W H : column [] X Y W H = [].
Proof. reflexivity. Qed.

Lemma column_lookup wins X Y W H i r c :
  column wins X Y W H !! i = Some (r, c) ->
  wins !! i = Some r /\ c = (X, Y + Z.of_nat i * H, W, H).
Proof.
  unfold column. rewrite list_lookup_imap. intros E.
  destruct (wins !! i) as [r'|]; cbn in E; [|discriminate].
  inversion E; subst. now split.
Qed.

Lemma column_length wins X Y W H : length (column wins X Y W H) = length wins.
Proof. unfold column. apply length_imap. Qed.

(** What [Vertical._tile] asks for, in every case. *)
Lemma Vertical_tile_cells w self t scr x y width height mw :
  tilers w !! self = Some t ->
  screens w !! Tiler.screen t = Some scr ->
  Screen.workarea scr = (x, y, width, height) ->
  master_extent (Tiler.slaves t) width (Tiler.width_factor t) = Some mw ->
  Vertical._tile self w
  = for_each (vertical_cells (Tiler.masters t) (Tiler.slaves t) x y width height mw)
      (request (Tiler.margin t)) w.
Proof.
  intros Ht Hscr Hwa Hmw. unfold Vertical._tile.
  rewrite (bind_Ok _ _ _ _ _ (get_tiler_Some _ _ _ Ht)).
  rewrite (bind_Ok _ _ _ _ _ (get_workarea_Some _ _ _ Hscr)).
  rewrite Hwa. unfold master_extent in Hmw.
  assert (E : (if empty (Tiler.slaves t) then ret width
               else int (PyFloat.mul (PyFloat.of_int width) (Tiler.width_factor t))) w
              = (w, Ok mw)).
  { destruct (empty (Tiler.slaves t)).
    - now inversion Hmw.
    - now apply int_Some. }
  rewrite (bind_Ok _ _ _ _ _ E).
  unfold vertical_cells. rewrite for_each_app. apply bind_cong.
  - apply tile_loop_column.
  - intros _ w1. apply tile_loop_column.
Qed.

(** X1. [Vertical._tile] on a screen with a single role: without slaves
    the masters share the whole work area, each of the full width and of
    height [height / master_count], stacked from the top; without masters
    the slaves do (once [int(width * width_factor)], which is computed all
    the same, is defined); without windows nothing happens. *)
Theorem Vertical_tile_single_role (w : World) (self : tref) (t : Tiler.t) (scr : Screen.t)
    (x y width height : Z) :
  tilers w !! self = Some t ->
  screens w !! Tiler.screen t = Some scr ->
  Screen.workarea scr = (x, y, width, height) ->
  (Tiler.slaves t = [] ->
     Vertical._tile self w
     = for_each (column (Tiler.masters t) x y width (height / len (Tiler.masters t)))
         (request (Tiler.margin t)) w)
  /\ (Tiler.masters t = [] ->
      (forall mw,
         PyFloat.to_int (PyFloat.mul (PyFloat.of_int width) (Tiler.width_factor t)) = Some mw ->
         Vertical._tile self w
         = for_each (column (Tiler.slaves t) x y width (height / len (Tiler.slaves t)))
             (request (Tiler.margin t)) w)
      /\ (Tiler.slaves t <> [] ->
          PyFloat.to_int (PyFloat.mul (PyFloat.of_int width) (Tiler.width_factor t)) = None ->
          exists e, Vertical._tile self w = (w, Raise e)))
  /\ (Tiler.masters t = [] -> Tiler.slaves t = [] -> Vertical._tile self w = (w, Ok tt)).
Proof.
  intros Ht Hscr Hwa. split; [|split].
  - intros Hs.
    rewrite (Vertical_tile_cells _ _ _ _ _ _ _ _ width Ht Hscr Hwa)
      by (unfold master_extent; now rewrite Hs).
    unfold vertical_cells. rewrite Hs, column_nil, app_nil_r.
    destruct (Tiler.masters t); reflexivity.
  - intros Hm. split.
    + intros mw Hmw.
      destruct (Tiler.slaves t) as [|s l] eqn:Hs.
      * rewrite (Vertical_tile_cells _ _ _ _ _ _ _ _ width Ht Hscr Hwa)
          by (unfold master_extent; now rewrite Hs).
        unfold vertical_cells. now rewrite Hm, Hs.
      * rewrite (Vertical_tile_cells _ _ _ _ _ _ _ _ mw Ht Hscr Hwa)
          by (unfold master_extent; now rewrite Hs).
        unfold vertical_cells. now rewrite Hm, Hs.
    + intros Hs Hnone. unfold Vertical._tile.
      rewrite (bind_Ok _ _ _ _ _ (get_tiler_Some _ _ _ Ht)).
      rewrite (bind_Ok _ _ _ _ _ (get_workarea_Some _ _ _ Hscr)).
      rewrite Hwa, (empty_false _ Hs).
      destruct (int_None _ w Hnone) as [e He]. exists e.
      now rewrite (bind_Raise _ _ _ _ _ He).
  - intros Hm Hs.
    rewrite (Vertical_tile_cells _ _ _ _ _ _ _ _ width Ht Hscr Hwa)
      by (unfold master_extent; now rewrite Hs).
    unfold vertical_cells. now rewrite Hm, Hs.
Qed.

(** Three masters and no slave on the 1280x800 work area. *)
Lemma Vertical_tile_single_role_witness :
  Vertical._tile 0%nat Ex6.w_masters
  = for_each (column [0; 1; 2]%nat 0 0 1280 (800 / 3)) (request 4) Ex6.w_masters.
Proof.
  apply (proj1 (Vertical_tile_single_role Ex6.w_masters 0%nat Ex6.tiler_masters
                  (Ex.screen [0; 1; 2; 3; 4]%nat) 0 0 1280 800 eq_refl eq_refl eq_refl)).
  reflexivity.
Defined.

(** ** The cells tile the work area *)

Lemma share_bounds e n i :
  0 <= e -> (i < n)%nat ->
  0 <= e / Z.of_nat n /\ Z.of_nat i * (e / Z.of_nat n) + e / Z.of_nat n <= e.
Proof.
  intros He Hi. assert (Hn : 0 < Z.of_nat n) by lia.
  assert (H0 : 0 <= e / Z.of_nat n) by (apply Z.div_pos; lia).
  pose proof (Z.mul_div_le e (Z.of_nat n) Hn). split; [exact H0 | nia].
Qed.

Lemma stacked_apart a b H Y p :
  0 <= H -> a <> b ->
  Y + a * H <= p < Y + a * H + H -> Y + b * H <= p < Y + b * H + H -> False.
Proof. intros HH Hab Ha Hb. destruct (Z.lt_trichotomy a b) as [?|[?|?]]; nia. Qed.

Lemma share_nonempty {A} (l : list A) e :
  l <> [] -> (if empty l then e else e / len l) = e / len l.
Proof. now destruct l. Qed.

(** A cell of a column that shares the extent [e] among its windows. *)
Lemma column_share wins X Y W e i r c :
  0 <= e ->
  column wins X Y W (if empty wins then e else e / len wins) !! i = Some (r, c) ->
  exists cy ch, c = (X, cy, W, ch) /\ 0 <= ch
    /\ cy = Y + Z.of_nat i * ch /\ cy + ch <= Y + e.
Proof.
  intros He Hc. apply column_lookup in Hc as [Hi ->].
  apply lookup_lt_Some in Hi.
  rewrite share_nonempty by (destruct wins; [cbn in Hi; lia | discriminate]).
  destruct (share_bounds e (length wins) i He Hi) as [H0 H1]. unfold len.
  eexists _, _. split; [reflexivity|]. split; [exact H0|]. split; [reflexivity | lia].
Qed.

Lemma vertical_cells_tiling masters slaves x y width height mw :
  0 <= height -> 0 <= mw <= width ->
  tiling (x, y, width, height) (vertical_cells masters slaves x y width height mw).
Proof.
  intros Hh Hmw. unfold vertical_cells.
  set (cm := column masters x y mw _).
  set (cs := column slaves _ y _ _).
  assert (Hm : forall i r c, cm !! i = Some (r, c) ->
            masters <> [] /\ exists cy ch, c = (x, cy, mw, ch) /\ 0 <= ch
              /\ cy = y + Z.of_nat i * ch /\ cy + ch <= y + height).
  { intros i r c Hc. split.
    - apply column_lookup in Hc as [Hc _]. now destruct masters.
    - now apply (column_share masters x y mw height i r c). }
  assert (Hs : forall i r c, cs !! i = Some (r, c) ->
            exists cx cw cy ch, c = (cx, cy, cw, ch) /\ 0 <= ch
              /\ cy = y + Z.of_nat i * ch /\ cy + ch <= y + height
              /\ x <= cx /\ cx + cw <= x + width /\ (masters <> [] -> cx = x + mw)).
  { intros i r c Hc.
    destruct (column_share slaves _ y _ height i r c Hh Hc) as [cy [ch [-> [H0 [H1 H2]]]]].
    eexists _, _, cy, ch. split; [reflexivity|]. split; [exact H0|].
    split; [exact H1|]. split; [exact H2|].
    destruct masters; cbn; repeat split; try lia; congruence. }
  split.
  - intros r c Hin. apply list_elem_of_In, list_elem_of_lookup in Hin as [i Hi].
    apply lookup_app_Some in Hi as [Hi | [_ Hi]].
    + destruct (Hm i r c Hi) as [_ [cy [ch [-> [H0 [H1 H2]]]]]]. cbn. nia.
    + destruct (Hs _ r c Hi) as [cx [cw [cy [ch [-> [H0 [H1 [H2 [H3 [H4 _]]]]]]]]]].
      cbn. nia.
  - intros i j ri ci rj cj Hij Hi Hj px py [Pi Pj].
    apply lookup_app_Some in Hi as [Hi | [Li Hi]];
      apply lookup_app_Some in Hj as [Hj | [Lj Hj]].
    + destruct (Hm i ri ci Hi) as [_ [cy [ch [-> [H0 [H1 _]]]]]].
      destruct (Hm j rj cj Hj) as [_ [cy' [ch' [-> [H0' [H1' _]]]]]].
      apply column_lookup in Hi as [_ Ei], Hj as [_ Ej].
      inversion Ei; inversion Ej; subst. cbn in Pi, Pj.
      eapply (stacked_apart (Z.of_nat i) (Z.of_nat j)); [exact H0 | lia | |];
        [apply Pi | apply Pj].
    + destruct (Hm i ri ci Hi) as [Hne [cy [ch [-> _]]]].
      destruct (Hs _ rj cj Hj) as [cx [cw [cy' [ch' [-> [_ [_ [_ [_ [_ Hx]]]]]]]]]].
      specialize (Hx Hne). cbn in Pi, Pj. lia.
    + destruct (Hm j rj cj Hj) as [Hne [cy [ch [-> _]]]].
      destruct (Hs _ ri ci Hi) as [cx [cw [cy' [ch' [-> [_ [_ [_ [_ [_ Hx]]]]]]]]]].
      specialize (Hx Hne). cbn in Pi, Pj. lia.
    + destruct (Hs _ ri ci Hi) as [cx [cw [cy [ch [-> [H0 [H1 _]]]]]]].
      destruct (Hs _ rj cj Hj) as [cx' [cw' [cy' [ch' [-> [H0' [H1' _]]]]]]].
      apply column_lookup in Hi as [_ Ei], Hj as [_ Ej].
      inversion Ei; inversion Ej; subst. cbn in Pi, Pj.
      eapply (stacked_apart (Z.of_nat (i - length cm)) (Z.of_nat (j - length cm)));
        [exact H0 | lia | |]; [apply Pi | apply Pj].
Qed.

Lemma vertical_cells_keys masters slaves x y width height mw :
  map fst (vertical_cells masters slaves x y width height mw) = masters ++ slaves.
Proof. unfold vertical_cells. now rewrite map_app, !column_keys. Qed.

(** X2. On a work area of non-negative height, with a master width between
    0 and the work area's width, the cells that [Vertical._tile] asks for,
    one per master and per slave in order, lie within the work area and no
    two of them share a pixel. *)
Theorem Vertical_tile_tiles_work_area (w : World) (self : tref) (t : Tiler.t)
    (scr : Screen.t) (x y width height mw : Z) :
  tilers w !! self = Some t ->
  screens w !! Tiler.screen t = Some scr ->
  Screen.workarea scr = (x, y, width, height) ->
  master_extent (Tiler.slaves t) width (Tiler.width_factor t) = Some mw ->
  0 <= height ->
  0 <= mw <= width ->
  exists cells,
    Vertical._tile self w = for_each cells (request (Tiler.margin t)) w
    /\ map fst cells = Tiler.masters t ++ Tiler.slaves t
    /\ tiling (x, y, width, height) cells.
Proof.
  intros Ht Hscr Hwa Hmw Hh Hb.
  exists (vertical_cells (Tiler.masters t) (Tiler.slaves t) x y width height mw).
  split; [now apply (Vertical_tile_cells _ _ _ scr)|].
  split; [apply vertical_cells_keys | now apply vertical_cells_tiling].
Qed.

(** Three masters and two slaves on the 1280x800 work area, factor 0.6. *)
Lemma Vertical_tile_tiles_work_area_witness :
  exists cells,
    Vertical._tile 0%nat Ex6.w = for_each cells (request 4) Ex6.w
    /\ map fst cells = [0; 1; 2]%nat ++ [3; 4]%nat
    /\ tiling (0, 0, 1280, 800) cells.
Proof.
  apply (Vertical_tile_tiles_work_area Ex6.w 0%nat Ex6.tiler
           (Ex.screen [0; 1; 2; 3; 4]%nat) 0 0 1280 800 768
           eq_refl eq_refl eq_refl eq_refl); lia.
Defined.

(** ** Tiling twice *)

Lemma resized_to_idem scr win c :
  resized_to scr (resized_to scr win c) c = resized_to scr win c.
Proof.
  destruct c as [[[x y] width] height]. unfold resized_to, resized.
  destruct (_ || _); reflexivity.
Qed.

(** A loop that resizes distinct windows to fixed rectangles leaves, when
    run a second time, the windows as the first run left them. *)
Lemma fixed_cells_twice (margin : Z) (cells : list (wref * rect)) w :
  List.NoDup (map fst cells) ->
  owned w (map fst cells) ->
  exists w1 w2,
    for_each cells (request margin) w = (w1, Ok tt)
    /\ for_each cells (request margin) w1 = (w2, Ok tt)
    /\ windows w2 = windows w1
    /\ screens w1 = screens w /\ screens w2 = screens w
    /\ tilers w1 = tilers w /\ tilers w2 = tilers w.
Proof.
  intros Hnd Hown.
  set (g := fun (p : wref * rect) (_ : Win.t) => shrink margin (snd p)).
  assert (Hreq : forall w0, for_each cells (request margin) w0
                            = for_each cells (resize_by fst g) w0).
  { apply for_each_ext. intros b w0. apply request_resize_by. }
  destruct (for_each_resize_by fst g cells w Hnd Hown)
    as [w1 [E1 [HS1 [HT1 [_ [Hin1 [Hout1 _]]]]]]].
  assert (Hown1 : owned w1 (map fst cells)).
  { intros k Hk. destruct (Hown k Hk) as [win [scr [Hwin Hscr]]].
    apply in_map_iff in Hk as [b [<- Hb]].
    eexists _, scr. split; [apply (Hin1 b win scr Hb Hwin Hscr)|].
    now rewrite resized_to_screen, HS1. }
  destruct (for_each_resize_by fst g cells w1 Hnd Hown1)
    as [w2 [E2 [HS2 [HT2 [_ [Hin2 [Hout2 _]]]]]]].
  exists w1, w2. rewrite !Hreq.
  split; [exact E1|]. split; [exact E2|].
  split; [|repeat split; congruence].
  apply map_eq. intros k.
  destruct (in_dec Nat.eq_dec k (map fst cells)) as [Hk|Hk].
  - destruct (Hown k Hk) as [win [scr [Hwin Hscr]]].
    apply in_map_iff in Hk as [b [<- Hb]].
    pose proof (Hin1 b win scr Hb Hwin Hscr) as H1.
    rewrite H1.
    rewrite (Hin2 b _ scr Hb H1) by (now rewrite resized_to_screen, HS1).
    unfold g. now rewrite resized_to_idem.
  - now rewrite Hout2 by exact Hk.
Qed.

(** X3. Calling [Vertical._tile] twice in a row on distinct windows leaves
    every window as the first call left it: both calls end normally and
    the second changes no stored geometry, no screen and no tiler. *)
Theorem Vertical_tile_twice (w : World) (self : tref) (t : Tiler.t) (scr : Screen.t)
    (x y width height mw : Z) :
  tilers w !! self = Some t ->
  screens w !! Tiler.screen t = Some scr ->
  Screen.workarea scr = (x, y, width, height) ->
  master_extent (Tiler.slaves t) width (Tiler.width_factor t) = Some mw ->
  List.NoDup (Tiler.masters t ++ Tiler.slaves t) ->
  owned w (Tiler.masters t ++ Tiler.slaves t) ->
  exists w1 w2,
    Vertical._tile self w = (w1, Ok tt)
    /\ Vertical._tile self w1 = (w2, Ok tt)
    /\ windows w2 = windows w1
    /\ screens w2 = screens w1
    /\ tilers w2 = tilers w1.
Proof.
  intros Ht Hscr Hwa Hmw Hnd Hown.
  destruct (fixed_cells_twice (Tiler.margin t)
              (vertical_cells (Tiler.masters t) (Tiler.slaves t) x y width height mw) w)
    as [w1 [w2 [E1 [E2 [Hw [HS1 [HS2 [HT1 HT2]]]]]]]].
  { now rewrite vertical_cells_keys. }
  { now rewrite vertical_cells_keys. }
  exists w1, w2.
  rewrite (Vertical_tile_cells _ _ _ _ _ _ _ _ mw Ht Hscr Hwa Hmw).
  rewrite (Vertical_tile_cells w1 self t scr x y width height mw)
    by (congruence || assumption).
  repeat split; congruence.
Qed.

Lemma Vertical_tile_twice_witness :
  exists w1 w2,
    Vertical._tile 0%nat Ex6.w = (w1, Ok tt)
    /\ Vertical._tile 0%nat w1 = (w2, Ok tt)
    /\ windows w2 = windows w1
    /\ screens w2 = screens w1
    /\ tilers w2 = tilers w1.
Proof.
  apply (Vertical_tile_twice Ex6.w 0%nat Ex6.tiler (Ex.screen [0; 1; 2; 3; 4]%nat)
           0 0 1280 800 768 eq_refl eq_refl eq_refl eq_refl).
  - vm_compute. repeat constructor; intros Hin;
      repeat (destruct Hin as [Hin|Hin]; try discriminate); contradiction.
  - intros k Hk. cbn in Hk.
    destruct Hk as [<-|[<-|[<-|[<-|[<-|[]]]]]]; eexists _, _; split; reflexivity.
Defined.

(** ** Horizontal._tile *)

Lemma Horizontal_tile_loop_row wins X Y W H margin w :
  Horizontal.tile_loop wins X Y W H margin w
  = for_each (map transpose (column wins Y X H W)) (request margin) w.
Proof.
  revert X w. induction wins as [|win wins IH]; intros X w; [reflexivity|].
  rewrite column_cons. cbn [map transpose Horizontal.tile_loop for_each request].
  unfold bind.
  destruct (help_resize win X Y W H margin w) as [w1 [[]|e]]; [apply IH | reflexivity].
Qed.

(** What [Horizontal._tile] asks for, in every case: the cells of the
    Vertical layout for the work area mirrored in the diagonal, mirrored
    back. *)
Lemma Horizontal_tile_cells w self t scr x y width height mh :
  tilers w !! self = Some t ->
  screens w !! Tiler.screen t = Some scr ->
  Screen.workarea scr = (x, y, width, height) ->
  master_extent (Tiler.slaves t) height (Tiler.height_factor t) = Some mh ->
  Horizontal._tile self w
  = for_each (map transpose
                (vertical_cells (Tiler.masters t) (Tiler.slaves t) y x height width mh))
      (request (Tiler.margin t)) w.
Proof.
  intros Ht Hscr Hwa Hmh. unfold Horizontal._tile.
  rewrite (bind_Ok _ _ _ _ _ (get_tiler_Some _ _ _ Ht)).
  rewrite (bind_Ok _ _ _ _ _ (get_workarea_Some _ _ _ Hscr)).
  rewrite Hwa. unfold master_extent in Hmh.
  assert (E : (if empty (Tiler.slaves t) then ret height
               else int (PyFloat.mul (PyFloat.of_int height) (Tiler.height_factor t))) w
              = (w, Ok mh)).
  { destruct (empty (Tiler.slaves t)).
    - now inversion Hmh.
    - now apply int_Some. }
  rewrite (bind_Ok _ _ _ _ _ E).
  unfold vertical_cells. rewrite map_app, for_each_app. apply bind_cong.
  - apply Horizontal_tile_loop_row.
  - intros _ w1. apply Horizontal_tile_loop_row.
Qed.

(** X4. Horizontal is Vertical mirrored in the diagonal: when a Vertical
    tiler and a Horizontal tiler hold the same masters, slaves and margin,
    the width factor of the first is the height factor of the second and
    the work area of the first is that of the second with [x] and [y],
    width and height exchanged, then [Horizontal._tile] asks for the
    mirror images of the cells [Vertical._tile] asks for, window by window
    in the same order. *)
Theorem Horizontal_tile_mirrors_Vertical (wv wh : World) (sv sh : tref)
    (tv th : Tiler.t) (scrv scrh : Screen.t) (x y width height mh : Z) :
  tilers wv !! sv = Some tv ->
  tilers wh !! sh = Some th ->
  screens wv !! Tiler.screen tv = Some scrv ->
  screens wh !! Tiler.screen th = Some scrh ->
  Screen.workarea scrh = (x, y, width, height) ->
  Screen.workarea scrv = (y, x, height, width) ->
  Tiler.masters tv = Tiler.masters th ->
  Tiler.slaves tv = Tiler.slaves th ->
  Tiler.margin tv = Tiler.margin th ->
  Tiler.width_factor tv = Tiler.height_factor th ->
  master_extent (Tiler.slaves th) height (Tiler.height_factor th) = Some mh ->
  exists cells,
    Vertical._tile sv wv = for_each cells (request (Tiler.margin th)) wv
    /\ Horizontal._tile sh wh = for_each (map transpose cells) (request (Tiler.margin th)) wh.
Proof.
  intros Htv Hth Hsv Hsh Hwh Hwv Hm Hs Hmg Hf Hmh.
  exists (vertical_cells (Tiler.masters th) (Tiler.slaves th) y x height width mh).
  split.
  - rewrite (Vertical_tile_cells _ _ _ _ _ _ _ _ mh Htv Hsv Hwv)
      by (now rewrite Hs, Hf).
    now rewrite Hm, Hs, Hmg.
  - now apply (Horizontal_tile_cells _ _ _ scrh).
Qed.

Lemma Horizontal_tile_mirrors_Vertical_witness :
  exists cells,
    Vertical._tile 0%nat Ex7.w = for_each cells (request 4) Ex7.w
    /\ Horizontal._tile 0%nat Ex6.w = for_each (map transpose cells) (request 4) Ex6.w.
Proof.
  apply (Horizontal_tile_mirrors_Vertical Ex7.w Ex6.w 0%nat 0%nat Ex6.tiler Ex6.tiler
           Ex7.screen (Ex.screen [0; 1; 2; 3; 4]%nat) 0 0 1280 800 480
           eq_refl eq_refl eq_refl eq_refl eq_refl eq_refl eq_refl eq_refl eq_refl
           eq_refl eq_refl).
Defined.

Lemma tiling_transpose x y width height cells :
  tiling (y, x, height, width) cells ->
  tiling (x, y, width, height) (map transpose cells).
Proof.
  intros [Hin Hdis]. split.
  - intros r c Hc. apply in_map_iff in Hc as [[r' [[[cx cy] cw] ch]] [E Hc]].
    cbn in E. inversion E; subst. specialize (Hin _ _ Hc). cbn in *. lia.
  - intros i j ri ci rj cj Hij Hi Hj px py [Pi Pj].
    change (map transpose cells) with (transpose <$> cells) in Hi, Hj.
    rewrite list_lookup_fmap in Hi, Hj.
    destruct (cells !! i) as [[ri' [[[ax ay] aw] ah]]|] eqn:Ei; [|discriminate].
    destruct (cells !! j) as [[rj' [[[bx by0] bw] bh]]|] eqn:Ej; [|discriminate].
    cbn in Hi, Hj. inversion Hi; inversion Hj; subst.
    apply (Hdis i j _ _ _ _ Hij Ei Ej py px). cbn in *. lia.
Qed.

(** X5. On a work area of non-negative width, with a master height
    between 0 and the work area's height, the cells that
    [Horizontal._tile] asks for, one per master and per slave in order,
    lie within the work area and no two of them share a pixel. *)
Theorem Horizontal_tile_tiles_work_area (w : World) (self : tref) (t : Tiler.t)
    (scr : Screen.t) (x y width height mh : Z) :
  tilers w !! self = Some t ->
  screens w !! Tiler.screen t = Some scr ->
  Screen.workarea scr = (x, y, width, height) ->
  master_extent (Tiler.slaves t) height (Tiler.height_factor t) = Some mh ->
  0 <= width ->
  0 <= mh <= height ->
  exists cells,
    Horizontal._tile self w = for_each cells (request (Tiler.margin t)) w
    /\ map fst cells = Tiler.masters t ++ Tiler.slaves t
    /\ tiling (x, y, width, height) cells.
Proof.
  intros Ht Hscr Hwa Hmh Hw Hb.
  exists (map transpose
            (vertical_cells (Tiler.masters t) (Tiler.slaves t) y x height width mh)).
  split; [now apply (Horizontal_tile_cells _ _ _ scr)|]. split.
  - rewrite map_map, <- vertical_cells_keys with (x := y) (y := x) (width := height)
                                                 (height := width) (mw := mh).
    apply map_ext. now intros [r [[[? ?] ?] ?]].
  - now apply tiling_transpose, vertical_cells_tiling.
Qed.

Lemma Horizontal_tile_tiles_work_area_witness :
  exists cells,
    Horizontal._tile 0%nat Ex6.w = for_each cells (request 4) Ex6.w
    /\ map fst cells = [0; 1; 2]%nat ++ [3; 4]%nat
    /\ tiling (0, 0, 1280, 800) cells.
Proof.
  apply (Horizontal_tile_tiles_work_area Ex6.w 0%nat Ex6.tiler
           (Ex.screen [0; 1; 2; 3; 4]%nat) 0 0 1280 800 480
           eq_refl eq_refl eq_refl eq_refl); lia.
Defined.

(** ** The tilers only resize, and only within the screen *)

Lemma only_resized_refl w : only_resized w w.
Proof.
  split; [reflexivity|]. split; [reflexivity|]. split.
  - intros k. destruct (windows w !! k); [|exact I].
    split; [reflexivity | now left].
  - exists []. split; [now rewrite app_nil_r | constructor].
Qed.

Lemma resize_only_resizes w0 self x y width height :
  preserves (fun w => resized_from w0 (windows w) (screens w) (desktops w) (trace w))
    (resize self x y width height).
Proof.
  intros w w' r E (HS & HD & HW & events & HT & HE).
  unfold resize, bind, get_win, get_screen in E.
  destruct (windows w !! self) as [win|] eqn:Hwin; cbn in E;
    [|inversion E; subst; repeat split; eauto].
  destruct (screens w !! Win.screen win) as [scr|] eqn:Hscr; cbn in E;
    [|inversion E; subst; repeat split; eauto].
  destruct ((width <? 1) || (height <? 1) || negb (is_in_screen scr x y width height))
    eqn:Hc; cbn in E; inversion E; subst; cbn;
    [repeat split; eauto|].
  apply orb_false_iff in Hc as [Hc Hin]. apply orb_false_iff in Hc as [Hw Hh].
  apply Z.ltb_ge in Hw, Hh. apply negb_false_iff in Hin.
  split; [exact HS|]. split; [exact HD|]. split.
  - intros k. specialize (HW k). destruct (decide (self = k)) as [<-|Hne].
    + rewrite lookup_insert_eq. rewrite Hwin in HW.
      destruct (windows w0 !! self) as [win0|]; [|contradiction].
      destruct HW as [Hsame _]. split.
      * unfold same_but_geometry in *. cbn. exact Hsame.
      * right. intros scr0 Hscr0.
        assert (Es : Win.screen win = Win.screen win0)
          by (apply (f_equal Win.screen) in Hsame; exact Hsame).
        rewrite <- Es, <- HS, Hscr in Hscr0. inversion Hscr0; subst scr0.
        repeat split; cbn; assumption.
    + rewrite lookup_insert_ne by exact Hne. exact HW.
  - exists (events ++ [PROBE_window_resize (Win.xobj win) x y width height]).
    split; [now rewrite HT, app_assoc|].
    apply Forall_app. split; [exact HE|]. constructor; [|constructor].
    now eexists _, _, _, _, _.
Qed.

Lemma tile_loop_only_resizes w0 wins X Y W H margin :
  preserves (fun w => resized_from w0 (windows w) (screens w) (desktops w) (trace w))
    (Vertical.tile_loop wins X Y W H margin).
Proof.
  revert Y. induction wins as [|win wins IH]; intros Y; cbn.
  - apply preserves_ret.
  - apply preserves_bind; [apply resize_only_resizes | intros _; apply IH].
Qed.

Lemma tile_row_only_resizes w0 wins X Y W H margin :
  preserves (fun w => resized_from w0 (windows w) (screens w) (desktops w) (trace w))
    (Horizontal.tile_loop wins X Y W H margin).
Proof.
  revert X. induction wins as [|win wins IH]; intros X; cbn.
  - apply preserves_ret.
  - apply preserves_bind; [apply resize_only_resizes | intros _; apply IH].
Qed.

Lemma preserves_int P f : preserves P (int f).
Proof.
  unfold int. destruct (PyFloat.to_int f); [apply preserves_ret | apply preserves_raise].
Qed.

Ltac only_resizes :=
  repeat first [ apply resize_only_resizes | apply tile_loop_only_resizes
               | apply tile_row_only_resizes | apply preserves_int | frame_step ].

(** X6. Whatever their outcome, [_tile], [_master_increase] and
    [_master_decrease] of both layouts only resize: they change no screen
    and no desktop, add and drop no window object, change of a window
    nothing but its stored geometry, leave it either with its old geometry
    or with one that lies within its owning screen and is at least one
    pixel wide and high, and call the probe for nothing but
    [window_resize]. *)
Theorem tilers_only_resize (w w' : World) (self : tref) (factor : float) (r : res unit) :
  Vertical._tile self w = (w', r)
  \/ Vertical._master_increase self factor w = (w', r)
  \/ Vertical._master_decrease self factor w = (w', r)
  \/ Horizontal._tile self w = (w', r)
  \/ Horizontal._master_increase self factor w = (w', r)
  \/ Horizontal._master_decrease self factor w = (w', r) ->
  only_resized w w'.
Proof.
  intros E.
  assert (H : forall c : M unit,
             preserves (fun w1 => resized_from w (windows w1) (screens w1)
                                    (desktops w1) (trace w1)) c ->
             c w = (w', r) -> only_resized w w').
  { intros c Hc Ec. exact (Hc _ _ _ Ec (only_resized_refl w)). }
  destruct E as [E|[E|[E|[E|[E|E]]]]]; revert E; apply H.
  - unfold Vertical._tile, get_workarea. only_resizes.
  - unfold Vertical._master_increase, get_workarea, put_tiler. only_resizes.
  - unfold Vertical._master_decrease, get_workarea, put_tiler. only_resizes.
  - unfold Horizontal._tile, get_workarea. only_resizes.
  - unfold Horizontal._master_increase, get_workarea, put_tiler. only_resizes.
  - unfold Horizontal._master_decrease, get_workarea, put_tiler. only_resizes.
Qed.

Lemma tilers_only_resize_witness :
  only_resized Ex6.w (fst (Horizontal._master_increase 0%nat (PyFloat.decimal 5 2) Ex6.w)).
Proof.
  apply (tilers_only_resize Ex6.w _ 0%nat (PyFloat.decimal 5 2)
           (snd (Horizontal._master_increase 0%nat (PyFloat.decimal 5 2) Ex6.w))).
  right. right. right. right. left.
  now destruct (Horizontal._master_increase 0%nat (PyFloat.decimal 5 2) Ex6.w).
Defined.

(** ** What a proportion change keeps of each window *)

Lemma preserves_for_each_In {B} P (l : list B) (f : B -> M unit) :
  (forall b, In b l -> preserves P (f b)) -> preserves P (for_each l f).
Proof.
  induction l as [|b l IH]; intros Hf; cbn.
  - apply preserves_ret.
  - apply preserves_bind; [apply Hf; now left | intros _].
    apply IH. intros b' Hb'. apply Hf. now right.
Qed.

(** A resize computed from the window keeps a property of the window [k]
    that the new geometry keeps. *)
Lemma resize_by_keeps (k : wref) (Q : Win.t -> Prop) (r : wref) (g : Win.t -> rect) :
  (r = k -> forall win, Q win -> Q (moved_to win (g win))) ->
  preserves (fun w => exists win, windows w !! k = Some win /\ Q win)
    (resize_by (fun r : wref => r) (fun _ => g) r).
Proof.
  intros Hg w w' res E [wk [Hk HQ]].
  unfold resize_by, bind, get_win in E.
  destruct (windows w !! r) as [win|] eqn:Hwin; cbn in E;
    [|inversion E; subst; eauto].
  destruct (g win) as [[[x y] width] height] eqn:Eg.
  unfold resize, bind, get_win, get_screen in E. rewrite Hwin in E. cbn in E.
  destruct (screens w !! Win.screen win) as [scr|]; cbn in E;
    [|inversion E; subst; eauto].
  destruct (_ || _); cbn in E; inversion E; subst; cbn; [eauto|].
  destruct (decide (r = k)) as [->|Hne].
  - rewrite lookup_insert_eq. eexists. split; [reflexivity|].
    rewrite Hwin in Hk. inversion Hk; subst wk.
    specialize (Hg eq_refl win HQ). now rewrite Eg in Hg.
  - rewrite lookup_insert_ne by exact Hne. eauto.
Qed.

Lemma loops_keep (k : wref) (Q : Win.t -> Prop) (gs gm : Win.t -> rect) slaves masters :
  (In k slaves -> forall win, Q win -> Q (moved_to win (gs win))) ->
  (In k masters -> forall win, Q win -> Q (moved_to win (gm win))) ->
  preserves (fun w => exists win, windows w !! k = Some win /\ Q win)
    (bind (for_each slaves (resize_by (fun r : wref => r) (fun _ => gs)))
          (fun _ => for_each masters (resize_by (fun r : wref => r) (fun _ => gm)))).
Proof.
  intros Hs Hm. apply preserves_bind; [|intros _];
    apply preserves_for_each_In; intros r Hr; apply resize_by_keeps.
  - intros ->. now apply Hs.
  - intros ->. now apply Hm.
Qed.

(** The hooks, once the tiler and its work area are read: nothing, an
    exception before any write, or the store of the factor and the two
    loops. *)
Lemma hook_keeps (Q : Win.t -> Prop) (k : wref) (t t' : Tiler.t) (self : tref)
    (delta : float) (gs gm : Z -> Win.t -> rect) :
  (forall p, In k (Tiler.slaves t) -> forall win, Q win -> Q (moved_to win (gs p win))) ->
  (forall p, In k (Tiler.masters t) -> forall win, Q win -> Q (moved_to win (gm p win))) ->
  preserves (fun w => exists win, windows w !! k = Some win /\ Q win)
    (if empty (Tiler.slaves t) || empty (Tiler.masters t) then ret tt
     else bind (int delta) (fun pixels =>
          bind (put_tiler self t') (fun _ =>
          bind (for_each (Tiler.slaves t)
                  (resize_by (fun r : wref => r) (fun _ => gs pixels)))
               (fun _ => for_each (Tiler.masters t)
                  (resize_by (fun r : wref => r) (fun _ => gm pixels)))))).
Proof.
  intros Hs Hm. destruct (_ || _); [apply preserves_ret|].
  apply preserves_bind; [apply preserves_int | intros p].
  apply preserves_bind; [unfold put_tiler; frame_write | intros _].
  apply loops_keep; [apply Hs | apply Hm].
Qed.

(** X7. Whatever their outcome, [Vertical._master_increase] and
    [Vertical._master_decrease] keep every window's [y] and [height]; they
    keep the right edge [x + width] of a window that is not a master and
    the [x] of a window that is not a slave. *)
Theorem Vertical_change_keeps_edges (w w' : World) (self : tref) (t : Tiler.t)
    (factor : float) (r : res unit) (k : wref) (win : Win.t) :
  tilers w !! self = Some t ->
  windows w !! k = Some win ->
  Vertical._master_increase self factor w = (w', r)
  \/ Vertical._master_decrease self factor w = (w', r) ->
  exists win', windows w' !! k = Some win'
    /\ Win.y win' = Win.y win
    /\ Win.height win' = Win.height win
    /\ (~ In k (Tiler.masters t) -> Win.x win' + Win.width win' = Win.x win + Win.width win)
    /\ (~ In k (Tiler.slaves t) -> Win.x win' = Win.x win).
Proof.
  intros Ht Hk E.
  set (Q := fun win' : Win.t =>
              Win.y win' = Win.y win /\ Win.height win' = Win.height win
              /\ (~ In k (Tiler.masters t) ->
                  Win.x win' + Win.width win' = Win.x win + Win.width win)
              /\ (~ In k (Tiler.slaves t) -> Win.x win' = Win.x win)).
  assert (H0 : exists win0, windows w !! k = Some win0 /\ Q win0)
    by (exists win; repeat split; auto).
  destruct E as [E|E].
  - unfold Vertical._master_increase in E.
    rewrite (bind_Ok _ _ _ _ _ (get_tiler_Some _ _ _ Ht)) in E.
    unfold bind at 1 in E.
    destruct (get_workarea (Tiler.screen t) w) as [w1 [[[[x y] width] height]|e]] eqn:Ew.
    + assert (w1 = w) as ->.
      { unfold get_workarea, bind, get_screen in Ew.
        destruct (screens w !! Tiler.screen t); cbn in Ew; now inversion Ew. }
      refine (hook_keeps Q k t _ self _ slave_narrower master_wider _ _ _ _ _ E H0).
      * intros p Hin win0 (Hy & Hh & He & Hx). repeat split; cbn; try assumption;
          intros Hn; first [contradiction | specialize (He Hn); lia].
      * intros p Hin win0 (Hy & Hh & He & Hx). repeat split; cbn; try assumption;
          intros Hn; first [contradiction | now apply Hx].
    + assert (w1 = w) as ->.
      { unfold get_workarea, bind, get_screen in Ew.
        destruct (screens w !! Tiler.screen t); cbn in Ew; now inversion Ew. }
      inversion E; subst. exact H0.
  - unfold Vertical._master_decrease in E.
    rewrite (bind_Ok _ _ _ _ _ (get_tiler_Some _ _ _ Ht)) in E.
    unfold bind at 1 in E.
    destruct (get_workarea (Tiler.screen t) w) as [w1 [[[[x y] width] height]|e]] eqn:Ew.
    + assert (w1 = w) as ->.
      { unfold get_workarea, bind, get_screen in Ew.
        destruct (screens w !! Tiler.screen t); cbn in Ew; now inversion Ew. }
      refine (hook_keeps Q k t _ self _ slave_wider master_narrower _ _ _ _ _ E H0).
      * intros p Hin win0 (Hy & Hh & He & Hx). repeat split; cbn; try assumption;
          intros Hn; first [contradiction | specialize (He Hn); lia].
      * intros p Hin win0 (Hy & Hh & He & Hx). repeat split; cbn; try assumption;
          intros Hn; first [contradiction | now apply Hx].
    + assert (w1 = w) as ->.
      { unfold get_workarea, bind, get_screen in Ew.
        destruct (screens w !! Tiler.screen t); cbn in Ew; now inversion Ew. }
      inversion E; subst. exact H0.
Qed.

Lemma Vertical_change_keeps_edges_witness :
  exists win', windows (fst (Vertical._master_increase 0%nat (PyFloat.decimal 5 2) Ex5.w))
               !! 1%nat = Some win'
    /\ Win.y win' = 0
    /\ Win.height win' = 800
    /\ (~ In 1%nat [0%nat] -> Win.x win' + Win.width win' = 640 + 640)
    /\ (~ In 1%nat [1%nat] -> Win.x win' = 640).
Proof.
  apply (Vertical_change_keeps_edges Ex5.w _ 0%nat Ex5.tiler (PyFloat.decimal 5 2)
           (snd (Vertical._master_increase 0%nat (PyFloat.decimal 5 2) Ex5.w))
           1%nat (Ex.win 2 640 0 640 800) eq_refl eq_refl).
  left. now destruct (Vertical._master_increase 0%nat (PyFloat.decimal 5 2) Ex5.w).
Defined.

(** X8. Whatever their outcome, [Horizontal._master_increase] and
    [Horizontal._master_decrease] keep every window's [x] and [width];
    they keep the bottom edge [y + height] of a window that is not a
    master and the [y] of a window that is not a slave. *)
Theorem Horizontal_change_keeps_edges (w w' : World) (self : tref) (t : Tiler.t)
    (factor : float) (r : res unit) (k : wref) (win : Win.t) :
  tilers w !! self = Some t ->
  windows w !! k = Some win ->
  Horizontal._master_increase self factor w = (w', r)
  \/ Horizontal._master_decrease self factor w = (w', r) ->
  exists win', windows w' !! k = Some win'
    /\ Win.x win' = Win.x win
    /\ Win.width win' = Win.width win
    /\ (~ In k (Tiler.masters t) -> Win.y win' + Win.height win' = Win.y win + Win.height win)
    /\ (~ In k (Tiler.slaves t) -> Win.y win' = Win.y win).
Proof.
  intros Ht Hk E.
  set (Q := fun win' : Win.t =>
              Win.x win' = Win.x win /\ Win.width win' = Win.width win
              /\ (~ In k (Tiler.masters t) ->
                  Win.y win' + Win.height win' = Win.y win + Win.height win)
              /\ (~ In k (Tiler.slaves t) -> Win.y win' = Win.y win)).
  assert (H0 : exists win0, windows w !! k = Some win0 /\ Q win0)
    by (exists win; repeat split; auto).
  destruct E as [E|E].
  - unfold Horizontal._master_increase in E.
    rewrite (bind_Ok _ _ _ _ _ (get_tiler_Some _ _ _ Ht)) in E.
    unfold bind at 1 in E.
    destruct (get_workarea (Tiler.screen t) w) as [w1 [[[[x y] width] height]|e]] eqn:Ew;
      (assert (w1 = w) as ->
         by (unfold get_workarea, bind, get_screen in Ew;
             destruct (screens w !! Tiler.screen t); cbn in Ew; now inversion Ew));
      [|inversion E; subst; exact H0].
    refine (hook_keeps Q k t _ self _ slave_shorter master_taller _ _ _ _ _ E H0).
    + intros p Hin win0 (Hy & Hh & He & Hx). repeat split; cbn; try assumption;
        intros Hn; first [contradiction | specialize (He Hn); lia].
    + intros p Hin win0 (Hy & Hh & He & Hx). repeat split; cbn; try assumption;
        intros Hn; first [contradiction | now apply Hx].
  - unfold Horizontal._master_decrease in E.
    rewrite (bind_Ok _ _ _ _ _ (get_tiler_Some _ _ _ Ht)) in E.
    unfold bind at 1 in E.
    destruct (get_workarea (Tiler.screen t) w) as [w1 [[[[x y] width] height]|e]] eqn:Ew;
      (assert (w1 = w) as ->
         by (unfold get_workarea, bind, get_screen in Ew;
             destruct (screens w !! Tiler.screen t); cbn in Ew; now inversion Ew));
      [|inversion E; subst; exact H0].
    refine (hook_keeps Q k t _ self _ slave_taller master_shorter _ _ _ _ _ E H0).
    + intros p Hin win0 (Hy & Hh & He & Hx). repeat split; cbn; try assumption;
        intros Hn; first [contradiction | specialize (He Hn); lia].
    + intros p Hin win0 (Hy & Hh & He & Hx). repeat split; cbn; try assumption;
        intros Hn; first [contradiction | now apply Hx].
Qed.

Lemma Horizontal_change_keeps_edges_witness :
  exists win', windows (fst (Horizontal._master_decrease 0%nat (PyFloat.decimal 5 2) Ex5.w))
               !! 0%nat = Some win'
    /\ Win.x win' = 0
    /\ Win.width win' = 640
    /\ (~ In 0%nat [0%nat] -> Win.y win' + Win.height win' = 0 + 800)
    /\ (~ In 0%nat [1%nat] -> Win.y win' = 0).
Proof.
  apply (Horizontal_change_keeps_edges Ex5.w _ 0%nat Ex5.tiler (PyFloat.decimal 5 2)
           (snd (Horizontal._master_decrease 0%nat (PyFloat.decimal 5 2) Ex5.w))
           0%nat (Ex.win 1 0 0 640 800) eq_refl eq_refl).
  right. now destruct (Horizontal._master_decrease 0%nat (PyFloat.decimal 5 2) Ex5.w).
Defined.

(** ** A proportion change that cannot compute its delta *)

(** X9. When both roles are occupied and the pixel delta is not a finite
    number, so that [int] raises, [_master_increase] and
    [_master_decrease] of both layouts raise before any write: neither the
    factor nor any window is changed. *)
Theorem undefined_delta_changes_nothing (w : World) (self : tref) (t : Tiler.t)
    (scr : Screen.t) (x y width height : Z) (factor : float) :
  tilers w !! self = Some t ->
  screens w !! Tiler.screen t = Some scr ->
  Screen.workarea scr = (x, y, width, height) ->
  Tiler.masters t <> [] ->
  Tiler.slaves t <> [] ->
  (PyFloat.to_int (delta_increase (Tiler.width_factor t) factor width) = None ->
   exists e, Vertical._master_increase self factor w = (w, Raise e))
  /\ (PyFloat.to_int (delta_decrease (Tiler.width_factor t) factor width) = None ->
      exists e, Vertical._master_decrease self factor w = (w, Raise e))
  /\ (PyFloat.to_int (delta_increase (Tiler.height_factor t) factor height) = None ->
      exists e, Horizontal._master_increase self factor w = (w, Raise e))
  /\ (PyFloat.to_int (delta_decrease (Tiler.height_factor t) factor height) = None ->
      exists e, Horizontal._master_decrease self factor w = (w, Raise e)).
Proof.
  intros Ht Hscr Hwa Hm Hs.
  split; [|split; [|split]]; intros Hnone;
    destruct (int_None _ w Hnone) as [e He]; exists e;
    [ unfold Vertical._master_increase | unfold Vertical._master_decrease
    | unfold Horizontal._master_increase | unfold Horizontal._master_decrease ];
    rewrite (bind_Ok _ _ _ _ _ (get_tiler_Some _ _ _ Ht));
    rewrite (bind_Ok _ _ _ _ _ (get_workarea_Some _ _ _ Hscr));
    rewrite Hwa, (empty_false _ Hm), (empty_false _ Hs); cbn [orb];
    exact (bind_Raise _ _ _ _ _ He).
Qed.

(** An infinite step on the tiled screen of [Ex5]. *)
Lemma undefined_delta_changes_nothing_witness :
  exists e, Vertical._master_increase 0%nat ExInf.inf Ex5.w = (Ex5.w, Raise e).
Proof.
  apply (proj1 (undefined_delta_changes_nothing Ex5.w 0%nat Ex5.tiler
                  (Ex.screen [0; 1]%nat) 0 0 1280 800 ExInf.inf
                  eq_refl eq_refl eq_refl ltac:(discriminate) ltac:(discriminate))).
  reflexivity.
Defined.

(** ** Window.load_window: admission *)

Lemma Window_keeps_bounds S0 screen attrs :
  preserves (fun w => same_bounds S0 (screens w)) (Window screen attrs).
Proof. intros w w' r E HP. rewrite Window_run in E. now inversion E; subst. Qed.

Lemma admission_stable PROBE filters attrs s w w' r :
  bind (Window s attrs) (fun win =>
    bind (filtered filters win) (fun f =>
      if negb f then
        bind (add_window s win) (fun _ =>
        bind (needs_tiling s) (fun _ =>
        bind (get_win win) (fun w0 =>
          if Win.id w0 =? get_active_window_id PROBE then activate win else ret tt)))
      else ret tt)) w = (w', r) ->
  same_bounds (screens w) (screens w').
Proof.
  intros E.
  match type of E with
  | ?c _ = _ => assert (Hc : preserves (fun w0 => same_bounds (screens w) (screens w0)) c)
  end.
  { unfold filtered, activate, reload_active, emit.
    repeat first [ apply Window_keeps_bounds | apply add_window_bounds
                 | apply needs_tiling_bounds | frame_step ]. }
  exact (Hc _ _ _ E (same_bounds_refl _)).
Qed.

Lemma not_filtered_loop filters attrs c :
  ~ matches_filter filters attrs -> Attrs.class attrs = Some c ->
  filtered_loop c filters = false.
Proof.
  intros Hn Hc. destruct (filtered_loop c filters) eqn:E; [|reflexivity].
  exfalso. apply Hn. apply filtered_loop_spec in E as [f [Hin Hsub]].
  destruct c as [c0 c1]. now exists c0, c1, f.
Qed.

Lemma filtered_run filters w self win :
  windows w !! self = Some win ->
  filtered filters self w = (w, Ok (filtered_value filters win)).
Proof.
  intros H. unfold filtered, filtered_value.
  rewrite (bind_Ok _ _ _ _ _ (get_win_Some _ _ _ H)).
  now destruct (Win.winclass win).
Qed.

Lemma add_window_run w s win scr :
  screens w !! s = Some scr ->
  add_window s win w
  = (mkWorld (windows w)
       (<[s := Screen.set_windows scr (Screen.windows scr ++ [win])]> (screens w))
       (tilers w) (desktops w) (trace w ++ [Screen_add_window s win]), Ok tt).
Proof.
  intros H. unfold add_window.
  now rewrite (bind_Ok _ _ _ _ _ (get_screen_Some _ _ _ H)).
Qed.

Lemma delete_window_run w s win scr :
  screens w !! s = Some scr ->
  delete_window s win w
  = (mkWorld (windows w)
       (<[s := Screen.set_windows scr
                 (List.filter (fun r => negb (Nat.eqb r win)) (Screen.windows scr))]>
          (screens w))
       (tilers w) (desktops w) (trace w ++ [Screen_delete_window s win]), Ok tt).
Proof.
  intros H. unfold delete_window.
  now rewrite (bind_Ok _ _ _ _ _ (get_screen_Some _ _ _ H)).
Qed.

Lemma needs_tiling_run w s scr :
  screens w !! s = Some scr ->
  needs_tiling s w
  = (mkWorld (windows w) (<[s := Screen.set_dirty scr true]> (screens w))
       (tilers w) (desktops w) (trace w ++ [Screen_needs_tiling s]), Ok tt).
Proof.
  intros H. unfold needs_tiling.
  now rewrite (bind_Ok _ _ _ _ _ (get_screen_Some _ _ _ H)).
Qed.

Lemma activate_run w self win :
  windows w !! self = Some win ->
  activate self w
  = (set_trace w (trace w ++ [PROBE_window_activate (Win.xobj win);
                              State_reload_active (Some self)]), Ok tt).
Proof.
  intros H. unfold activate.
  rewrite (bind_Ok _ _ _ _ _ (get_win_Some _ _ _ H)).
  unfold bind, emit, reload_active, emit. cbn. now rewrite <- app_assoc.
Qed.

(** The run of [load_window] on an admitted window. *)
Lemma load_window_admitted_run PROBE filters w window_id desk s scr :
  let attrs := get_window_by_id PROBE window_id in
  let new := fresh (dom (windows w)) in
  Attrs.popup attrs = false ->
  desktops w !! Attrs.desktop attrs = Some desk ->
  screens_exist (screens w) desk ->
  matching (screens w) desk (Attrs.x attrs) (Attrs.y attrs) = [s] ->
  screens w !! s = Some scr ->
  ~ matches_filter filters attrs ->
  load_window PROBE filters window_id w
  = (mkWorld (<[new := constructed s attrs]> (windows w))
       (<[s := Screen.set_dirty
                 (Screen.set_windows scr (Screen.windows scr ++ [new])) true]>
          (screens w))
       (tilers w) (desktops w)
       (trace w ++ listens attrs ++ [Screen_add_window s new; Screen_needs_tiling s]
        ++ activation PROBE attrs new), Ok tt).
Proof.
  intros attrs new0 Hp Hd Hex Hmatch Hscr Hnf. subst new0.
  unfold load_window. fold attrs.
  unfold bind at 1. unfold get_desktops at 1.
  rewrite Hp, Hd. rewrite bool_decide_eq_true_2 by eauto. cbn [negb andb].
  unfold bind at 1. cbn [of_option ret].
  rewrite scan_matching;
    [ | intros; eapply admission_stable; eassumption | exact Hex ].
  rewrite Hmatch. cbn [for_each].
  unfold bind at 1.
  rewrite (bind_Ok _ _ _ _ _ (Window_run s attrs w)).
  set (new := fresh (dom (windows w))).
  set (w1 := mkWorld _ _ _ _ _).
  assert (Hnew : windows w1 !! new = Some (constructed s attrs))
    by (cbn; apply lookup_insert_eq).
  rewrite (bind_Ok _ _ _ _ _ (filtered_run filters w1 new _ Hnew)).
  assert (Ef : filtered_value filters (constructed s attrs) = false).
  { unfold filtered_value. cbn.
    destruct (Attrs.class attrs) as [c|] eqn:Hc; [|reflexivity].
    exact (not_filtered_loop filters attrs c Hnf Hc). }
  rewrite Ef. cbn [negb].
  rewrite (bind_Ok _ _ _ _ _ (add_window_run w1 s new scr Hscr)).
  set (w2 := mkWorld _ _ _ _ _).
  assert (Hs2 : screens w2 !! s
                = Some (Screen.set_windows scr (Screen.windows scr ++ [new])))
    by (cbn; apply lookup_insert_eq).
  rewrite (bind_Ok _ _ _ _ _ (needs_tiling_run w2 s _ Hs2)).
  set (w3 := mkWorld _ _ _ _ _).
  assert (Hnew3 : windows w3 !! new = Some (constructed s attrs)) by exact Hnew.
  rewrite (bind_Ok _ _ _ _ _ (get_win_Some _ _ _ Hnew3)).
  unfold activation. cbn [Win.id constructed].
  destruct (Attrs.id attrs =? get_active_window_id PROBE).
  - rewrite (activate_run w3 new _ Hnew3). subst w3 w2 w1. cbn.
    rewrite insert_insert_eq, <- !app_assoc. reflexivity.
  - subst w3 w2 w1. cbn.
    rewrite insert_insert_eq, <- !app_assoc. reflexivity.
Qed.


(** X10. A window that is not a popup, whose desktop is tracked, whose
    position lies on exactly one screen of that desktop and which matches
    no filter is admitted: a new Window object is constructed from the
    snapshot and registered, appended to that screen's membership, the
    screen is marked as needing tiling, and the window is activated exactly
    when its id is the probe's active window id. *)
Theorem load_window_admits (PROBE : Probe) (filters : list string) (w : World)
    (window_id : Z) (desk : Desktop.t) (s : sref) (scr : Screen.t) :
  let attrs := get_window_by_id PROBE window_id in
  Attrs.popup attrs = false ->
  desktops w !! Attrs.desktop attrs = Some desk ->
  screens_exist (screens w) desk ->
  matching (screens w) desk (Attrs.x attrs) (Attrs.y attrs) = [s] ->
  screens w !! s = Some scr ->
  ~ matches_filter filters attrs ->
  exists w' new,
    load_window PROBE filters window_id w = (w', Ok tt)
    /\ windows w !! new = None
    /\ windows w' = <[new := constructed s attrs]> (windows w)
    /\ screens w'
       = <[s := Screen.set_dirty
                  (Screen.set_windows scr (Screen.windows scr ++ [new])) true]> (screens w)
    /\ trace w'
       = trace w ++ listens attrs ++ [Screen_add_window s new; Screen_needs_tiling s]
         ++ activation PROBE attrs new.
Proof.
  intros attrs Hp Hd Hex Hmatch Hscr Hnf.
  eexists _, (fresh (dom (windows w))).
  split; [exact (load_window_admitted_run PROBE filters w window_id desk s scr
                   Hp Hd Hex Hmatch Hscr Hnf)|].
  split; [apply fresh_window|]. repeat split.
Qed.

(** The window reported at (1500,100) with class xterm, under the filter
    ["gimp"], lands on the right screen. *)
Lemma load_window_admits_witness :
  exists w' new,
    load_window Ex4.PROBE ["gimp"] 7 Ex4.empty = (w', Ok tt)
    /\ windows Ex4.empty !! new = None
    /\ windows w' = <[new := constructed 1%nat Ex4.moved]> (windows Ex4.empty)
    /\ screens w'
       = <[1%nat := Screen.set_dirty (Screen.set_windows Ex4.right ([] ++ [new])) true]>
           (screens Ex4.empty)
    /\ trace w'
       = [] ++ listens Ex4.moved ++ [Screen_add_window 1%nat new; Screen_needs_tiling 1%nat]
         ++ activation Ex4.PROBE Ex4.moved new.
Proof.
  apply (load_window_admits Ex4.PROBE ["gimp"] Ex4.empty 7 Ex4.desktop 1%nat Ex4.right
           eq_refl eq_refl).
  - intros v s Hv Hs. cbn in Hv. destruct Hv as [<-|[]].
    cbn in Hs. destruct Hs as [<-|[<-|[]]]; eexists; reflexivity.
  - reflexivity.
  - reflexivity.
  - intros [c0 [c1 [f [Hc [[<-|[]] Hs]]]]]. cbn in Hc. inversion Hc; subst.
    destruct Hs as [Hs|Hs]; apply find_ci_substring in Hs; discriminate.
Defined.

(** X11. A window whose position lies on no screen of its desktop is
    dropped without a trace: no object is constructed, nothing is
    registered, no screen changes. *)
Theorem load_window_nowhere (PROBE : Probe) (filters : list string) (w : World)
    (window_id : Z) (desk : Desktop.t) :
  let attrs := get_window_by_id PROBE window_id in
  desktops w !! Attrs.desktop attrs = Some desk ->
  screens_exist (screens w) desk ->
  matching (screens w) desk (Attrs.x attrs) (Attrs.y attrs) = [] ->
  load_window PROBE filters window_id w = (w, Ok tt).
Proof.
  intros attrs Hd Hex Hmatch. unfold load_window. fold attrs.
  unfold bind at 1. unfold get_desktops at 1.
  destruct (Attrs.popup attrs); [reflexivity|].
  rewrite Hd. rewrite bool_decide_eq_true_2 by eauto. cbn [negb andb].
  unfold bind at 1. cbn [of_option ret].
  rewrite scan_matching;
    [ | intros; eapply admission_stable; eassumption | exact Hex ].
  now rewrite Hmatch.
Qed.

Lemma load_window_nowhere_witness :
  load_window Ex8.PROBE_far ["xterm"] 9 Ex4.w = (Ex4.w, Ok tt).
Proof.
  apply (load_window_nowhere Ex8.PROBE_far ["xterm"] Ex4.w 9 Ex4.desktop eq_refl).
  - intros v s Hv Hs. cbn in Hv. destruct Hv as [<-|[]].
    cbn in Hs. destruct Hs as [<-|[<-|[]]]; eexists; reflexivity.
  - reflexivity.
Defined.

(** ** Window.load_new_windows only adds *)

Lemma grown_from_refl w : grown_from w (windows w) (screens w).
Proof.
  split; [auto|]. intros s scr Hs. exists [], (Screen.dirty scr).
  split; [|auto]. rewrite Hs, app_nil_r. now destruct scr.
Qed.

Lemma Window_grows w0 screen attrs :
  preserves (fun w => grown_from w0 (windows w) (screens w)) (Window screen attrs).
Proof.
  intros w w' r E [HW HS]. rewrite Window_run in E. inversion E; subst. cbn.
  split; [|exact HS]. intros k win Hk.
  rewrite lookup_insert_ne; [now apply HW|].
  intros <-. apply HW in Hk. now rewrite fresh_window in Hk.
Qed.

Lemma add_window_grows w0 s win :
  preserves (fun w => grown_from w0 (windows w) (screens w)) (add_window s win).
Proof.
  intros w w' r E [HW HS]. unfold add_window, bind, get_screen in E.
  destruct (screens w !! s) as [scr|] eqn:Hs; cbn in E; inversion E; subst; cbn;
    [|now split].
  split; [exact HW|]. intros s' scr0 Hs0.
  destruct (HS s' scr0 Hs0) as [added [dirty [Hcur Hd]]].
  destruct (decide (s = s')) as [<-|Hne].
  - rewrite lookup_insert_eq. exists (added ++ [win]), dirty. split; [|exact Hd].
    rewrite Hs in Hcur. inversion Hcur; subst scr. cbn. now rewrite app_assoc.
  - rewrite lookup_insert_ne by exact Hne. eauto.
Qed.

Lemma needs_tiling_grows w0 s :
  preserves (fun w => grown_from w0 (windows w) (screens w)) (needs_tiling s).
Proof.
  intros w w' r E [HW HS]. unfold needs_tiling, bind, get_screen in E.
  destruct (screens w !! s) as [scr|] eqn:Hs; cbn in E; inversion E; subst; cbn;
    [|now split].
  split; [exact HW|]. intros s' scr0 Hs0.
  destruct (HS s' scr0 Hs0) as [added [dirty [Hcur Hd]]].
  destruct (decide (s = s')) as [<-|Hne].
  - rewrite lookup_insert_eq. exists added, true. split; [|reflexivity].
    rewrite Hs in Hcur. now inversion Hcur; subst scr.
  - rewrite lookup_insert_ne by exact Hne. eauto.
Qed.

Lemma Window_keeps (P : World -> Prop) screen attrs :
  (forall w W T, P w -> P (mkWorld W (screens w) (tilers w) (desktops w) T)) ->
  preserves P (Window screen attrs).
Proof. intros HP w w' r E H. rewrite Window_run in E. inversion E; subst. now apply HP. Qed.

(** X12. Whatever its outcome, [load_new_windows] only adds: the window
    objects already in the store are unchanged, every screen keeps its
    bounds, work area and viewport, has its membership extended at the end
    only and its needs-tiling flag set or left as it was, and tilers and
    desktops are unchanged. *)
Theorem load_new_windows_only_adds (PROBE : Probe) (filters : list string)
    (wins : list Z) (w w' : World) (r : res unit) :
  load_new_windows PROBE filters wins w = (w', r) ->
  grown_from w (windows w') (screens w')
  /\ tilers w' = tilers w
  /\ desktops w' = desktops w.
Proof.
  intros E.
  assert (H1 : preserves (fun w1 => grown_from w (windows w1) (screens w1))
                 (load_new_windows PROBE filters wins)).
  { unfold load_new_windows, load_window, scan, filtered, activate, reload_active,
      emit.
    repeat first [ apply Window_grows | apply add_window_grows
                 | apply needs_tiling_grows | frame_step ]. }
  assert (H2 : preserves (fun w1 => tilers w1 = tilers w /\ desktops w1 = desktops w)
                 (load_new_windows PROBE filters wins)).
  { unfold load_new_windows, load_window, scan, filtered, activate, reload_active,
      add_window, needs_tiling, put_screen, emit.
    repeat first [ apply Window_keeps; intros ? ? ? HP; exact HP | frame_step ]. }
  split; [exact (H1 _ _ _ E (grown_from_refl w))|].
  exact (H2 _ _ _ E (conj eq_refl eq_refl)).
Qed.

(** The probe reports the identifiers 7 (admitted), 8 (a popup) and 9 (on
    no screen) to a world that already tracks a window. *)
Lemma load_new_windows_only_adds_witness :
  let w' := fst (load_new_windows Ex8.PROBE ["gimp"] [7; 8; 9] Ex4.w) in
  grown_from Ex4.w (windows w') (screens w')
  /\ tilers w' = tilers Ex4.w
  /\ desktops w' = desktops Ex4.w.
Proof.
  apply (load_new_windows_only_adds Ex8.PROBE ["gimp"] [7; 8; 9] Ex4.w _
           (snd (load_new_windows Ex8.PROBE ["gimp"] [7; 8; 9] Ex4.w))).
  now destruct (load_new_windows Ex8.PROBE ["gimp"] [7; 8; 9] Ex4.w).
Defined.

(** ** Window.refresh: the other paths *)

(** [refresh] up to the test of the move. *)
Lemma refresh_start PROBE w self win oldscr :
  windows w !! self = Some win ->
  screens w !! Win.screen win = Some oldscr ->
  let update := Attrs.set_size (get_window PROBE (Win.xobj win))
                  (Win.width win) (Win.height win) in
  let w1 := set_windows w (<[self := refreshed PROBE win]> (windows w)) in
  refresh PROBE self w
  = bind
      (if negb (Viewport.desktop (Screen.viewport oldscr) =? Win.desktop (refreshed PROBE win))
          || negb (is_on_viewport (Screen.viewport oldscr) (Attrs.x update) (Attrs.y update))
          || negb (is_on_screen oldscr (Attrs.x update) (Attrs.y update))
       then
         bind get_desktops (fun ds =>
         bind (of_option (ds !! Win.desktop (refreshed PROBE win)) KeyError) (fun desk =>
         scan desk (Attrs.x update) (Attrs.y update) (fun screen =>
           bind (delete_window (Win.screen win) self) (fun _ =>
           bind (add_window screen self) (fun _ =>
           bind (needs_tiling screen) (fun _ =>
           bind (needs_tiling (Win.screen win)) (fun _ =>
           bind (get_win self) (fun win0 =>
             put_win self (Win.set_screen win0 screen)))))))))
       else if negb (eqb (Win.hidden win) (Win.hidden (refreshed PROBE win))) then
         bind (get_win self) (fun win0 => needs_tiling (Win.screen win0))
       else ret tt)
      (fun _ =>
         bind (get_win self) (fun win0 =>
           if Win.id win0 =? get_active_window_id PROBE then reload_active None
           else ret tt)) w1.
Proof.
  intros Hwin Hscr update w1. unfold refresh.
  rewrite (bind_Ok _ _ _ _ _ (get_win_Some _ _ _ Hwin)).
  rewrite (bind_Ok _ _ _ _ _ (get_screen_Some _ _ _ Hscr)).
  cbv zeta.
  rewrite (bind_Ok _ _ _ _ _ (update_attributes_Some _ _ _ _ Hwin)).
  assert (HU : windows w1 !! self = Some (refreshed PROBE win))
    by (cbn; apply lookup_insert_eq).
  fold (refreshed PROBE win). fold w1.
  now rewrite (bind_Ok _ _ _ _ _ (get_win_Some _ _ _ HU)).
Qed.

Lemma moved_away_test PROBE win oldscr :
  moved_away PROBE win oldscr ->
  negb (Viewport.desktop (Screen.viewport oldscr) =? Win.desktop (refreshed PROBE win))
  || negb (is_on_viewport (Screen.viewport oldscr)
             (Attrs.x (get_window PROBE (Win.xobj win)))
             (Attrs.y (get_window PROBE (Win.xobj win))))
  || negb (is_on_screen oldscr
             (Attrs.x (get_window PROBE (Win.xobj win)))
             (Attrs.y (get_window PROBE (Win.xobj win)))) = true.
Proof.
  intros [H|[H|H]].
  - apply Z.eqb_neq in H. cbn. now rewrite H.
  - rewrite H. cbn. now rewrite orb_true_r.
  - rewrite H. cbn. now rewrite orb_true_r.
Qed.

Lemma refresh_end PROBE w self win :
  windows w !! self = Some (refreshed PROBE win) ->
  bind (get_win self) (fun win0 =>
    if Win.id win0 =? get_active_window_id PROBE then reload_active None else ret tt) w
  = (set_trace w (trace w ++ reload_if_active PROBE win), Ok tt).
Proof.
  intros H. rewrite (bind_Ok _ _ _ _ _ (get_win_Some _ _ _ H)).
  unfold reload_if_active. cbn [Win.id refreshed updated Attrs.id Attrs.set_size].
  destruct (_ =? _); [reflexivity|].
  unfold ret, set_trace. rewrite app_nil_r. now destruct w.
Qed.

(** X13. When the probe reports the window on its desktop, on its viewport
    and on its screen, [refresh] takes the snapshot's attributes (with the
    stored width and height), moves the window nowhere, marks its screen
    as needing tiling exactly when the hidden flag changed, and reloads
    the active window exactly when the window is the probe's active one. *)
Theorem refresh_in_place (PROBE : Probe) (w : World) (self : wref) (win : Win.t)
    (oldscr : Screen.t) :
  let update := get_window PROBE (Win.xobj win) in
  windows w !! self = Some win ->
  screens w !! Win.screen win = Some oldscr ->
  Viewport.desktop (Screen.viewport oldscr) = Attrs.desktop update ->
  is_on_viewport (Screen.viewport oldscr) (Attrs.x update) (Attrs.y update) = true ->
  is_on_screen oldscr (Attrs.x update) (Attrs.y update) = true ->
  let changed := negb (eqb (Win.hidden win) (Attrs.hidden update)) in
  refresh PROBE self w
  = (mkWorld (<[self := refreshed PROBE win]> (windows w))
       (if changed then <[Win.screen win := Screen.set_dirty oldscr true]> (screens w)
        else screens w)
       (tilers w) (desktops w)
       (trace w ++ (if changed then [Screen_needs_tiling (Win.screen win)] else [])
        ++ reload_if_active PROBE win),
     Ok tt).
Proof.
  intros update Hwin Hscr Hd Hv Hs changed.
  rewrite (refresh_start PROBE w self win oldscr Hwin Hscr). cbv zeta.
  change (Attrs.x (Attrs.set_size (get_window PROBE (Win.xobj win))
                     (Win.width win) (Win.height win)))
    with (Attrs.x update).
  change (Attrs.y (Attrs.set_size (get_window PROBE (Win.xobj win))
                     (Win.width win) (Win.height win)))
    with (Attrs.y update).
  change (Win.desktop (refreshed PROBE win)) with (Attrs.desktop update).
  change (Win.hidden (refreshed PROBE win)) with (Attrs.hidden update).
  rewrite Hd, Z.eqb_refl, Hv, Hs. cbn [negb orb]. fold changed.
  set (w1 := set_windows w (<[self := refreshed PROBE win]> (windows w))).
  assert (HU : windows w1 !! self = Some (refreshed PROBE win))
    by (cbn; apply lookup_insert_eq).
  destruct changed.
  - unfold bind at 1.
    rewrite (bind_Ok _ _ _ _ _ (get_win_Some _ _ _ HU)).
    change (Win.screen (refreshed PROBE win)) with (Win.screen win).
    rewrite (needs_tiling_run w1 (Win.screen win) oldscr Hscr).
    set (w2 := mkWorld _ _ _ _ _).
    rewrite (refresh_end PROBE w2 self win HU).
    subst w2 w1. cbn. now rewrite <- app_assoc.
  - unfold bind at 1. cbn [ret].
    rewrite (refresh_end PROBE _ self win HU). reflexivity.
Qed.

Lemma refresh_in_place_witness :
  refresh Ex10.PROBE_hidden 0%nat Ex4.w
  = (mkWorld (<[0%nat := refreshed Ex10.PROBE_hidden Ex4.win]> (windows Ex4.w))
       (<[0%nat := Screen.set_dirty Ex4.left true]> (screens Ex4.w))
       (tilers Ex4.w) (desktops Ex4.w)
       ([] ++ [Screen_needs_tiling 0%nat] ++ [State_reload_active None]),
     Ok tt).
Proof.
  apply (refresh_in_place Ex10.PROBE_hidden Ex4.w 0%nat Ex4.win Ex4.left
           eq_refl eq_refl eq_refl eq_refl eq_refl).
Defined.

(** X14. When [refresh] finds the window moved and the desktop the probe
    reports is not tracked, it raises [KeyError] after having overwritten
    the window's attributes: the window now records the untracked desktop
    but stays a member of its old screen, no screen is marked and the
    active window is not reloaded. *)
Theorem refresh_untracked_desktop (PROBE : Probe) (w : World) (self : wref)
    (win : Win.t) (oldscr : Screen.t) :
  windows w !! self = Some win ->
  screens w !! Win.screen win = Some oldscr ->
  moved_away PROBE win oldscr ->
  desktops w !! Attrs.desktop (get_window PROBE (Win.xobj win)) = None ->
  refresh PROBE self w
  = (set_windows w (<[self := refreshed PROBE win]> (windows w)), Raise KeyError).
Proof.
  intros Hwin Hscr Hmoved Hd.
  rewrite (refresh_start PROBE w self win oldscr Hwin Hscr). cbv zeta.
  change (Attrs.x (Attrs.set_size (get_window PROBE (Win.xobj win))
                     (Win.width win) (Win.height win)))
    with (Attrs.x (get_window PROBE (Win.xobj win))).
  change (Attrs.y (Attrs.set_size (get_window PROBE (Win.xobj win))
                     (Win.width win) (Win.height win)))
    with (Attrs.y (get_window PROBE (Win.xobj win))).
  rewrite (moved_away_test PROBE win oldscr Hmoved).
  unfold bind at 1. unfold bind at 1. unfold get_desktops at 1.
  unfold bind at 1.
  change (Win.desktop (refreshed PROBE win))
    with (Attrs.desktop (get_window PROBE (Win.xobj win))).
  cbn [desktops set_windows]. now rewrite Hd.
Qed.

Lemma refresh_untracked_desktop_witness :
  refresh Ex10.PROBE_elsewhere 0%nat Ex4.w
  = (set_windows Ex4.w (<[0%nat := refreshed Ex10.PROBE_elsewhere Ex4.win]> (windows Ex4.w)),
     Raise KeyError).
Proof.
  apply (refresh_untracked_desktop Ex10.PROBE_elsewhere Ex4.w 0%nat Ex4.win Ex4.left
           eq_refl eq_refl).
  - left. discriminate.
  - reflexivity.
Defined.

(** X15. When [refresh] finds the window moved but no screen of the
    reported desktop contains the reported position, the window stays a
    member of its old screen and no screen is marked as needing tiling,
    not even when the hidden flag changed; only the attributes are taken
    and the active window reloaded. *)
Theorem refresh_no_screen_found (PROBE : Probe) (w : World) (self : wref)
    (win : Win.t) (oldscr : Screen.t) (desk : Desktop.t) :
  let update := get_window PROBE (Win.xobj win) in
  windows w !! self = Some win ->
  screens w !! Win.screen win = Some oldscr ->
  moved_away PROBE win oldscr ->
  desktops w !! Attrs.desktop update = Some desk ->
  screens_exist (screens w) desk ->
  matching (screens w) desk (Attrs.x update) (Attrs.y update) = [] ->
  refresh PROBE self w
  = (mkWorld (<[self := refreshed PROBE win]> (windows w)) (screens w) (tilers w)
       (desktops w) (trace w ++ reload_if_active PROBE win),
     Ok tt).
Proof.
  intros update Hwin Hscr Hmoved Hd Hex Hmatch. subst update.
  rewrite (refresh_start PROBE w self win oldscr Hwin Hscr). cbv zeta.
  change (Attrs.x (Attrs.set_size (get_window PROBE (Win.xobj win))
                     (Win.width win) (Win.height win)))
    with (Attrs.x (get_window PROBE (Win.xobj win))).
  change (Attrs.y (Attrs.set_size (get_window PROBE (Win.xobj win))
                     (Win.width win) (Win.height win)))
    with (Attrs.y (get_window PROBE (Win.xobj win))).
  rewrite (moved_away_test PROBE win oldscr Hmoved).
  set (w1 := set_windows w (<[self := refreshed PROBE win]> (windows w))).
  assert (HU : windows w1 !! self = Some (refreshed PROBE win))
    by (cbn; apply lookup_insert_eq).
  unfold bind at 1. unfold bind at 1. unfold get_desktops at 1.
  unfold bind at 1.
  change (Win.desktop (refreshed PROBE win))
    with (Attrs.desktop (get_window PROBE (Win.xobj win))).
  change (desktops w1) with (desktops w). rewrite Hd. cbn [of_option ret].
  rewrite scan_matching;
    [ | intros; eapply relocation_stable; eassumption | exact Hex ].
  change (screens w1) with (screens w). rewrite Hmatch. cbn [for_each ret].
  now rewrite (refresh_end PROBE w1 self win HU).
Qed.

Lemma refresh_no_screen_found_witness :
  refresh Ex10.PROBE_far 0%nat Ex4.w
  = (mkWorld (<[0%nat := refreshed Ex10.PROBE_far Ex4.win]> (windows Ex4.w))
       (screens Ex4.w) (tilers Ex4.w) (desktops Ex4.w)
       ([] ++ reload_if_active Ex10.PROBE_far Ex4.win),
     Ok tt).
Proof.
  apply (refresh_no_screen_found Ex10.PROBE_far Ex4.w 0%nat Ex4.win Ex4.left Ex4.desktop
           eq_refl eq_refl).
  - right. left. reflexivity.
  - reflexivity.
  - intros v s Hv Hs. cbn in Hv. destruct Hv as [<-|[]].
    cbn in Hs. destruct Hs as [<-|[<-|[]]]; eexists; reflexivity.
  - reflexivity.
Defined.

(** ** Loading a window, then deleting it *)

Lemma filter_others (l : list wref) (new : wref) :
  ~ In new l -> List.filter (fun r => negb (Nat.eqb r new)) (l ++ [new]) = l.
Proof.
  intros Hn. rewrite List.filter_app. cbn. rewrite Nat.eqb_refl. cbn.
  rewrite app_nil_r. induction l as [|a l IH]; [reflexivity|].
  cbn. destruct (Nat.eqb_spec a new) as [->|Hne].
  - exfalso. apply Hn. now left.
  - cbn. f_equal. apply IH. intros H. apply Hn. now right.
Qed.

(** X16. When the members of a screen are objects of the store, loading
    an admitted window onto it and then deleting that window gives the
    screen its membership back, in the same order: the screen ends as it
    was but marked as needing tiling, the other screens are untouched, and
    the Window object stays in the store. *)
Theorem load_then_delete (PROBE : Probe) (filters : list string) (w : World)
    (window_id : Z) (desk : Desktop.t) (s : sref) (scr : Screen.t) :
  let attrs := get_window_by_id PROBE window_id in
  Attrs.popup attrs = false ->
  desktops w !! Attrs.desktop attrs = Some desk ->
  screens_exist (screens w) desk ->
  matching (screens w) desk (Attrs.x attrs) (Attrs.y attrs) = [s] ->
  screens w !! s = Some scr ->
  ~ matches_filter filters attrs ->
  (forall k, In k (Screen.windows scr) -> is_Some (windows w !! k)) ->
  exists w1 w2 new scr1,
    load_window PROBE filters window_id w = (w1, Ok tt)
    /\ screens w1 !! s = Some scr1
    /\ In new (Screen.windows scr1)
    /\ delete new w1 = (w2, Ok tt)
    /\ screens w2 = <[s := Screen.set_dirty scr true]> (screens w)
    /\ windows w2 = windows w1
    /\ is_Some (windows w2 !! new).
Proof.
  intros attrs Hp Hd Hex Hmatch Hscr Hnf Hmem.
  set (new := fresh (dom (windows w))).
  assert (Hfresh : ~ In new (Screen.windows scr)).
  { intros Hin. destruct (Hmem new Hin) as [v Hv].
    unfold new in Hv. now rewrite fresh_window in Hv. }
  eexists _, _, new, _.
  split; [exact (load_window_admitted_run PROBE filters w window_id desk s scr
                   Hp Hd Hex Hmatch Hscr Hnf)|].
  split; [cbn; apply lookup_insert_eq|].
  split; [cbn; apply in_or_app; right; now left|].
  set (w1 := mkWorld _ _ _ _ _).
  assert (Hnew : windows w1 !! new = Some (constructed s attrs))
    by (cbn; apply lookup_insert_eq).
  assert (Hs1 : screens w1 !! s
                = Some (Screen.set_dirty
                          (Screen.set_windows scr (Screen.windows scr ++ [new])) true))
    by (cbn; apply lookup_insert_eq).
  unfold delete.
  rewrite (bind_Ok _ _ _ _ _ (get_win_Some _ _ _ Hnew)).
  change (Win.screen (constructed s attrs)) with s.
  rewrite (bind_Ok _ _ _ _ _ (delete_window_run w1 s new _ Hs1)).
  set (w2 := mkWorld _ _ _ _ _).
  assert (Hnew2 : windows w2 !! new = Some (constructed s attrs)) by exact Hnew.
  rewrite (bind_Ok _ _ _ _ _ (get_win_Some _ _ _ Hnew2)).
  change (Win.screen (constructed s attrs)) with s.
  assert (Hs2 : screens w2 !! s
                = Some (Screen.set_dirty
                          (Screen.set_windows scr (Screen.windows scr)) true)).
  { cbn. rewrite lookup_insert_eq. f_equal. cbn.
    unfold Screen.set_dirty, Screen.set_windows. cbn.
    now rewrite (filter_others _ _ Hfresh). }
  rewrite (bind_Ok _ _ _ _ _ (needs_tiling_run w2 s _ Hs2)).
  split; [reflexivity|]. cbn.
  split.
  - rewrite !insert_insert_eq. f_equal; try (now destruct scr).
  - split; [reflexivity|]. rewrite lookup_insert_eq. eauto.
Qed.

Lemma load_then_delete_witness :
  exists w1 w2 new scr1,
    load_window Ex4.PROBE ["gimp"] 7 Ex4.empty = (w1, Ok tt)
    /\ screens w1 !! 1%nat = Some scr1
    /\ In new (Screen.windows scr1)
    /\ delete new w1 = (w2, Ok tt)
    /\ screens w2 = <[1%nat := Screen.set_dirty Ex4.right true]> (screens Ex4.empty)
    /\ windows w2 = windows w1
    /\ is_Some (windows w2 !! new).
Proof.
  apply (load_then_delete Ex4.PROBE ["gimp"] Ex4.empty 7 Ex4.desktop 1%nat Ex4.right
           eq_refl eq_refl).
  - intros v s Hv Hs. cbn in Hv. destruct Hv as [<-|[]].
    cbn in Hs. destruct Hs as [<-|[<-|[]]]; eexists; reflexivity.
  - reflexivity.
  - reflexivity.
  - intros [c0 [c1 [f [Hc [[<-|[]] Hs]]]]]. cbn in Hc. inversion Hc; subst.
    destruct Hs as [Hs|Hs]; apply find_ci_substring in Hs; discriminate.
  - intros k [].
Defined.

(** ** Window.filtered at the edges *)

Lemma lower_ascii_idem c : lower_ascii (lower_ascii c) = lower_ascii c.
Proof.
  destruct c as [b0 b1 b2 b3 b4 b5 b6 b7].
  destruct b0, b1, b2, b3, b4, b5, b6, b7; reflexivity.
Qed.

Lemma lower_idem s : lower (lower s) = lower s.
Proof.
  induction s as [|c s IH]; [reflexivity|].
  cbn. now rewrite lower_ascii_idem, IH.
Qed.

Lemma filtered_loop_lower_filters c filters :
  filtered_loop c (map lower filters) = filtered_loop c filters.
Proof.
  induction filters as [|f filters IH]; [reflexivity|].
  cbn. now rewrite lower_idem, IH.
Qed.

Lemma filtered_loop_lower_class c0 c1 filters :
  filtered_loop (lower c0, lower c1) filters = filtered_loop (c0, c1) filters.
Proof.
  induction filters as [|f filters IH]; [reflexivity|].
  cbn. now rewrite !lower_idem, IH.
Qed.

Lemma filtered_loop_more c filters more :
  filtered_loop c filters = true -> filtered_loop c (filters ++ more) = true.
Proof.
  rewrite !filtered_loop_spec. intros [f [Hin H]]. exists f.
  split; [apply in_or_app; now left | exact H].
Qed.

(** X17. [filtered()] at the edges: with no configured filter no window
    is filtered; an empty filter string filters every window that has a
    class tag; the letter case of the filters does not matter, nor does
    that of the class tag; and configuring more filters never lets through
    a window that was filtered. *)
Theorem filtered_edges (filters : list string) (w : World) (self : wref) (win : Win.t) :
  windows w !! self = Some win ->
  filtered [] self w = (w, Ok false)
  /\ (Win.winclass win <> None -> In EmptyString filters ->
      filtered filters self w = (w, Ok true))
  /\ filtered (map lower filters) self w = filtered filters self w
  /\ (forall c0 c1, Win.winclass win = Some (c0, c1) ->
        filtered filters self w = (w, Ok (filtered_loop (lower c0, lower c1) filters)))
  /\ (forall more, filtered filters self w = (w, Ok true) ->
        filtered (filters ++ more) self w = (w, Ok true)).
Proof.
  intros Hwin. rewrite !(filtered_run _ _ _ _ Hwin). unfold filtered_value.
  split; [now destruct (Win.winclass win)|].
  split.
  { intros Hc Hin. destruct (Win.winclass win) as [[c0 c1]|]; [|contradiction].
    f_equal. f_equal. apply filtered_loop_spec. exists EmptyString.
    split; [exact Hin|]. left. exists EmptyString, (lower c0). reflexivity. }
  split.
  { destruct (Win.winclass win); [|reflexivity]. now rewrite filtered_loop_lower_filters. }
  split.
  { intros c0 c1 ->. now rewrite filtered_loop_lower_class. }
  intros more. rewrite (filtered_run _ _ _ _ Hwin). unfold filtered_value.
  destruct (Win.winclass win) as [c|]; [|discriminate].
  intros E. inversion E as [E']. now rewrite filtered_loop_more.
Qed.

(** The xterm window of [Ex4]: no filter, the empty filter, ["XTERM"]. *)
Lemma filtered_edges_witness :
  filtered [] 0%nat Ex4.w = (Ex4.w, Ok false)
  /\ filtered ["gimp"; ""] 0%nat Ex4.w = (Ex4.w, Ok true)
  /\ filtered (map lower ["XTERM"]) 0%nat Ex4.w = filtered ["XTERM"] 0%nat Ex4.w.
Proof.
  destruct (filtered_edges ["gimp"; ""] Ex4.w 0%nat Ex4.win eq_refl) as (H1 & H2 & _).
  destruct (filtered_edges ["XTERM"] Ex4.w 0%nat Ex4.win eq_refl) as (_ & _ & H3 & _).
  split; [exact H1|]. split; [|exact H3].
  apply H2; [discriminate | right; now left].
Defined.
